(** * A real-time recommendation API: the operationalization notebook

    A shallow embedding of [notebooks/05_operationalize/als_movie_o16n.ipynb]:
    the naming cell, the Cosmos DB provisioning cell, the data-frame
    transformations that build the candidate set, the write of the
    per-user recommendation records, the generated scoring script
    ([init] / [run]) and the deployment cells.

    The notebook is orchestration code.  Calls into the platform SDKs are
    modelled as events of a small program monad whose replies come from an
    environment; the notebook's own control flow (sequencing, [if],
    [try]/[except], subscripts, attribute reads) is modelled as written. *)

From Stdlib Require Import ZArith List String Ascii Lia Permutation QArith.
From stdpp Require Import base option list strings gmap pretty.

Local Open Scope string_scope.
Local Open Scope Z_scope.
Set Warnings "-register-all".

(** ** Python values and exceptions *)

Module Py.

(** An instance of [Exception]: its class and what [str(e)] gives.
    [KeyboardInterrupt] and [SystemExit] are not instances of [Exception]
    and are outside the model. *)
Record exn : Type := Exn { exn_class : string; exn_message : string }.

(** The values the notebook and the scoring script handle.  A float is
    kept by its [repr] text; an SDK object by its class and attributes. *)
Inductive value : Type :=
| VNone
| VBool (b : bool)
| VInt (n : Z)
| VFloat (repr : string)
| VStr (s : string)
| VList (items : list value)
| VDict (entries : list (string * value))
| VExn (e : exn)
| VObj (cls : string) (attrs : list (string * value)).

Definition result (A : Type) : Type := (exn + A)%type.

(** The double quote, for JSON and SQL text. *)
Definition dq : string := String "034" "".

(** The line feed. *)
Definition nl : string := String "010" "".

Fixpoint assoc {A : Type} (k : string) (kv : list (string * A)) : option A :=
  match kv with
  | [] => None
  | (k', v) :: kv' => if String.eqb k k' then Some v else assoc k kv'
  end.

Definition type_name (v : value) : string :=
  match v with
  | VNone => "NoneType"
  | VBool _ => "bool"
  | VInt _ => "int"
  | VFloat _ => "float"
  | VStr _ => "str"
  | VList _ => "list"
  | VDict _ => "dict"
  | VExn e => exn_class e
  | VObj cls _ => cls
  end.

Definition TypeError (msg : string) : exn := Exn "TypeError" msg.
Definition not_subscriptable (v : value) : exn :=
  TypeError ("'" +:+ type_name v +:+ "' object is not subscriptable").

(** [v[0]] *)
Definition getitem0 (v : value) : result value :=
  match v with
  | VList (x :: _) => inr x
  | VList [] => inl (Exn "IndexError" "list index out of range")
  | VStr (String c _) => inr (VStr (String c ""))
  | VStr EmptyString => inl (Exn "IndexError" "string index out of range")
  | VDict _ => inl (Exn "KeyError" "0")
  | _ => inl (not_subscriptable v)
  end.

(** [v[key]] for a string [key] *)
Definition getitem (v : value) (key : string) : result value :=
  match v with
  | VDict kv =>
      match assoc key kv with
      | Some x => inr x
      | None => inl (Exn "KeyError" ("'" +:+ key +:+ "'"))
      end
  | VList _ => inl (TypeError "list indices must be integers or slices, not str")
  | VStr _ => inl (TypeError "string indices must be integers")
  | _ => inl (not_subscriptable v)
  end.

(** [v.name] *)
Definition getattr (v : value) (name : string) : result value :=
  match v with
  | VObj _ attrs =>
      match assoc name attrs with
      | Some x => inr x
      | None =>
          inl (Exn "AttributeError"
                 ("'" +:+ type_name v +:+ "' object has no attribute '" +:+ name +:+ "'"))
      end
  | _ =>
      inl (Exn "AttributeError"
             ("'" +:+ type_name v +:+ "' object has no attribute '" +:+ name +:+ "'"))
  end.

(** [v == False]: true for [False] and for the numbers equal to it. *)
Definition eq_False (v : value) : bool :=
  match v with
  | VBool b => negb b
  | VInt n => Z.eqb n 0
  | _ => false
  end.

(** The builtins the scoring script calls, taken from the interpreter:
    [str], [json.loads] on text and [json.dumps] on text (the script
    passes it nothing else). *)
Record builtins : Type := Builtins {
  str : value -> string;
  json_loads_text : string -> result value;
  json_dumps : string -> string
}.

(** [json.loads(v)]: only text can be decoded. *)
Definition json_loads (B : builtins) (v : value) : result value :=
  match v with
  | VStr s => json_loads_text B s
  | _ =>
      inl (TypeError ("the JSON object must be str, bytes or bytearray, not "
                      +:+ type_name v))
  end.

(** What every interpreter guarantees of [str]: text is its own [str]. *)
Definition str_law (B : builtins) : Prop := forall s, str B (VStr s) = s.

End Py.

Import Py.

(** ** Programs over external calls *)

Module Prog.

(** A call into an SDK or the platform: the callee as the notebook writes
    it, and the arguments. *)
Record call : Type := Call { callee : string; args : list value }.

(** One step of a run: the call and what came back. *)
Definition event : Type := (call * result value)%type.
Definition trace : Type := list event.

(** Straight-line interaction: return, or make a call and continue with
    its reply (a value or a raised exception). *)
Inductive io (R : Type) : Type :=
| Done (r : R)
| Ask (c : call) (k : result value -> io R).
Arguments Done {R} r.
Arguments Ask {R} c k.

Fixpoint io_bind {R S : Type} (p : io R) (f : R -> io S) : io S :=
  match p with
  | Done r => f r
  | Ask c k => Ask c (fun x => io_bind (k x) f)
  end.

(** The environment answers calls and keeps the platform's state. *)
Definition env (W : Type) : Type := call -> W -> result value * W.

Fixpoint exec {W R : Type} (h : env W) (p : io R) (w : W) : trace * R * W :=
  match p with
  | Done r => ([], r, w)
  | Ask c k =>
      let '(x, w1) := h c w in
      let '(t, r, w2) := exec h (k x) w1 in
      ((c, x) :: t, r, w2)
  end.

(** Python code with variables of type [G]: an exception leaves the
    assignments made before it in place. *)
Definition M (G R : Type) : Type := G -> io (result R * G).

Definition ret {G R : Type} (r : R) : M G R := fun g => Done (inr r, g).
Definition raise {G R : Type} (e : exn) : M G R := fun g => Done (inl e, g).

Definition bind {G R S : Type} (m : M G R) (f : R -> M G S) : M G S :=
  fun g =>
    io_bind (m g) (fun '(x, g1) =>
      match x with
      | inl e => Done (inl e, g1)
      | inr r => f r g1
      end).

(** [try: m except Exception as e: handler e] *)
Definition try_except {G R : Type} (m : M G R) (handler : exn -> M G R) : M G R :=
  fun g =>
    io_bind (m g) (fun '(x, g1) =>
      match x with
      | inl e => handler e g1
      | inr r => Done (inr r, g1)
      end).

(** An SDK call: its exception, if any, is raised at the call site. *)
Definition ext {G : Type} (f : string) (a : list value) : M G value :=
  fun g => Ask (Call f a) (fun x => Done (x, g)).

(** A pure Python operation that may raise. *)
Definition lift {G R : Type} (x : result R) : M G R := fun g => Done (x, g).

Definition run_M {W G R : Type} (h : env W) (m : M G R) (g : G) (w : W)
  : trace * (result R * G) * W := exec h (m g) w.

Definition trace_of {W G R : Type} (h : env W) (m : M G R) (g : G) (w : W) : trace :=
  (run_M h m g w).1.1.
Definition outcome_of {W G R : Type} (h : env W) (m : M G R) (g : G) (w : W) : result R :=
  (run_M h m g w).1.2.1.
Definition vars_of {W G R : Type} (h : env W) (m : M G R) (g : G) (w : W) : G :=
  (run_M h m g w).1.2.2.
Definition world_of {W G R : Type} (h : env W) (m : M G R) (g : G) (w : W) : W :=
  (run_M h m g w).2.

(** The callees of a trace, in order. *)
Definition callees (t : trace) : list string := map (fun ev => callee ev.1) t.

End Prog.

Import Prog.

Declare Scope py_scope.
Delimit Scope py_scope with py.
Notation "x <- m ;; k" := (bind m (fun x => k))
  (at level 100, m at next level, right associativity) : py_scope.
Notation "m ;;; k" := (bind m (fun _ => k))
  (at level 100, right associativity) : py_scope.

(** ** Cells 6 and 7: the service names *)

Module Names.

(** [s[0:n]] *)
Fixpoint slice0 (n : nat) (s : string) : string :=
  match n, s with
  | O, _ => ""
  | S _, EmptyString => ""
  | S n', String c s' => String c (slice0 n' s')
  end.

(** [s.replace(old, new)] for one-character [old] and [new]. *)
Fixpoint replace (old new : ascii) (s : string) : string :=
  match s with
  | EmptyString => ""
  | String c s' => String (if Ascii.eqb c old then new else c) (replace old new s')
  end.

(** Whether [p] is the beginning of [s]. *)
Fixpoint starts_with (p s : string) : bool :=
  match p, s with
  | EmptyString, _ => true
  | String a p', String b s' => Ascii.eqb a b && starts_with p' s'
  | String _ _, EmptyString => false
  end.

(** [s.replace(old, new)] for a non-empty [old], from left to right:
    [skip] counts the characters of an occurrence still to be passed
    over. *)
Fixpoint replace_from (old new : string) (skip : nat) (s : string) : string :=
  match s with
  | EmptyString => ""
  | String c s' =>
      match skip with
      | S n => replace_from old new n s'
      | O =>
          if starts_with old s
          then new +:+ replace_from old new (String.length old - 1) s'
          else String c (replace_from old new 0 s')
      end
  end.

Definition str_replace (old new s : string) : string := replace_from old new 0 s.

Definition data : string := "mvl".
Definition algo : string := "als".

(** [uuid_text] is [str(uuid.uuid4())]. *)
Definition short_uuid (uuid_text : string) : string := slice0 4 uuid_text.
Definition prefix (uuid_text : string) : string := "reco" +:+ short_uuid uuid_text.

Definition resource_group (u : string) : string := prefix u +:+ "_" +:+ data.
Definition workspace_name (u : string) : string := prefix u +:+ "_" +:+ data +:+ "_aml".
Definition workspace_region : string := "westus2".
Definition location : string := workspace_region.

Definition userCol : string := "UserId".
Definition itemCol : string := "MovieId".
Definition ratingCol : string := "Rating".

(** [account_name = resource_group + "-ds-sql"], before the truncation. *)
Definition account_name_full (u : string) : string := resource_group u +:+ "-ds-sql".

(** [account_name.replace("_","-")[0:min(31,len(prefix))]] *)
Definition account_name (u : string) : string :=
  slice0 (Nat.min 31 (String.length (prefix u)))
         (replace "_" "-" (account_name_full u)).

Definition DOCUMENTDB_DATABASE : string := "recommendations".
Definition DOCUMENTDB_COLLECTION : string := "user_recommendations_" +:+ algo.

Definition history_name : string := "spark-ml-notebook".
Definition model_name : string := data +:+ "-" +:+ algo +:+ "-reco.mml".
Definition service_name : string := data +:+ "-" +:+ algo.
Definition aks_name (u : string) : string :=
  slice0 (Nat.min 12 (String.length (prefix u))) (replace "_" "-" (prefix u)) +:+ "-aks".
Definition experiment_name : string := data +:+ "_" +:+ algo +:+ "_Experiment".
Definition container_image_name : string := data +:+ "-" +:+ algo.

Definition train_data_path : string := data +:+ "Train".
Definition test_data_path : string := data +:+ "Test".

Definition secrets_path : string := "/dbfs/FileStore/dbsecrets.json".
Definition ws_config_path : string := "/dbfs/FileStore".
Definition subscription_id : string := "".

(** The canonical text of a UUID: 36 characters, hyphens at offsets 8,
    13, 18 and 23, lower-case hexadecimal digits elsewhere. *)
Definition is_hex (c : ascii) : bool :=
  let n := nat_of_ascii c in
  ((48 <=? n)%nat && (n <=? 57)%nat) || ((97 <=? n)%nat && (n <=? 102)%nat).

Fixpoint uuid_shape (i : nat) (s : string) : bool :=
  match s with
  | EmptyString => Nat.eqb i 36
  | String c s' =>
      (if (Nat.eqb i 8 || Nat.eqb i 13 || Nat.eqb i 18 || Nat.eqb i 23)%bool
       then Ascii.eqb c "-" else is_hex c)
      && uuid_shape (S i) s'
  end.

Definition is_uuid_text (s : string) : bool := uuid_shape 0 s.

Fixpoint contains_char (c : ascii) (s : string) : bool :=
  match s with
  | EmptyString => false
  | String c' s' => Ascii.eqb c' c || contains_char c s'
  end.

(** A character allowed in the name of an AKS cluster: a letter, a digit
    or a hyphen. *)
Definition is_name_char (c : ascii) : bool :=
  let n := nat_of_ascii c in
  ((48 <=? n)%nat && (n <=? 57)%nat) || ((65 <=? n)%nat && (n <=? 90)%nat)
  || ((97 <=? n)%nat && (n <=? 122)%nat) || Ascii.eqb c "-".

Fixpoint all_chars (p : ascii -> bool) (s : string) : bool :=
  match s with
  | EmptyString => true
  | String c s' => p c && all_chars p s'
  end.

End Names.

(** ** Cell 37: the generated scoring script *)

Module Score.

Local Open Scope py_scope.

(** The values substituted into the script template: [{key}],
    [{endpoint}], [{database}] and [{collection}] come from the secrets
    file, [{DOCUMENTDB_DATABASE}] and [{DOCUMENTDB_COLLECTION}] from the
    notebook.  The substituted texts are taken to be free of quotes,
    backslashes and braces, so that the template stays the program it
    reads as. *)
Record config : Type := Config {
  key : string;
  endpoint : string;
  database : string;
  collection : string
}.

(** The text of the scoring script, by what stands at the six places
    the notebook fills in: [k], [e], [d] and [c] for [{key}],
    [{endpoint}], [{database}] and [{collection}], [db] and [coll] for
    [{DOCUMENTDB_DATABASE}] and [{DOCUMENTDB_COLLECTION}]. *)
Definition script (k e d c db coll : string) : string :=
  nl +:+
  nl +:+
  "import json" +:+ nl +:+
  "def init(local=False):" +:+ nl +:+
  "    global client, collection" +:+ nl +:+
  "    try:" +:+ nl +:+
  "      # Query them in SQL" +:+ nl +:+
  "      import pydocumentdb.document_client as document_client" +:+ nl +:+
  nl +:+
  "      MASTER_KEY = '" +:+ k +:+ "'" +:+ nl +:+
  "      HOST = '" +:+ e +:+ "'" +:+ nl +:+
  "      DATABASE_ID = " +:+ dq +:+ d +:+ dq +:+ nl +:+
  "      COLLECTION_ID = " +:+ dq +:+ c +:+ dq +:+ nl +:+
  "      database_link = 'dbs/' + DATABASE_ID" +:+ nl +:+
  "      collection_link = database_link + '/colls/' + COLLECTION_ID" +:+ nl +:+
  "      " +:+ nl +:+
  "      client = document_client.DocumentClient(HOST, {'masterKey': MASTER_KEY})" +:+ nl +:+
  "      collection = client.ReadCollection(collection_link=collection_link)" +:+ nl +:+
  "    except Exception as e:" +:+ nl +:+
  "      collection = e" +:+ nl +:+
  "def run(input_json):      " +:+ nl +:+
  nl +:+
  "    try:" +:+ nl +:+
  "      import json" +:+ nl +:+
  nl +:+
  "      id = json.loads(json.loads(input_json)[0])['id']" +:+ nl +:+
  "      query = {'query': 'SELECT * FROM c WHERE c.id = " +:+ dq +:+ "' + str(id) +'" +:+ dq +:+ "' } #+ str(id)" +:+ nl +:+
  nl +:+
  "      options = {'partitionKey':str(id)}" +:+ nl +:+
  "      document_link = 'dbs/" +:+ db +:+ "/colls/" +:+ coll +:+ "/docs/{0}'.format(id)" +:+ nl +:+
  "      result = client.ReadDocument(document_link, options);" +:+ nl +:+
  "  " +:+ nl +:+
  "    except Exception as e:" +:+ nl +:+
  "        result = str(e)" +:+ nl +:+
  "    return json.dumps(str(result)) #json.dumps({{" +:+ dq +:+ "result" +:+ dq +:+ ":result}})" +:+ nl.

(** [score_sparkml] as cell 37 first binds it: the places hold their
    own names. *)
Definition template : string :=
  script "{key}" "{endpoint}" "{database}" "{collection}"
         "{DOCUMENTDB_DATABASE}" "{DOCUMENTDB_COLLECTION}".

(** The module's globals; [None] is a name not yet bound. *)
Record globals : Type := Globals {
  client : option value;
  collection_var : option value
}.

Definition unbound : globals := Globals None None.

Definition set_client (c : value) : M globals unit :=
  fun g => Done (inr tt, Globals (Some c) (collection_var g)).
Definition set_collection (c : value) : M globals unit :=
  fun g => Done (inr tt, Globals (client g) (Some c)).

(** Reading the global [client]. *)
Definition get_client : M globals value :=
  fun g =>
    match client g with
    | Some c => Done (inr c, g)
    | None => Done (inl (Exn "NameError" "name 'client' is not defined"), g)
    end.

Section Script.

Variable B : builtins.
Variable cfg : config.

(** [def init(local=False)] *)
Definition init : M globals unit :=
  try_except
    (_ <- ext "import" [VStr "pydocumentdb.document_client"] ;;
     let MASTER_KEY := key cfg in
     let HOST := endpoint cfg in
     let DATABASE_ID := database cfg in
     let COLLECTION_ID := collection cfg in
     let database_link := "dbs/" +:+ DATABASE_ID in
     let collection_link := database_link +:+ "/colls/" +:+ COLLECTION_ID in
     c <- ext "document_client.DocumentClient"
            [VStr HOST; VDict [("masterKey", VStr MASTER_KEY)]] ;;
     set_client c ;;;
     col <- ext "client.ReadCollection" [c; VStr collection_link] ;;
     set_collection col)
    (fun e => set_collection (VExn e)).

(** The document link [run] reads: the template's
    ['dbs/{DOCUMENTDB_DATABASE}/colls/{DOCUMENTDB_COLLECTION}/docs/{0}'.format(id)]
    after substitution. *)
Definition document_link_of (id : value) : string :=
  "dbs/" +:+ Names.DOCUMENTDB_DATABASE +:+ "/colls/" +:+ Names.DOCUMENTDB_COLLECTION
  +:+ "/docs/" +:+ str B id.

Definition options_of (id : value) : value :=
  VDict [("partitionKey", VStr (str B id))].

(** [json.loads(json.loads(input_json)[0])['id']] *)
Definition request_id (input_json : string) : result value :=
  match json_loads B (VStr input_json) with
  | inl e => inl e
  | inr outer =>
      match getitem0 outer with
      | inl e => inl e
      | inr first =>
          match json_loads B first with
          | inl e => inl e
          | inr inner => getitem inner "id"
          end
      end
  end.

(** The body of [run]'s [try] block; [query] is built and never used. *)
Definition lookup (input_json : string) : M globals value :=
  id <- lift (request_id input_json) ;;
  let query :=
    VDict [("query",
            VStr ("SELECT * FROM c WHERE c.id = " +:+ dq +:+ str B id +:+ dq))] in
  let options := options_of id in
  let document_link := document_link_of id in
  c <- get_client ;;
  ext "client.ReadDocument" [c; VStr document_link; options].

(** [def run(input_json)] *)
Definition run (input_json : string) : M globals string :=
  result <- try_except (lookup input_json)
              (fun e => ret (VStr (exn_message e))) ;;
  ret (json_dumps B (str B result)).

End Script.

(** The request body of the demonstration client (cell 50):
    [["{\"id\":\"496\"}"]]. *)
Definition input_data : string :=
  "[" +:+ dq +:+ "{\" +:+ dq +:+ "id\" +:+ dq +:+ ":\" +:+ dq +:+ "496\" +:+ dq
  +:+ "}" +:+ dq +:+ "]".

End Score.

(** ** A reference interpreter for the builtins

    The theorems about the script hold for every [builtins]; this
    instance, for ASCII text and integer numbers, is what the examples
    evaluate. *)

Module Ref.

Definition is_ws (c : ascii) : bool :=
  let n := nat_of_ascii c in
  (Nat.eqb n 32 || Nat.eqb n 9 || Nat.eqb n 10 || Nat.eqb n 13)%bool.

Fixpoint skip_ws (s : string) : string :=
  match s with
  | String c s' => if is_ws c then skip_ws s' else s
  | EmptyString => s
  end.

Definition is_digit (c : ascii) : bool :=
  let n := nat_of_ascii c in ((48 <=? n)%nat && (n <=? 57)%nat)%bool.

(** The digits at the head of [s], as a number, and the rest. *)
Fixpoint digits (acc : Z) (s : string) : Z * string :=
  match s with
  | String c s' =>
      if is_digit c
      then digits (10 * acc + Z.of_nat (nat_of_ascii c - 48)) s'
      else (acc, s)
  | EmptyString => (acc, s)
  end.

(** The body of a JSON string, after its opening quote. *)
Fixpoint string_body (s : string) : option (string * string) :=
  match s with
  | EmptyString => None
  | String c s' =>
      if Ascii.eqb c "034" then Some ("", s')
      else if Ascii.eqb c "\" then
        match s' with
        | String e s'' =>
            let unescaped :=
              if Ascii.eqb e "n" then Some "010"%char
              else if Ascii.eqb e "t" then Some "009"%char
              else if Ascii.eqb e "r" then Some "013"%char
              else if Ascii.eqb e "b" then Some "008"%char
              else if Ascii.eqb e "f" then Some "012"%char
              else if (Ascii.eqb e "034" || Ascii.eqb e "\" || Ascii.eqb e "/")%bool
                   then Some e
              else None in
            match unescaped, string_body s'' with
            | Some u, Some (body, rest) => Some (String u body, rest)
            | _, _ => None
            end
        | EmptyString => None
        end
      else if (nat_of_ascii c <? 32)%nat then None
      else
        match string_body s' with
        | Some (body, rest) => Some (String c body, rest)
        | None => None
        end
  end.

(** Later bindings of a key replace earlier ones, as in a [dict]. *)
Fixpoint dict_set (k : string) (v : value) (kv : list (string * value))
  : list (string * value) :=
  match kv with
  | [] => [(k, v)]
  | (k', v') :: kv' =>
      if String.eqb k k' then (k, v) :: kv' else (k', v') :: dict_set k v kv'
  end.

Fixpoint parse_value (fuel : nat) (s : string) : option (value * string) :=
  match fuel with
  | O => None
  | S fuel' =>
      match skip_ws s with
      | String "[" r =>
          match skip_ws r with
          | String "]" r' => Some (VList [], r')
          | _ => parse_items fuel' r []
          end
      | String "{" r =>
          match skip_ws r with
          | String "}" r' => Some (VDict [], r')
          | _ => parse_members fuel' r []
          end
      | String "034" r =>
          match string_body r with
          | Some (body, rest) => Some (VStr body, rest)
          | None => None
          end
      | String "t" (String "r" (String "u" (String "e" r))) => Some (VBool true, r)
      | String "f" (String "a" (String "l" (String "s" (String "e" r)))) =>
          Some (VBool false, r)
      | String "n" (String "u" (String "l" (String "l" r))) => Some (VNone, r)
      | String "-" (String c r) =>
          if is_digit c then
            let '(n, rest) := digits 0 (String c r) in Some (VInt (- n), rest)
          else None
      | String c r =>
          if is_digit c then
            let '(n, rest) := digits 0 (String c r) in Some (VInt n, rest)
          else None
      | EmptyString => None
      end
  end
with parse_items (fuel : nat) (s : string) (acc : list value)
  : option (value * string) :=
  match fuel with
  | O => None
  | S fuel' =>
      match parse_value fuel' s with
      | Some (v, rest) =>
          match skip_ws rest with
          | String "," r => parse_items fuel' r (acc ++ [v])
          | String "]" r => Some (VList (acc ++ [v]), r)
          | _ => None
          end
      | None => None
      end
  end
with parse_members (fuel : nat) (s : string) (acc : list (string * value))
  : option (value * string) :=
  match fuel with
  | O => None
  | S fuel' =>
      match skip_ws s with
      | String "034" r =>
          match string_body r with
          | Some (k, rest) =>
              match skip_ws rest with
              | String ":" r' =>
                  match parse_value fuel' r' with
                  | Some (v, rest') =>
                      match skip_ws rest' with
                      | String "," r'' => parse_members fuel' r'' (dict_set k v acc)
                      | String "}" r'' => Some (VDict (dict_set k v acc), r'')
                      | _ => None
                      end
                  | None => None
                  end
              | _ => None
              end
          | None => None
          end
      | _ => None
      end
  end.

Definition JSONDecodeError : exn :=
  Exn "JSONDecodeError" "Expecting value: line 1 column 1 (char 0)".

(** [json.loads] on text: one value, then only white space. *)
Definition loads (s : string) : result value :=
  match parse_value (S (String.length s)) s with
  | Some (v, rest) =>
      match skip_ws rest with
      | EmptyString => inr v
      | _ => inl (Exn "JSONDecodeError" "Extra data")
      end
  | None => inl JSONDecodeError
  end.

Definition hex_digit (n : nat) : ascii :=
  ascii_of_nat (if (n <? 10)%nat then 48 + n else 87 + n).

(** The characters of a JSON string literal for [s]. *)
Fixpoint json_escape (s : string) : string :=
  match s with
  | EmptyString => ""
  | String c s' =>
      let n := nat_of_ascii c in
      (if Ascii.eqb c "034" then "\" +:+ dq
       else if Ascii.eqb c "\" then "\\"
       else if Nat.eqb n 10 then "\n"
       else if Nat.eqb n 13 then "\r"
       else if Nat.eqb n 9 then "\t"
       else if Nat.eqb n 8 then "\b"
       else if Nat.eqb n 12 then "\f"
       else if (n <? 32)%nat
            then "\u00" +:+ String (hex_digit (n / 16)) (String (hex_digit (n mod 16)) "")
       else String c "")
      +:+ json_escape s'
  end.

Fixpoint join (sep : string) (l : list string) : string :=
  match l with
  | [] => ""
  | [x] => x
  | x :: l' => x +:+ sep +:+ join sep l'
  end.

(** [repr] of text: single quotes unless the text has one and no double
    quote. *)
Definition repr_text (s : string) : string :=
  let q : ascii :=
    if (Names.contains_char "'" s && negb (Names.contains_char "034" s))%bool
    then "034"%char else "'"%char in
  let fix go (s : string) : string :=
    match s with
    | EmptyString => ""
    | String c s' =>
        let n := nat_of_ascii c in
        (if (Ascii.eqb c q || Ascii.eqb c "\")%bool then String "\" (String c "")
         else if Nat.eqb n 10 then "\n"
         else if Nat.eqb n 13 then "\r"
         else if Nat.eqb n 9 then "\t"
         else if ((n <? 32)%nat || Nat.eqb n 127)%bool
              then "\x" +:+ String (hex_digit (n / 16)) (String (hex_digit (n mod 16)) "")
         else String c "")
        +:+ go s'
    end in
  String q (go s) +:+ String q "".

Fixpoint repr (v : value) : string :=
  match v with
  | VNone => "None"
  | VBool true => "True"
  | VBool false => "False"
  | VInt n => pretty n
  | VFloat r => r
  | VStr s => repr_text s
  | VList l => "[" +:+ join ", " (map repr l) +:+ "]"
  | VDict kv =>
      "{" +:+ join ", " (map (fun '(k, x) => repr_text k +:+ ": " +:+ repr x) kv) +:+ "}"
  | VExn e => exn_class e +:+ "(" +:+ repr_text (exn_message e) +:+ ")"
  | VObj cls _ => "<" +:+ cls +:+ " object>"
  end.

Definition str (v : value) : string :=
  match v with
  | VStr s => s
  | VExn e => exn_message e
  | _ => repr v
  end.

(** [json.dumps] on text. *)
Definition dumps (s : string) : string := dq +:+ json_escape s +:+ dq.

Definition python : builtins := Builtins str loads dumps.

End Ref.

(** ** The notebook's cells

    Each cell is a program over the SDK calls it makes, in the order it
    makes them.  A cell takes the variables it reads from earlier cells
    and returns the ones it binds.  What [print] writes is left out;
    the formatting and the arithmetic of its arguments, which can raise,
    are kept. *)

Module Notebook.

Local Open Scope py_scope.

Import Names.

(** [a, b = v] *)
Definition unpack2 (v : value) : result (value * value) :=
  match v with
  | VList [a; b] => inr (a, b)
  | VList (_ :: _ :: _ :: _) =>
      inl (Exn "ValueError" "too many values to unpack (expected 2)")
  | VList _ => inl (Exn "ValueError" "not enough values to unpack (expected 2)")
  | _ =>
      inl (TypeError ("cannot unpack non-iterable " +:+ type_name v +:+ " object"))
  end.

(** [s + v] for text [s]: only text can be appended. *)
Definition str_add (s : string) (v : value) : result string :=
  match v with
  | VStr t => inr (s +:+ t)
  | _ =>
      inl (TypeError ("can only concatenate str (not " +:+ dq +:+ type_name v +:+ dq
                      +:+ ") to str"))
  end.

(** An argument of [str.replace] must be text. *)
Definition as_text (v : value) : result string :=
  match v with
  | VStr s => inr s
  | _ =>
      inl (TypeError ("replace() argument 2 must be str, not " +:+ type_name v))
  end.

(** What [%d], [%f] and [-] take: an int, a float or a bool.  SDK
    objects are taken not to be numbers. *)
Definition is_number (v : value) : bool :=
  match v with
  | VInt _ | VFloat _ | VBool _ => true
  | _ => false
  end.

(** ["...%d" % v]: the text is printed and dropped, the check stays.  A
    float that is not finite has no integer. *)
Definition format_d (v : value) : result unit :=
  match v with
  | VInt _ | VBool _ => inr tt
  | VFloat r =>
      if String.eqb r "nan"
      then inl (Exn "ValueError" "cannot convert float NaN to integer")
      else if (String.eqb r "inf" || String.eqb r "-inf")%bool
      then inl (Exn "OverflowError" "cannot convert float infinity to integer")
      else inr tt
  | _ => inl (TypeError ("%d format: a number is required, not " +:+ type_name v))
  end.

(** ["...%f" % v] and ["...%.2f" % v] *)
Definition format_f (v : value) : result unit :=
  if is_number v then inr tt
  else inl (TypeError ("must be real number, not " +:+ type_name v)).

(** [a - b] on timer readings: the difference is printed and dropped. *)
Definition sub (a b : value) : result unit :=
  if (is_number a && is_number b)%bool then inr tt
  else
    inl (TypeError ("unsupported operand type(s) for -: '" +:+ type_name a
                    +:+ "' and '" +:+ type_name b +:+ "'")).

(** [train] and [test] as cell 18 unpacks them from the split. *)
Definition train_of (split : value) : option value :=
  match unpack2 split with inr p => Some p.1 | inl _ => None end.
Definition test_of (split : value) : option value :=
  match unpack2 split with inr p => Some p.2 | inl _ => None end.

Section Cells.

Variable B : builtins.

(** [str(uuid.uuid4())], the one random draw of the notebook. *)
Variable uuid_text : string.

Abbreviation NB := (M unit).

(** Cell 9, section 1.1: the Azure ML workspace. *)
Definition create_workspace : NB value :=
  ws <- ext "Workspace.create"
          [VStr (workspace_name uuid_text); VStr subscription_id;
           VStr (resource_group uuid_text); VStr workspace_region; VBool true] ;;
  _ <- ext "ws.write_config" [ws; VStr ws_config_path] ;;
  ret ws.

(** Cell 11, first half: the Cosmos DB account and its keys. *)
Definition create_account : NB (string * value) :=
  client <- ext "get_client_from_cli_profile"
              [VStr "azure.mgmt.cosmosdb.CosmosDB"; VStr subscription_id] ;;
  async_cosmosdb_create <-
    ext "client.database_accounts.create_or_update"
      [client; VStr (resource_group uuid_text); VStr (account_name uuid_text);
       VDict [("location", VStr location);
              ("locations", VList [VDict [("location_name", VStr location)]])]] ;;
  account <- ext "async_cosmosdb_create.result" [async_cosmosdb_create] ;;
  my_keys <- ext "client.database_accounts.list_keys"
               [client; VStr (resource_group uuid_text); VStr (account_name uuid_text)] ;;
  master_key <- lift (getattr my_keys "primary_master_key") ;;
  let endpoint := "https://" +:+ account_name uuid_text +:+ ".documents.azure.com:443/" in
  ret (endpoint, master_key).

Definition options : value := VDict [("offerThroughput", VInt 11000)].

Definition collection_definition : value :=
  VDict [("id", VStr DOCUMENTDB_COLLECTION);
         ("partitionKey",
          VDict [("paths", VList [VStr "/id"]); ("kind", VStr "Hash")])].

(** Cell 11, second half: the database and the collection. *)
Definition create_store (endpoint : string) (master_key : value)
  : NB (value * value) :=
  client <- ext "document_client.DocumentClient"
              [VStr endpoint; VDict [("masterKey", master_key)]] ;;
  found <- ext "find_database" [client; VStr DOCUMENTDB_DATABASE] ;;
  db <- (if eq_False found
         then ext "client.CreateDatabase" [client; VDict [("id", VStr DOCUMENTDB_DATABASE)]]
         else ext "read_database" [client; VStr DOCUMENTDB_DATABASE]) ;;
  found <- ext "find_collection"
             [client; VStr DOCUMENTDB_DATABASE; VStr DOCUMENTDB_COLLECTION] ;;
  collection <-
    (if eq_False found
     then (self <- lift (getitem db "_self") ;;
           ext "client.CreateCollection" [client; self; collection_definition; options])
     else ext "read_collection"
            [client; VStr DOCUMENTDB_DATABASE; VStr DOCUMENTDB_COLLECTION]) ;;
  ret (db, collection).

(** Cell 11, section 1.2. *)
Definition create_cosmosdb : NB (string * value) :=
  acct <- create_account ;;
  _ <- create_store acct.1 acct.2 ;;
  ret acct.

(** Cell 12: the secrets file ([with open(secrets_path, "w")]). *)
Definition secrets (endpoint : string) (master_key : value) : value :=
  VDict [("Endpoint", VStr endpoint);
         ("Masterkey", master_key);
         ("Database", VStr DOCUMENTDB_DATABASE);
         ("Collection", VStr DOCUMENTDB_COLLECTION);
         ("Upsert", VStr "true")].

Definition write_secrets (endpoint : string) (master_key : value) : NB unit :=
  _ <- ext "json.dump" [secrets endpoint master_key; VStr secrets_path] ;;
  ret tt.

Definition TOP_K : Z := 10.
Definition MOVIELENS_DATA_SIZE : string := "100k".

(** Cells 16 and 18, sections 2.1 and 2.2: load and split. *)
Definition load_and_split : NB (value * value) :=
  data <- ext "movielens.load_spark_df" [VStr MOVIELENS_DATA_SIZE] ;;
  _ <- ext "data.show" [data] ;;
  split <- ext "spark_random_split" [data; VFloat "0.75"; VInt 42] ;;
  tt2 <- lift (unpack2 split) ;;
  _ <- ext "train.cache().count" [tt2.1] ;;
  _ <- ext "test.cache().count" [tt2.2] ;;
  ret tt2.

Definition header : list (string * value) :=
  [("userCol", VStr "UserId"); ("itemCol", VStr "MovieId"); ("ratingCol", VStr "Rating")].

(** Cells 20 and 21, section 2.3: fit the ALS model. *)
Definition fit_model (train : value) : NB value :=
  als <- ext "ALS"
           [VDict ([("rank", VInt 10); ("maxIter", VInt 15);
                    ("implicitPrefs", VBool false); ("alpha", VFloat "0.1");
                    ("regParam", VFloat "0.05"); ("coldStartStrategy", VStr "drop");
                    ("nonnegative", VBool true)] ++ header)] ;;
  ext "als.fit" [als; train].

(** Cells 23 to 25: score all user-item pairs, remove the seen ones. *)
Definition score_candidates (train model : value) : NB value :=
  users <- ext "train.select().distinct" [train; VStr "UserId"] ;;
  items <- ext "train.select().distinct" [train; VStr "MovieId"] ;;
  user_item <- ext "users.crossJoin" [users; items] ;;
  dfs_pred <- ext "model.transform" [model; user_item] ;;
  _ <- ext "dfs_pred.show" [dfs_pred] ;;
  dfs_pred_exclude_train <- ext "dfs_pred.alias().join" [dfs_pred; train; VStr "outer"] ;;
  top_all <- ext "dfs_pred_exclude_train.filter().select" [dfs_pred_exclude_train] ;;
  _ <- ext "top_all.show" [top_all] ;;
  ret top_all.

(** Cells 27 to 30, section 2.4: the evaluation metrics.  Each metric is
    formatted, with [%d] or [%f], as soon as it has been computed. *)
Definition evaluate (test top_all model : value) : NB unit :=
  _ <- ext "test.show" [test] ;;
  rank_eval <- ext "SparkRankingEvaluation" [test; top_all; VInt TOP_K] ;;
  k <- lift (getattr rank_eval "k") ;;
  _ <- lift (format_d k) ;;
  map_at_k <- ext "rank_eval.map_at_k" [rank_eval] ;;
  _ <- lift (format_f map_at_k) ;;
  ndcg_at_k <- ext "rank_eval.ndcg_at_k" [rank_eval] ;;
  _ <- lift (format_f ndcg_at_k) ;;
  precision_at_k <- ext "rank_eval.precision_at_k" [rank_eval] ;;
  _ <- lift (format_f precision_at_k) ;;
  recall_at_k <- ext "rank_eval.recall_at_k" [rank_eval] ;;
  _ <- lift (format_f recall_at_k) ;;
  prediction <- ext "model.transform" [model; test] ;;
  rating_eval <- ext "SparkRatingEvaluation" [test; prediction] ;;
  rmse <- ext "rating_eval.rmse" [rating_eval] ;;
  _ <- lift (format_f rmse) ;;
  mae <- ext "rating_eval.mae" [rating_eval] ;;
  _ <- lift (format_f mae) ;;
  exp_var <- ext "rating_eval.exp_var" [rating_eval] ;;
  _ <- lift (format_f exp_var) ;;
  rsquared <- ext "rating_eval.rsquared" [rating_eval] ;;
  _ <- lift (format_f rsquared) ;;
  ret tt.

(** Cell 32, section 2.5: save the model. *)
Definition save_model (model : value) : NB unit :=
  _ <- ext "model.write().overwrite().save" [model; VStr model_name] ;;
  cwd <- ext "os.getcwd" [] ;;
  file_cwd <- lift (str_add "file:" cwd) ;;
  let model_local := file_cwd +:+ "/" +:+ model_name in
  _ <- ext "dbutils.fs.cp" [VStr model_name; VStr model_local; VBool true] ;;
  ret tt.

(** Cell 35, section 3.1: the look-up table in Cosmos DB.  The call
    [recs.withColumn().select] carries the new column, the column it is
    cast from, the type of the cast and the selected field. *)
Definition write_recommendations (model : value) : NB unit :=
  writeConfig <- ext "json.load" [VStr secrets_path] ;;
  recs <- ext "model.recommendForAllUsers" [model; VInt 10] ;;
  rows <- ext "recs.withColumn().select"
            [recs; VStr "id"; VStr userCol; VStr "string";
             VStr ("recommendations." +:+ itemCol)] ;;
  _ <- ext "write.format().mode().options().save"
         [rows; VStr "com.microsoft.azure.cosmosdb.spark"; VStr "overwrite"; writeConfig] ;;
  ret tt.

(** Cell 37, section 3.2: fill in the scoring script, one [replace]
    after the other, execute it and write it.  What the cell returns
    here is what it read from the secrets. *)
Definition write_score_script : NB Score.config :=
  writeConfig <- ext "json.load" [VStr secrets_path] ;;
  k <- lift (getitem writeConfig "Masterkey") ;;
  k <- lift (as_text k) ;;
  let score_sparkml := str_replace "{key}" k Score.template in
  e <- lift (getitem writeConfig "Endpoint") ;;
  e <- lift (as_text e) ;;
  let score_sparkml := str_replace "{endpoint}" e score_sparkml in
  d <- lift (getitem writeConfig "Database") ;;
  d <- lift (as_text d) ;;
  let score_sparkml := str_replace "{database}" d score_sparkml in
  c <- lift (getitem writeConfig "Collection") ;;
  c <- lift (as_text c) ;;
  let score_sparkml := str_replace "{collection}" c score_sparkml in
  let score_sparkml :=
    str_replace "{DOCUMENTDB_DATABASE}" DOCUMENTDB_DATABASE score_sparkml in
  let score_sparkml :=
    str_replace "{DOCUMENTDB_COLLECTION}" DOCUMENTDB_COLLECTION score_sparkml in
  _ <- ext "exec" [VStr score_sparkml] ;;
  _ <- ext "file.write" [VStr "score_sparkml.py"; VStr score_sparkml] ;;
  ret (Score.Config k e d c).

(** Cells 39 and 41: the environment file and the registered model. *)
Definition register_model (ws : value) : NB value :=
  _ <- ext "%%writefile" [VStr "myenv_sparkml.yml"] ;;
  mymodel <- ext "Model.register"
               [VStr model_name; VStr model_name; VStr "ADB trained model"; ws] ;;
  _ <- lift (getattr mymodel "name") ;;
  _ <- lift (getattr mymodel "description") ;;
  _ <- lift (getattr mymodel "version") ;;
  ret mymodel.

(** Cell 44, section 3.3.1: the container image. *)
Definition create_image (ws mymodel : value) : NB value :=
  myimage_config <- ext "ContainerImage.image_configuration"
                      [VStr "score_sparkml.py"; VStr "spark-py"; VStr "myenv_sparkml.yml"] ;;
  image <- ext "ContainerImage.create"
             [VStr container_image_name; VList [mymodel]; myimage_config; ws] ;;
  _ <- ext "image.wait_for_creation" [image; VBool true] ;;
  ret image.

(** Cell 46, section 3.3.2: the AKS cluster. *)
Definition create_aks (ws : value) : NB value :=
  prov_config <- ext "AksCompute.provisioning_configuration" [] ;;
  aks_target <- ext "ComputeTarget.create" [ws; VStr (aks_name uuid_text); prov_config] ;;
  _ <- ext "aks_target.wait_for_completion" [aks_target; VBool true] ;;
  _ <- lift (getattr aks_target "provisioning_state") ;;
  _ <- lift (getattr aks_target "provisioning_errors") ;;
  ret aks_target.

(** Cell 48, section 3.3.3: deploy, or fall back to an existing service. *)
Definition deploy_service (ws image aks_target : value) : NB value :=
  aks_config <- ext "AksWebservice.deploy_configuration" [VBool true] ;;
  try_except
    (aks_service <- ext "Webservice.deploy_from_image"
                      [ws; VStr service_name; aks_config; image; aks_target] ;;
     _ <- ext "aks_service.wait_for_deployment" [aks_service; VBool true] ;;
     ret aks_service)
    (fun _ =>
       services <- ext "Webservice.list" [ws] ;;
       lift (getitem0 services)).

(** Cell 50, section 3.4: call the service, and time the call
    ([toc - tic]). *)
Definition call_service (aks_service : value) : NB value :=
  scoring_url <- lift (getattr aks_service "scoring_uri") ;;
  keys <- ext "aks_service.get_keys" [aks_service] ;;
  service_key <- lift (getitem0 keys) ;;
  req <- ext "urllib.request.Request" [scoring_url; VStr Score.input_data] ;;
  _ <- ext "req.add_header"
         [req; VStr "Authorization"; VStr ("Bearer " +:+ str B service_key)] ;;
  _ <- ext "req.add_header" [req; VStr "Content-Type"; VStr "application/json"] ;;
  tic <- ext "time.time" [] ;;
  result <- ext "urllib.request.urlopen" [req] ;;
  res <- ext "result.readlines" [result] ;;
  toc <- ext "time.time" [] ;;
  _ <- lift (sub toc tic) ;;
  ret res.

(** The notebook, top to bottom. *)
Definition pipeline : NB value :=
  ws <- create_workspace ;;
  acct <- create_cosmosdb ;;
  _ <- write_secrets acct.1 acct.2 ;;
  tt2 <- load_and_split ;;
  model <- fit_model tt2.1 ;;
  top_all <- score_candidates tt2.1 model ;;
  _ <- evaluate tt2.2 top_all model ;;
  _ <- save_model model ;;
  _ <- write_recommendations model ;;
  _ <- write_score_script ;;
  mymodel <- register_model ws ;;
  image <- create_image ws mymodel ;;
  aks_target <- create_aks ws ;;
  aks_service <- deploy_service ws image aks_target ;;
  call_service aks_service.

End Cells.

End Notebook.

(** ** A Cosmos DB account

    The document store as the SDK calls of the notebook and of the
    scoring script see it.  Resources are addressed by link:
    [dbs/D/] is a database, [dbs/D/colls/C] a collection and
    [dbs/D/colls/C/docs/I] a document. *)

Module Cosmos.

Record world : Type := World {
  databases : gset string;
  collections : gmap string value;
  documents : gmap string value
}.

Definition empty : world := World ∅ ∅ ∅.

Definition database_self (id : string) : string := "dbs/" +:+ id +:+ "/".
Definition collection_link (dbid id : string) : string :=
  "dbs/" +:+ dbid +:+ "/colls/" +:+ id.
Definition document_link (dbid collid id : string) : string :=
  collection_link dbid collid +:+ "/docs/" +:+ id.

Definition database_resource (id : string) : value :=
  VDict [("id", VStr id); ("_self", VStr (database_self id))].

Definition HTTPFailure (status : string) : exn := Exn "HTTPFailure" status.

Definition find_database (id : string) (w : world) : bool :=
  bool_decide (database_self id ∈ databases w).

Definition find_collection (dbid id : string) (w : world) : bool :=
  bool_decide (is_Some (collections w !! collection_link dbid id)).

(** A document is served when the partition key of the request is the
    document's [id], the partition key path of the collection. *)
Definition read_document (link : string) (opts : value) (w : world) : result value :=
  match documents w !! link with
  | Some doc =>
      match getitem opts "partitionKey", getitem doc "id" with
      | inr (VStr pk), inr (VStr id) =>
          if String.eqb pk id then inr doc else inl (HTTPFailure "Status code: 404")
      | _, _ => inl (HTTPFailure "Status code: 400")
      end
  | None => inl (HTTPFailure "Status code: 404")
  end.

(** Modelled from the spec: the helpers [find_database], [read_database],
    [find_collection] and [read_collection] of
    [reco_utils.dataset.cosmos_cli] are not among the sources, nor is the
    Cosmos DB SDK.  The spec has the notebook create a document database
    and a collection and look documents up by key; here the helpers
    report whether the resource exists and read it, a create call fails
    on a resource that exists, and a read fails on one that does not.
    Every other call of the notebook is answered [None] and leaves the
    account alone. *)
Definition service : env world := fun c w =>
  match callee c, args c with
  | "find_database", [_; VStr id] => (inr (VBool (find_database id w)), w)
  | "client.CreateDatabase", [_; VDict [("id", VStr id)]] =>
      if find_database id w then (inl (HTTPFailure "Status code: 409"), w)
      else (inr (database_resource id),
            World ({[database_self id]} ∪ databases w) (collections w) (documents w))
  | "read_database", [_; VStr id] =>
      (inr (if find_database id w then database_resource id else VNone), w)
  | "find_collection", [_; VStr dbid; VStr id] =>
      if find_database dbid w then (inr (VBool (find_collection dbid id w)), w)
      else (inl (HTTPFailure "Status code: 404"), w)
  | "client.CreateCollection", [_; VStr self; definition; _] =>
      match getitem definition "id" with
      | inr (VStr id) =>
          let link := self +:+ "colls/" +:+ id in
          if bool_decide (self ∈ databases w) then
            match collections w !! link with
            | Some _ => (inl (HTTPFailure "Status code: 409"), w)
            | None =>
                (inr definition,
                 World (databases w) (<[link := definition]> (collections w)) (documents w))
            end
          else (inl (HTTPFailure "Status code: 404"), w)
      | _ => (inl (HTTPFailure "Status code: 400"), w)
      end
  | "read_collection", [_; VStr dbid; VStr id] =>
      (inr (default VNone (collections w !! collection_link dbid id)), w)
  | "client.ReadCollection", [_; VStr link] =>
      match collections w !! link with
      | Some coll => (inr coll, w)
      | None => (inl (HTTPFailure "Status code: 404"), w)
      end
  | "client.ReadDocument", [_; VStr link; opts] => (read_document link opts w, w)
  | "client.database_accounts.list_keys", _ =>
      (inr (VObj "DatabaseAccountListKeysResult"
              [("primary_master_key", VStr "primary-master-key")]), w)
  | _, _ => (inr VNone, w)
  end.

(** The account after the database [id] is created. *)
Definition add_database (id : string) (w : world) : world :=
  World ({[database_self id]} ∪ databases w) (collections w) (documents w).

(** The account after the collection [id] of database [dbid] is created. *)
Definition add_collection (dbid : string) (definition : value) (id : string)
    (w : world) : world :=
  World (databases w) (<[collection_link dbid id := definition]> (collections w))
        (documents w).

(** The account holds the notebook's database and collection. *)
Definition provisioned (w : world) : bool :=
  find_database Names.DOCUMENTDB_DATABASE w
  && find_collection Names.DOCUMENTDB_DATABASE Names.DOCUMENTDB_COLLECTION w.

(** What cell 11 leaves of an account: whatever is missing is created,
    whatever exists is kept. *)
Definition provision (w : world) : world :=
  let w1 := if find_database Names.DOCUMENTDB_DATABASE w then w
            else add_database Names.DOCUMENTDB_DATABASE w in
  if find_collection Names.DOCUMENTDB_DATABASE Names.DOCUMENTDB_COLLECTION w1 then w1
  else add_collection Names.DOCUMENTDB_DATABASE Notebook.collection_definition
         Names.DOCUMENTDB_COLLECTION w1.

(** The calls of the second half of cell 11, by what it finds. *)
Definition store_calls (db_found coll_found : bool) : list string :=
  ["document_client.DocumentClient"; "find_database";
   if db_found then "read_database" else "client.CreateDatabase";
   "find_collection";
   if coll_found then "read_collection" else "client.CreateCollection"].

End Cosmos.

(** ** Cell 35: the recommendation records *)

Module Recs.

Section Records.

(** The predicted rating, a float the notebook never inspects. *)
Variable score : Type.

(** A row of [model.recommendForAllUsers(n)]: a user and an array of
    (item, predicted rating) structs, best first. *)
Record recommendation : Type := Recommendation {
  UserId : Z;
  recommendations : list (Z * score)
}.

(** The fitted model as the inference call sees it: its users, and for
    each the items ranked by predicted rating. *)
Record als_model : Type := AlsModel {
  users : list Z;
  ranked : Z -> list (Z * score)
}.

(** [model.recommendForAllUsers(n)]: the top [n] items of every user. *)
Definition recommendForAllUsers (model : als_model) (n : nat) : list recommendation :=
  map (fun u => Recommendation u (take n (ranked model u))) (users model).

(** A row after [withColumn("id", recs[userCol].cast("string"))] and
    [select("id", "recommendations.MovieId")]. *)
Record record : Type := Record_ {
  id : string;
  MovieId : list Z
}.

Definition to_record (r : recommendation) : record :=
  Record_ (pretty (UserId r)) (map fst (recommendations r)).

(** The rows the cell hands to the writer. *)
Definition rows (model : als_model) : list record :=
  map to_record (recommendForAllUsers model 10).

(** The document the connector stores for a row. *)
Definition document (r : record) : value :=
  VDict [("id", VStr (id r)); ("MovieId", VList (map VInt (MovieId r)))].

Definition text_option (cfg : value) (k : string) : string :=
  match getitem cfg k with
  | inr (VStr s) => s
  | _ => ""
  end.

(** The documents after every row of [rs] has been upserted, in order. *)
Definition upsert_all (link : record -> string) (docs : gmap string value)
    (rs : list record) : gmap string value :=
  foldl (fun m r => <[link r := document r]> m) docs rs.

(** Whether the connector upserts: save mode [overwrite] forces it, and
    otherwise the [Upsert] option decides. *)
Definition upserts (mode : string) (cfg : value) : bool :=
  (String.eqb mode "overwrite" || String.eqb (text_option cfg "Upsert") "true")%bool.

(** Modelled from the spec: the Cosmos DB connector of Spark is not
    among the sources.  The spec has the records persisted keyed by user
    identifier and overwritten wholesale on each retraining run, with no
    partial updates.  Here one row goes through the connector: an upsert
    replaces whatever is stored under the row's id; without it the
    document is created and an id already present is a conflict. *)
Definition write_row (mode : string) (cfg : value) (w : result Cosmos.world)
    (r : record) : result Cosmos.world :=
  match w with
  | inl e => inl e
  | inr w =>
      let link :=
        Cosmos.document_link (text_option cfg "Database") (text_option cfg "Collection")
                             (id r) in
      if upserts mode cfg then
        inr (Cosmos.World (Cosmos.databases w) (Cosmos.collections w)
               (<[link := document r]> (Cosmos.documents w)))
      else
        match Cosmos.documents w !! link with
        | Some _ => inl (Cosmos.HTTPFailure "Status code: 409")
        | None =>
            inr (Cosmos.World (Cosmos.databases w) (Cosmos.collections w)
                   (<[link := document r]> (Cosmos.documents w)))
        end
  end.

(** [.write.format(...).mode(mode).options(...).save()], the options
    being the entries of [writeConfig]. *)
Definition save (mode : string) (cfg : value) (rs : list record) (w : Cosmos.world)
  : result Cosmos.world :=
  foldl (write_row mode cfg) (inr w) rs.

(** The write of cell 35 with the configuration cell 12 stored. *)
Definition write_recommendations (endpoint : string) (master_key : value)
    (model : als_model) (w : Cosmos.world) : result Cosmos.world :=
  save "overwrite" (Notebook.secrets endpoint master_key) (rows model) w.

(** Where the record of user [u] lives. *)
Definition link_of (u : Z) : string :=
  Cosmos.document_link Names.DOCUMENTDB_DATABASE Names.DOCUMENTDB_COLLECTION (pretty u).

(** The record a model yields for user [u]. *)
Definition record_of (model : als_model) (u : Z) : record :=
  to_record (Recommendation u (take 10 (ranked model u))).

End Records.

Arguments UserId {score} _.
Arguments recommendations {score} _.
Arguments users {score} _.
Arguments ranked {score} _.
Arguments recommendForAllUsers {score} _ _.
Arguments to_record {score} _.
Arguments rows {score} _.
Arguments write_recommendations {score} _ _ _ _.
Arguments record_of {score} _ _.

(** *** Cell 35 on Spark and the connector *)

Fixpoint mapM {A B : Type} (f : A -> result B) (l : list A) : result (list B) :=
  match l with
  | [] => inr []
  | x :: l' =>
      match f x with
      | inl e => inl e
      | inr y =>
          match mapM f l' with
          | inl e => inl e
          | inr ys => inr (y :: ys)
          end
      end
  end.

(** ["recommendations.MovieId"]: the column and the field of its
    structs. *)
Fixpoint split_dot (s : string) : option (string * string) :=
  match s with
  | EmptyString => None
  | String c s' =>
      if Ascii.eqb c "."
      then Some ("", s')
      else match split_dot s' with
           | Some (a, b) => Some (String c a, b)
           | None => None
           end
  end.

(** [column.cast("string")] on one cell: an integer reads in decimal,
    text stays as it is, null stays null. *)
Definition cast_string (v : value) : result value :=
  match v with
  | VInt n => inr (VStr (pretty n))
  | VStr s => inr (VStr s)
  | VNone => inr VNone
  | _ =>
      inl (Exn "AnalysisException"
             ("cannot cast " +:+ type_name v +:+ " to string"))
  end.

(** [withColumn(new, recs[col].cast("string")).select(new, path)] on one
    row: the cast column, and the named field of each struct of the
    array column, under the field's name. *)
Definition select_row (new col path : string) (row : value) : result value :=
  match split_dot path with
  | None => inl (Exn "AnalysisException" ("cannot resolve '" +:+ path +:+ "'"))
  | Some (array, field) =>
      match getitem row col with
      | inl e => inl e
      | inr u =>
          match cast_string u with
          | inl e => inl e
          | inr id =>
              match getitem row array with
              | inr (VList structs) =>
                  match mapM (fun s => getitem s field) structs with
                  | inl e => inl e
                  | inr items => inr (VDict [(new, id); (field, VList items)])
                  end
              | inr _ =>
                  inl (Exn "AnalysisException" ("cannot resolve '" +:+ path +:+ "'"))
              | inl e => inl e
              end
          end
      end
  end.

(** The rows through the connector, in order: each row is the document,
    stored under its [id]; a failure stops the write and leaves what was
    written before it. *)
Fixpoint write_docs (mode : string) (cfg : value) (rows : list value)
    (w : Cosmos.world) : result value * Cosmos.world :=
  match rows with
  | [] => (inr VNone, w)
  | row :: rows' =>
      match getitem row "id" with
      | inr (VStr id) =>
          let link :=
            Cosmos.document_link (text_option cfg "Database")
                                 (text_option cfg "Collection") id in
          let written :=
            Cosmos.World (Cosmos.databases w) (Cosmos.collections w)
                         (<[link := row]> (Cosmos.documents w)) in
          if upserts mode cfg then write_docs mode cfg rows' written
          else
            match Cosmos.documents w !! link with
            | Some _ => (inl (Cosmos.HTTPFailure "Status code: 409"), w)
            | None => write_docs mode cfg rows' written
            end
      | _ => (inl (Cosmos.HTTPFailure "Status code: 400"), w)
      end
  end.

Section Writer.

Context {score : Type}.

(** How a predicted rating reads as a float. *)
Variable show : score -> string.

(** A row of [recommendForAllUsers] as Spark hands it on. *)
Definition struct_value (ms : Z * score) : value :=
  VDict [("MovieId", VInt ms.1); ("rating", VFloat (show ms.2))].

Definition row_value (r : recommendation score) : value :=
  VDict [("UserId", VInt (UserId r));
         ("recommendations", VList (map struct_value (recommendations r)))].

(** Modelled from the spec: Spark and the Cosmos DB connector are not
    among the sources.  The spec has the recommendation records produced
    by the fitting routine's inference call, persisted keyed by user
    identifier and overwritten wholesale on each retraining run, with no
    partial updates.  Here [recommendForAllUsers(n)] gives every user of
    the model its [n] best items, the data-frame calls of cell 35 act row
    by row, and the connector stores each row as a document under the
    row's id: with save mode [overwrite], or with the option [Upsert]
    set, it replaces whatever document is there.  [files] is what the
    secrets file holds. *)
Definition spark (model : als_model score) (files : value) : env Cosmos.world :=
  fun c w =>
    match callee c, args c with
    | "json.load", [VStr _] => (inr files, w)
    | "model.recommendForAllUsers", [_; VInt n] =>
        (inr (VList (map row_value (recommendForAllUsers model (Z.to_nat n)))), w)
    | "recs.withColumn().select",
      [VList rows; VStr new; VStr col; VStr "string"; VStr path] =>
        (match mapM (select_row new col path) rows with
         | inl e => inl e
         | inr selected => inr (VList selected)
         end, w)
    | "write.format().mode().options().save",
      [VList rows; VStr "com.microsoft.azure.cosmosdb.spark"; VStr mode; cfg] =>
        write_docs mode cfg rows w
    | _, _ => (inr VNone, w)
    end.

End Writer.

End Recs.

(** ** Cells 23 and 25: the candidate set [top_all]

    Data frames are lists of rows; a column of the schema may hold null
    ([None]). *)

Module Frames.

Section Candidates.

(** The types of the [Rating] and [prediction] columns (floats). *)
Variable rating : Type.
Variable prediction : Type.

(** A rating record, as the schema of cell 16 loads it. *)
Record rating_row : Type := RatingRow {
  UserId : option Z;
  MovieId : option Z;
  Rating : option rating;
  Timestamp : option Z
}.

(** A row of [dfs_pred]. *)
Record pred_row : Type := PredRow {
  pred_UserId : option Z;
  pred_MovieId : option Z;
  pred_prediction : option prediction
}.

(** The fitted model: the rating it predicts for a user and an item, if
    it has factors for both. *)
Variable predict : Z -> Z -> option prediction.

(** [df.select(col).distinct()] *)
Definition select_distinct (col : rating_row -> option Z) (df : list rating_row)
  : list (option Z) :=
  remove_dups (map col df).

(** [users.crossJoin(items)] *)
Definition crossJoin (users items : list (option Z)) : list (option Z * option Z) :=
  u ← users; m ← items; [(u, m)].

(** [model.transform(df)] with [coldStartStrategy='drop']: a null id is
    refused, and a pair the model cannot score is dropped. *)
Fixpoint transform (df : list (option Z * option Z)) : result (list pred_row) :=
  match df with
  | [] => inr []
  | (Some u, Some m) :: df' =>
      match transform df' with
      | inl e => inl e
      | inr rows =>
          match predict u m with
          | Some p => inr (PredRow (Some u) (Some m) (Some p) :: rows)
          | None => inr rows
          end
      end
  | _ :: _ =>
      inl (Exn "IllegalArgumentException"
             "ALS only supports values in Integer range for columns UserId and MovieId")
  end.

(** SQL equality of two nullable integers, as a join condition: null is
    equal to nothing. *)
Definition sql_eq (a b : option Z) : bool :=
  match a, b with
  | Some x, Some y => Z.eqb x y
  | _, _ => false
  end.

(** [(dfs_pred['UserId'] == train['UserId']) & (dfs_pred['MovieId'] == train['MovieId'])] *)
Definition on (p : pred_row) (t : rating_row) : bool :=
  sql_eq (pred_UserId p) (UserId t) && sql_eq (pred_MovieId p) (MovieId t).

(** [left.join(right, on, how='outer')]: the matching pairs, then the
    left rows without a match, then the right rows without one. *)
Definition outer_join (left : list pred_row) (right : list rating_row)
  : list (option pred_row * option rating_row) :=
  (p ← left;
   match filter (fun t => on p t = true) right with
   | [] => [(Some p, None)]
   | ts => map (fun t => (Some p, Some t)) ts
   end)
  ++ (t ← right;
      if forallb (fun p => negb (on p t)) left then [(None, Some t)] else []).

(** [df["train.Rating"].isNull()] on a joined row. *)
Definition train_Rating_isNull (row : option pred_row * option rating_row) : bool :=
  match row.2 with
  | Some t => match Rating t with Some _ => false | None => true end
  | None => true
  end.

(** [.select('pred.UserId', 'pred.MovieId', 'pred.prediction')] *)
Definition select_pred (row : option pred_row * option rating_row) : pred_row :=
  match row.1 with
  | Some p => p
  | None => PredRow None None None
  end.

(** Cell 23 *)
Definition dfs_pred (train : list rating_row) : result (list pred_row) :=
  let users := select_distinct UserId train in
  let items := select_distinct MovieId train in
  let user_item := crossJoin users items in
  transform user_item.

(** Cell 25 *)
Definition top_all (train : list rating_row) : result (list pred_row) :=
  match dfs_pred train with
  | inl e => inl e
  | inr pred =>
      let dfs_pred_exclude_train := outer_join pred train in
      inr (map select_pred
             (filter (fun row => train_Rating_isNull row = true) dfs_pred_exclude_train))
  end.

End Candidates.

Arguments UserId {rating} _.
Arguments MovieId {rating} _.
Arguments Rating {rating} _.
Arguments pred_UserId {prediction} _.
Arguments pred_MovieId {prediction} _.
Arguments pred_prediction {prediction} _.
Arguments select_distinct {rating} col df.
Arguments transform {prediction} predict df.
Arguments on {rating prediction} p t.
Arguments outer_join {rating prediction} left right.
Arguments train_Rating_isNull {rating prediction} row.
Arguments select_pred {rating prediction} row.
Arguments dfs_pred {rating prediction} predict train.
Arguments top_all {rating prediction} predict train.

(** The record carries a rating. *)
Definition rated {rating : Type} (t : rating_row rating) : bool :=
  match Rating t with Some _ => true | None => false end.

(** The record names its user and its item. *)
Definition identified {rating : Type} (t : rating_row rating) : bool :=
  match UserId t, MovieId t with
  | Some _, Some _ => true
  | _, _ => false
  end.

End Frames.

(** ** Cell 18: the train/test split *)

Module Split.

Section RandomSplit.

Variable A : Type.

(** The generator behind the split: the [i]-th 53-bit draw for a seed. *)
Variable rng : Z -> nat -> N.

Definition two53 : positive := 2 ^ 53.

(** The [i]-th draw as a number in [0, 1). *)
Definition draw (seed : Z) (i : nat) : Q :=
  Z.of_N (rng seed i mod Npos two53) # two53.

(** The rows of [df] whose draw falls in the cell [lo, hi), with their
    positions. *)
Definition sample (lo hi : Q) (seed : Z) (df : list A) : list (nat * A) :=
  filter (fun ir => Qle_bool lo (draw seed ir.1) && negb (Qle_bool hi (draw seed ir.1)) = true)
         (imap (fun i r => (i, r)) df).

(** Modelled from the spec: [spark_random_split] of
    [reco_utils.dataset.spark_splitters] is not among the sources.  The
    spec calls the step the train/test partitioning of rating records and
    the notebook a random split: with one draw per record from the
    seeded generator, the train set takes the records whose draw is
    below [ratio] and the test set those from [ratio] up to one. *)
Definition spark_random_split (data : list A) (ratio : Q) (seed : Z)
  : list (nat * A) * list (nat * A) :=
  (sample 0 ratio seed data, sample ratio 1 seed data).

(** Cell 18: [train, test = spark_random_split(data, ratio=0.75, seed=42)] *)
Definition train (data : list A) : list (nat * A) :=
  (spark_random_split data (3 # 4) 42).1.
Definition test (data : list A) : list (nat * A) :=
  (spark_random_split data (3 # 4) 42).2.

End RandomSplit.

Arguments sample {A} rng lo hi seed df.
Arguments spark_random_split {A} rng data ratio seed.
Arguments train {A} rng data.
Arguments test {A} rng data.

End Split.

(** ** What is said of a run: vocabulary for traces *)

Module Traces.

Definition failed {A : Type} (x : result A) : bool :=
  match x with inl _ => true | inr _ => false end.

(** The call [f] was made. *)
Definition called (f : string) (ev : event) : bool := String.eqb (callee ev.1) f.





(** Whenever [find] answers that the resource exists (its reply is not
    [== False]), the next call is [read] and [create] is never called. *)
Definition reads_what_exists (find read create : string) (t : trace) : Prop :=
  forall i c v,
    t !! i = Some (c, inr v) -> callee c = find -> eq_False v = false ->
    (exists ev, t !! S i = Some ev /\ callee ev.1 = read)
    /\ ~ (create ∈ callees t).





(** Every call of [consumer] takes as its [n]-th argument a value that
    [pick] reads off what an earlier call of [producer] returned. *)
Definition feeds (producer : string) (pick : value -> option value)
    (consumer : string) (n : nat) (t : trace) : Prop :=
  forall i c r, t !! i = Some (c, r) -> callee c = consumer ->
    exists j c' v, (j < i)%nat /\ t !! j = Some (c', inr v)
                   /\ callee c' = producer /\ args c !! n = pick v.

End Traces.

(** ** Deciding the vocabulary on a finished run *)

Module Checks.

Import Traces.



(** The reply of the event says that what [find] looked for exists. *)
Definition found (find : string) (ev : event) : bool :=
  called find ev && match ev.2 with inr v => negb (eq_False v) | inl _ => false end.

Fixpoint read_nextb (find read : string) (t : trace) : bool :=
  match t with
  | [] => true
  | ev :: t' =>
      (negb (found find ev)
       || match t' with ev' :: _ => called read ev' | [] => false end)
      && read_nextb find read t'
  end.

Definition reads_what_existsb (find read create : string) (t : trace) : bool :=
  read_nextb find read t
  && (negb (existsb (found find) t) || negb (existsb (called create) t)).




(** [feeds], from left to right; [seen] holds what [producer] has handed
    out so far. *)
Fixpoint fed (producer : string) (pick : value -> option value)
    (consumer : string) (n : nat) (seen : list value) (t : trace) : Prop :=
  match t with
  | [] => True
  | ev :: t' =>
      let seen' :=
        if String.eqb (callee ev.1) producer
        then match ev.2 with
             | inr v => match pick v with Some x => x :: seen | None => seen end
             | inl _ => seen
             end
        else seen in
      if String.eqb (callee ev.1) consumer
      then match args ev.1 !! n with
           | Some v => v ∈ seen /\ fed producer pick consumer n seen' t'
           | None => False
           end
      else fed producer pick consumer n seen' t'
  end.

End Checks.

(** ** The order of the notebook's calls *)

Module Schedule.

Definition create_workspace : list string := ["Workspace.create"; "ws.write_config"].

Definition create_account : list string :=
  ["get_client_from_cli_profile"; "client.database_accounts.create_or_update";
   "async_cosmosdb_create.result"; "client.database_accounts.list_keys"].

Definition write_secrets : list string := ["json.dump"].

Definition load_and_split : list string :=
  ["movielens.load_spark_df"; "data.show"; "spark_random_split";
   "train.cache().count"; "test.cache().count"].

Definition fit_model : list string := ["ALS"; "als.fit"].

Definition score_candidates : list string :=
  ["train.select().distinct"; "train.select().distinct"; "users.crossJoin"; "model.transform";
   "dfs_pred.show"; "dfs_pred.alias().join"; "dfs_pred_exclude_train.filter().select"; "top_all.show"].

Definition evaluate : list string :=
  ["test.show"; "SparkRankingEvaluation"; "rank_eval.map_at_k"; "rank_eval.ndcg_at_k";
   "rank_eval.precision_at_k"; "rank_eval.recall_at_k"; "model.transform";
   "SparkRatingEvaluation"; "rating_eval.rmse"; "rating_eval.mae";
   "rating_eval.exp_var"; "rating_eval.rsquared"].

Definition save_model : list string :=
  ["model.write().overwrite().save"; "os.getcwd"; "dbutils.fs.cp"].

Definition write_recommendations : list string :=
  ["json.load"; "model.recommendForAllUsers"; "recs.withColumn().select"; "write.format().mode().options().save"].

Definition write_score_script : list string := ["json.load"; "exec"; "file.write"].

Definition register_model : list string := ["%%writefile"; "Model.register"].

Definition create_image : list string :=
  ["ContainerImage.image_configuration"; "ContainerImage.create";
   "image.wait_for_creation"].

Definition create_aks : list string :=
  ["AksCompute.provisioning_configuration"; "ComputeTarget.create";
   "aks_target.wait_for_completion"].

(** How the deployment cell went: the service was deployed and awaited,
    or the deployment call raised, or the wait raised. *)
Inductive deployment : Type := Deployed | DeployRaised | WaitRaised.

Definition deploy_service (d : deployment) : list string :=
  "AksWebservice.deploy_configuration" ::
  match d with
  | Deployed => ["Webservice.deploy_from_image"; "aks_service.wait_for_deployment"]
  | DeployRaised => ["Webservice.deploy_from_image"; "Webservice.list"]
  | WaitRaised =>
      ["Webservice.deploy_from_image"; "aks_service.wait_for_deployment";
       "Webservice.list"]
  end.

Definition call_service : list string :=
  ["aks_service.get_keys"; "urllib.request.Request"; "req.add_header";
   "req.add_header"; "time.time"; "urllib.request.urlopen"; "result.readlines";
   "time.time"].

(** The notebook from top to bottom, by what cell 11 finds and how the
    deployment goes. *)
Definition pipeline (db_found coll_found : bool) (d : deployment) : list string :=
  (create_workspace ++ create_account ++ Cosmos.store_calls db_found coll_found
   ++ write_secrets ++ load_and_split ++ fit_model ++ score_candidates ++ evaluate
   ++ save_model ++ write_recommendations ++ write_score_script ++ register_model
   ++ create_image ++ create_aks ++ deploy_service d ++ call_service)%list.


Import Traces Checks.



(** What the notebook's variables carry from one call to a later one:
    the call that binds the variable, how the variable is read off its
    result, the call that takes it and the position at which it does. *)
Definition handoffs : list (string * (value -> option value) * string * nat) :=
  [("Workspace.create", Some, "ws.write_config", 0);
   ("Workspace.create", Some, "Model.register", 3);
   ("Workspace.create", Some, "ContainerImage.create", 3);
   ("Workspace.create", Some, "ComputeTarget.create", 0);
   ("Workspace.create", Some, "Webservice.deploy_from_image", 0);
   ("Workspace.create", Some, "Webservice.list", 0);
   ("get_client_from_cli_profile", Some, "client.database_accounts.create_or_update", 0);
   ("get_client_from_cli_profile", Some, "client.database_accounts.list_keys", 0);
   ("client.database_accounts.create_or_update", Some, "async_cosmosdb_create.result", 0);
   ("document_client.DocumentClient", Some, "find_database", 0);
   ("document_client.DocumentClient", Some, "client.CreateDatabase", 0);
   ("document_client.DocumentClient", Some, "read_database", 0);
   ("document_client.DocumentClient", Some, "find_collection", 0);
   ("document_client.DocumentClient", Some, "client.CreateCollection", 0);
   ("document_client.DocumentClient", Some, "read_collection", 0);
   ("movielens.load_spark_df", Some, "spark_random_split", 0);
   ("spark_random_split", Notebook.train_of, "train.cache().count", 0);
   ("spark_random_split", Notebook.test_of, "test.cache().count", 0);
   ("ALS", Some, "als.fit", 0);
   ("spark_random_split", Notebook.train_of, "als.fit", 1);
   ("spark_random_split", Notebook.train_of, "train.select().distinct", 0);
   ("train.select().distinct", Some, "users.crossJoin", 0);
   ("train.select().distinct", Some, "users.crossJoin", 1);
   ("als.fit", Some, "model.transform", 0);
   ("model.transform", Some, "dfs_pred.alias().join", 0);
   ("spark_random_split", Notebook.train_of, "dfs_pred.alias().join", 1);
   ("dfs_pred.alias().join", Some, "dfs_pred_exclude_train.filter().select", 0);
   ("spark_random_split", Notebook.test_of, "SparkRankingEvaluation", 0);
   ("dfs_pred_exclude_train.filter().select", Some, "SparkRankingEvaluation", 1);
   ("spark_random_split", Notebook.test_of, "SparkRatingEvaluation", 0);
   ("model.transform", Some, "SparkRatingEvaluation", 1);
   ("als.fit", Some, "model.write().overwrite().save", 0);
   ("als.fit", Some, "model.recommendForAllUsers", 0);
   ("model.recommendForAllUsers", Some, "recs.withColumn().select", 0);
   ("recs.withColumn().select", Some, "write.format().mode().options().save", 0);
   ("json.load", Some, "write.format().mode().options().save", 3);
   ("ContainerImage.image_configuration", Some, "ContainerImage.create", 2);
   ("ContainerImage.create", Some, "image.wait_for_creation", 0);
   ("AksCompute.provisioning_configuration", Some, "ComputeTarget.create", 2);
   ("ComputeTarget.create", Some, "aks_target.wait_for_completion", 0);
   ("AksWebservice.deploy_configuration", Some, "Webservice.deploy_from_image", 2);
   ("ContainerImage.create", Some, "Webservice.deploy_from_image", 3);
   ("ComputeTarget.create", Some, "Webservice.deploy_from_image", 4);
   ("Webservice.deploy_from_image", Some, "aks_service.wait_for_deployment", 0);
   ("urllib.request.Request", Some, "req.add_header", 0);
   ("urllib.request.Request", Some, "urllib.request.urlopen", 0);
   ("urllib.request.urlopen", Some, "result.readlines", 0)]%nat.

(** Every hand-off is honoured in the trace. *)
Definition handed_on (t : trace) : Prop :=
  foldr (fun '(producer, pick, consumer, n) rest =>
           fed producer pick consumer n [] t /\ rest)
        True handoffs.

End Schedule.

(** ** Platforms and data for the examples *)

Module Examples.

Definition uuid_text : string := "0a1b2c3d-1111-4111-8111-0123456789ab".

Definition demo_config : Score.config :=
  Score.Config "primary-master-key" "https://reco0a1b.documents.azure.com:443/"
               "recommendations" "user_recommendations_als".

(** The inner text of the demonstration request: [{"id":"496"}]. *)
Definition demo_inner : string :=
  "{" +:+ dq +:+ "id" +:+ dq +:+ ":" +:+ dq +:+ "496" +:+ dq +:+ "}".

Definition document_client : value := VObj "DocumentClient" [].

(** An account whose collection cannot be read while its documents can. *)
Definition broken_collection : env unit := fun c w =>
  if String.eqb (callee c) "client.ReadCollection"
  then (inl (Cosmos.HTTPFailure "Status code: 404"), w)
  else if String.eqb (callee c) "client.ReadDocument"
  then (inr (VDict [("id", VStr "496"); ("MovieId", VList [VInt 1; VInt 2])]), w)
  else (inr document_client, w).

(** What [run] answers after [init] is the text of the exception that
    [init] caught, if it caught one. *)
Definition init_failure_returned (B : builtins) (h : env unit)
    (cfg : Score.config) (input_json : string) : Prop :=
  forall ev e,
    ev ∈ trace_of h (Score.init cfg) Score.unbound tt ->
    ev.2 = inl e ->
    outcome_of h (Score.run B input_json)
      (vars_of h (Score.init cfg) Score.unbound tt) tt
    = inr (json_dumps B (exn_message e)).

Definition demo_model : Recs.als_model unit :=
  Recs.AlsModel unit [496; 7]
    (fun u => if Z.eqb u 496 then [(50, tt); (181, tt); (100, tt)] else [(1, tt)]).

Definition demo_store : Cosmos.world :=
  match Recs.write_recommendations "https://reco0a1b.documents.azure.com:443/"
          (VStr "primary-master-key") demo_model Cosmos.empty with
  | inr w => w
  | inl _ => Cosmos.empty
  end.

Definition frame : value := VObj "DataFrame" [].

(** Three ratings by two users of two movies, and a model that scores
    every pair. *)
Definition demo_train : list (Frames.rating_row Z) :=
  [Frames.RatingRow Z (Some 1) (Some 10) (Some 5) (Some 881250949);
   Frames.RatingRow Z (Some 1) (Some 20) (Some 3) (Some 891717742);
   Frames.RatingRow Z (Some 2) (Some 10) (Some 4) (Some 878887116)].

Definition demo_predict (u m : Z) : option Z := Some (u + m).

(** A generator whose draws go 0, 1/4, 1/2, 3/4, 0, ... *)
Definition demo_rng (seed : Z) (i : nat) : N := N.of_nat i * 2 ^ 51.

(** A platform on which every call succeeds except the deployment, and a
    web service already exists in the workspace. *)
Definition deployment_fails : env unit := fun c w =>
  match callee c with
  | "client.database_accounts.list_keys" =>
      (inr (VObj "DatabaseAccountListKeysResult"
              [("primary_master_key", VStr "primary-master-key")]), w)
  | "find_database" | "find_collection" => (inr (VBool true), w)
  | "read_database" => (inr (Cosmos.database_resource Names.DOCUMENTDB_DATABASE), w)
  | "spark_random_split" => (inr (VList [frame; frame]), w)
  | "os.getcwd" => (inr (VStr "/databricks/driver"), w)
  | "json.load" =>
      (inr (Notebook.secrets "https://reco0a1b.documents.azure.com:443/"
              (VStr "primary-master-key")), w)
  | "SparkRankingEvaluation" => (inr (VObj "SparkRankingEvaluation" [("k", VInt 10)]), w)
  | "Model.register" =>
      (inr (VObj "Model" [("name", VStr Names.model_name);
                          ("description", VStr "ADB trained model");
                          ("version", VInt 1)]), w)
  | "ComputeTarget.create" =>
      (inr (VObj "AksCompute" [("provisioning_state", VStr "Succeeded");
                               ("provisioning_errors", VNone)]), w)
  | "Webservice.deploy_from_image" =>
      (inl (Exn "WebserviceException" "Error: Service with name mvl-als already exists"), w)
  | "Webservice.list" =>
      (inr (VList [VObj "AksWebservice"
                     [("scoring_uri", VStr "http://10.0.0.1/api/v1/service/mvl-als/score")]]),
       w)
  | "aks_service.get_keys" => (inr (VList [VStr "primary"; VStr "secondary"]), w)
  | _ => (inr VNone, w)
  end.

(** A request whose element is a JSON object, not the text of one:
    [[{"id":"496"}]]. *)
Definition undecoded_request : string := "[" +:+ demo_inner +:+ "]".

(** [["{\"id\":496}"]]: the id as a number. *)
Definition numeric_request : string :=
  "[" +:+ dq +:+ "{\" +:+ dq +:+ "id\" +:+ dq +:+ ":496}" +:+ dq +:+ "]".

(** [["{\"id\":\"496\"}", "{\"id\":\"7\"}"]]: two users in one request. *)
Definition batch_request : string :=
  "[" +:+ dq +:+ "{\" +:+ dq +:+ "id\" +:+ dq +:+ ":\" +:+ dq +:+ "496\" +:+ dq
  +:+ "}" +:+ dq +:+ ", " +:+ dq +:+ "{\" +:+ dq +:+ "id\" +:+ dq +:+ ":\" +:+ dq
  +:+ "7\" +:+ dq +:+ "}" +:+ dq +:+ "]".

(** A host on which the SDK client cannot be built. *)
Definition no_client : env unit := fun c w =>
  if String.eqb (callee c) "document_client.DocumentClient"
  then (inl (Exn "ValueError" "Invalid URL"), w)
  else (inr VNone, w).

(** A driver on which the secrets file reads back as cell 12 wrote it. *)
Definition secrets_on_disk : env unit := fun c w =>
  if String.eqb (callee c) "json.load"
  then (inr (Notebook.secrets "https://reco0a1b.documents.azure.com:443/"
               (VStr "primary-master-key")), w)
  else (inr VNone, w).

(** A workspace in which the deployment raises and no web service
    exists. *)
Definition no_services : env unit := fun c w =>
  match callee c with
  | "Webservice.deploy_from_image" =>
      (inl (Exn "WebserviceException" "Unable to create service with image"), w)
  | "Webservice.list" => (inr (VList []), w)
  | _ => (inr VNone, w)
  end.

(** The web service the fallback of [deployment_fails] finds. *)
Definition existing_service : value :=
  VObj "AksWebservice"
    [("scoring_uri", VStr "http://10.0.0.1/api/v1/service/mvl-als/score")].

(** The ratings of [demo_train] and a record that lost its rating. *)
Definition demo_train_null : list (Frames.rating_row Z) :=
  (demo_train
   ++ [Frames.RatingRow Z (Some 2) (Some 30) None (Some 880606923)])%list.

(** A retrained model that no longer covers user 7. *)
Definition retrained_model : Recs.als_model unit :=
  Recs.AlsModel unit [496] (fun _ => [(181, tt); (50, tt)]).

(** What the SDKs answer when all goes well, by callee; every other call
    of the notebook returns [None]. *)
Definition replies : list (string * value) :=
  [("Workspace.create", VObj "Workspace" []);
   ("get_client_from_cli_profile", VObj "CosmosDB" []);
   ("client.database_accounts.create_or_update", VObj "LROPoller" []);
   ("async_cosmosdb_create.result", VObj "DatabaseAccount" []);
   ("client.database_accounts.list_keys",
    VObj "DatabaseAccountListKeysResult"
      [("primary_master_key", VStr "primary-master-key")]);
   ("import", VObj "module" []);
   ("document_client.DocumentClient", document_client);
   ("find_database", VBool true);
   ("read_database", Cosmos.database_resource Names.DOCUMENTDB_DATABASE);
   ("find_collection", VBool true);
   ("read_collection", Notebook.collection_definition);
   ("client.ReadCollection", Notebook.collection_definition);
   ("client.ReadDocument",
    VDict [("id", VStr "496"); ("MovieId", VList [VInt 50; VInt 181; VInt 100])]);
   ("movielens.load_spark_df", frame);
   ("spark_random_split", VList [frame; frame]);
   ("train.cache().count", VInt 75000);
   ("test.cache().count", VInt 25000);
   ("ALS", VObj "ALS" []);
   ("als.fit", VObj "ALSModel" []);
   ("train.select().distinct", frame);
   ("users.crossJoin", frame);
   ("model.transform", frame);
   ("dfs_pred.alias().join", frame);
   ("dfs_pred_exclude_train.filter().select", frame);
   ("SparkRankingEvaluation", VObj "SparkRankingEvaluation" [("k", VInt 10)]);
   ("rank_eval.map_at_k", VFloat "0.004732");
   ("rank_eval.ndcg_at_k", VFloat "0.044239");
   ("rank_eval.precision_at_k", VFloat "0.048462");
   ("rank_eval.recall_at_k", VFloat "0.017796");
   ("SparkRatingEvaluation", VObj "SparkRatingEvaluation" []);
   ("rating_eval.rmse", VFloat "0.9726930");
   ("rating_eval.mae", VFloat "0.753860");
   ("rating_eval.exp_var", VFloat "0.261018");
   ("rating_eval.rsquared", VFloat "0.255480");
   ("os.getcwd", VStr "/databricks/driver");
   ("dbutils.fs.cp", VBool true);
   ("json.load",
    Notebook.secrets "https://reco0a1b.documents.azure.com:443/"
      (VStr "primary-master-key"));
   ("model.recommendForAllUsers", frame);
   ("recs.withColumn().select", frame);
   ("file.write", VInt 1173);
   ("Model.register",
    VObj "Model" [("name", VStr Names.model_name);
                  ("description", VStr "ADB trained model");
                  ("version", VInt 1)]);
   ("ContainerImage.image_configuration", VObj "ContainerImageConfig" []);
   ("ContainerImage.create", VObj "ContainerImage" []);
   ("AksCompute.provisioning_configuration", VObj "AksProvisioningConfiguration" []);
   ("ComputeTarget.create",
    VObj "AksCompute" [("provisioning_state", VStr "Succeeded");
                       ("provisioning_errors", VNone)]);
   ("AksWebservice.deploy_configuration", VObj "AksServiceDeploymentConfiguration" []);
   ("Webservice.deploy_from_image",
    VObj "AksWebservice"
      [("scoring_uri", VStr "http://10.0.0.2/api/v1/service/mvl-als/score")]);
   ("Webservice.list", VList [existing_service]);
   ("aks_service.get_keys", VList [VStr "primary"; VStr "secondary"]);
   ("urllib.request.Request", VObj "Request" []);
   ("time.time", VFloat "1541030400.0");
   ("urllib.request.urlopen", VObj "HTTPResponse" []);
   ("result.readlines", VList [VStr "{'id': '496', 'MovieId': [50, 181, 100]}"])].

(** A subscription and a driver on which every call answers as in
    [replies], except [failing], which raises. *)
Definition azure (failing : string) : env unit := fun c w =>
  if String.eqb (callee c) failing
  then (inl (Exn "WebserviceException" "Received bad response from service"), w)
  else (inr (default VNone (assoc (callee c) replies)), w).

(** Every request that carries an id gets exactly one lookup, whatever
    [init] met when the service started. *)
Definition one_lookup_for_every_request (B : builtins) (cfg : Score.config) : Prop :=
  forall (W : Type) (h : env W) (w w' : W) (input_json : string) (id : value),
    Score.request_id B input_json = inr id ->
    exists c,
      map fst (trace_of h (Score.run B input_json)
                 (vars_of h (Score.init cfg) Score.unbound w) w') = [c]
      /\ callee c = "client.ReadDocument".


End Examples.

(** ** Running a cell against an arbitrary platform

    One step of a run: the reply of the next call, the result of the
    next subscript or attribute read, or the next condition is split
    into its cases. *)



(** The same, keeping the equation of every condition that is split. *)
Ltac exec_step_eqn h :=
  match goal with
  | |- context [h ?c ?w] =>
      destruct (h c w) as [[?e|?v] ?w]
  | |- context [match ?x with inl _ => _ | inr _ => _ end] =>
      destruct x as [?e|?v]
  | |- context [if ?b then _ else _] =>
      destruct b eqn:?
  end;
  cbn [run_M bind try_except ext lift ret exec io_bind fst snd].

(** The same, splitting the result of the split into its shapes, so that
    what is unpacked from it stays tied to it. *)
Ltac flow_step h :=
  match goal with
  | |- context [h ?c ?w] =>
      destruct (h c w) as [[?e|?v] ?w]
  | |- context [Notebook.unpack2 ?x] =>
      is_var x; destruct x as [| | | | |[|? [|? [|? ?]]]| | |]
  | |- context [match ?x with inl _ => _ | inr _ => _ end] =>
      destruct x as [?e|?v]
  | |- context [if ?b then _ else _] =>
      destruct b
  end;
  cbn [run_M bind try_except ext lift ret exec io_bind fst snd Notebook.unpack2].


(** * Properties *)

(** ** The service names *)

Section NamesFacts.

Import Names.

Lemma slice0_length (n : nat) (s : string) :
  String.length (slice0 n s) = Nat.min n (String.length s).
Proof. revert s; induction n; intros [|c s]; simpl; auto. Qed.

(** [replace] leaves no occurrence of the replaced character. *)
Lemma replace_clean (old new : ascii) (s : string) :
  old <> new -> contains_char old (replace old new s) = false.
Proof.
  intros Hne. induction s as [|c s IH]; simpl; [reflexivity|].
  rewrite IH, orb_false_r.
  destruct (Ascii.eqb c old) eqn:E.
  - apply Ascii.eqb_neq. congruence.
  - exact E.
Qed.

Lemma slice0_clean (c : ascii) (n : nat) (s : string) :
  contains_char c s = false -> contains_char c (slice0 n s) = false.
Proof.
  revert s; induction n; intros [|c' s]; simpl; auto.
  intros H. apply orb_false_iff in H as [-> H]. simpl. auto.
Qed.

(** Whatever the prefix, the account name has no underscore. *)
Lemma account_name_clean (u : string) : contains_char "_" (account_name u) = false.
Proof. unfold account_name. apply slice0_clean, replace_clean. discriminate. Qed.

Lemma hex_not_underscore (c : ascii) : is_hex c = true -> Ascii.eqb c "_" = false.
Proof. destruct c as [[] [] [] [] [] [] [] []]; vm_compute; congruence. Qed.

Lemma uuid_head (u : string) :
  is_uuid_text u = true ->
  exists c0 c1 c2 c3 rest,
    u = String c0 (String c1 (String c2 (String c3 rest)))
    /\ is_hex c0 = true /\ is_hex c1 = true /\ is_hex c2 = true /\ is_hex c3 = true.
Proof.
  unfold is_uuid_text. intros H.
  destruct u as [|c0 [|c1 [|c2 [|c3 rest]]]]; cbn in H;
    rewrite ?andb_false_r in H; try discriminate H.
  apply andb_true_iff in H as [H0 H].
  apply andb_true_iff in H as [H1 H].
  apply andb_true_iff in H as [H2 H].
  apply andb_true_iff in H as [H3 H].
  exists c0, c1, c2, c3, rest. auto.
Qed.

(** C9. For every run prefix ("reco" plus the first four characters of
    a UUID) the Cosmos DB account name is the prefix itself: it has no
    underscore, its length is min(31, len(prefix)) = 8, and everything
    after the prefix ("-mvl-ds-sql", the resource-group remainder and the
    intended suffix) is cut off by the slice. *)
Theorem account_name_is_prefix (u : string) :
  is_uuid_text u = true ->
  account_name u = prefix u
  /\ String.length (account_name u) = Nat.min 31 (String.length (prefix u))
  /\ String.length (account_name u) = 8%nat
  /\ contains_char "_" (account_name u) = false
  /\ replace "_" "-" (account_name_full u) = account_name u +:+ "-mvl-ds-sql".
Proof.
  intros H.
  destruct (uuid_head u H) as (c0 & c1 & c2 & c3 & rest & -> & H0 & H1 & H2 & H3).
  apply hex_not_underscore in H0, H1, H2, H3.
  unfold account_name, account_name_full, resource_group, prefix, short_uuid.
  simpl. rewrite H0, H1, H2, H3. repeat split; rewrite ?H0, ?H1, ?H2, ?H3; auto.
Qed.

Lemma account_name_is_prefix_witness :
  is_uuid_text Examples.uuid_text = true
  /\ account_name Examples.uuid_text = "reco0a1b"
  /\ replace "_" "-" (account_name_full Examples.uuid_text) = "reco0a1b-mvl-ds-sql".
Proof.
  pose proof (account_name_is_prefix Examples.uuid_text eq_refl) as (H1 & _ & _ & _ & H5).
  split; [reflexivity|]. split; [exact H1|exact H5].
Defined.

End NamesFacts.

(** ** The scoring script *)

Section ScriptFacts.

Context {W : Type} (B : builtins) (h : env W).

(** [run], case by case. *)
Lemma run_unfold (input_json : string) (g : Score.globals) (w : W) :
  run_M h (Score.run B input_json) g w =
  match Score.request_id B input_json with
  | inl e => ([], (inr (json_dumps B (str B (VStr (exn_message e)))), g), w)
  | inr id =>
      match Score.client g with
      | None =>
          ([], (inr (json_dumps B (str B (VStr "name 'client' is not defined"))), g), w)
      | Some c =>
          let call := Call "client.ReadDocument"
                        [c; VStr (Score.document_link_of B id); Score.options_of B id] in
          match h call w with
          | (inl e, w1) =>
              ([(call, inl e)],
               (inr (json_dumps B (str B (VStr (exn_message e)))), g), w1)
          | (inr doc, w1) => ([(call, inr doc)], (inr (json_dumps B (str B doc)), g), w1)
          end
      end
  end.
Proof.
  unfold run_M, Score.run, Score.lookup, bind, try_except, lift, ret, Score.get_client, ext.
  destruct (Score.request_id B input_json) as [e|id]; simpl; [reflexivity|].
  destruct (Score.client g) as [c|]; simpl; [|reflexivity].
  destruct (h _ w) as [[e|doc] w1]; reflexivity.
Qed.

(** [init], case by case. *)
Lemma init_unfold (cfg : Score.config) (g : Score.globals) (w : W) :
  run_M h (Score.init cfg) g w =
  let imp := Call "import" [VStr "pydocumentdb.document_client"] in
  match h imp w with
  | (inl e, w1) =>
      ([(imp, inl e)], (inr tt, Score.Globals (Score.client g) (Some (VExn e))), w1)
  | (inr m, w1) =>
      let new := Call "document_client.DocumentClient"
                   [VStr (Score.endpoint cfg); VDict [("masterKey", VStr (Score.key cfg))]] in
      match h new w1 with
      | (inl e, w2) =>
          ([(imp, inr m); (new, inl e)],
           (inr tt, Score.Globals (Score.client g) (Some (VExn e))), w2)
      | (inr c, w2) =>
          let rd := Call "client.ReadCollection"
                      [c; VStr ("dbs/" +:+ Score.database cfg +:+ "/colls/"
                                +:+ Score.collection cfg)] in
          match h rd w2 with
          | (inl e, w3) =>
              ([(imp, inr m); (new, inr c); (rd, inl e)],
               (inr tt, Score.Globals (Some c) (Some (VExn e))), w3)
          | (inr col, w3) =>
              ([(imp, inr m); (new, inr c); (rd, inr col)],
               (inr tt, Score.Globals (Some c) (Some col)), w3)
          end
      end
  end.
Proof.
  unfold run_M, Score.init, bind, try_except, ext, Score.set_client, Score.set_collection.
  simpl.
  destruct (h _ w) as [[e|m] w1]; simpl; [reflexivity|].
  destruct (h _ w1) as [[e|c] w2]; simpl; [reflexivity|].
  destruct (h _ w2) as [[e|col] w3]; reflexivity.
Qed.

End ScriptFacts.

(** C1, as the script has it.  [run] takes one JSON-encoded request that
    carries a user identifier under 'id'.  Once [init] has bound the
    client, that is when its DocumentClient call has returned, [run]
    makes exactly one call to the store, a ReadDocument with that client,
    keyed by the identifier (document link and partition key).  When
    [init] has not bound the client, because the import or the
    DocumentClient call raised, [run] makes no call at all.  Whatever the
    request and the state of the module, [run] makes at most one call and
    no call other than ReadDocument.  The identifier is found by decoding
    the input, taking the first element, decoding that element as JSON
    again and reading its 'id' field; the body sent by the demonstration
    client has that shape. *)
Theorem run_performs_one_lookup :
  (forall (B : builtins) (W : Type) (h : env W) (w w' : W) (cfg : Score.config)
          (input_json : string) (outer first inner id c : value) (new : call),
      (new, inr c) ∈ trace_of h (Score.init cfg) Score.unbound w ->
      callee new = "document_client.DocumentClient" ->
      json_loads B (VStr input_json) = inr outer ->
      getitem0 outer = inr first ->
      json_loads B first = inr inner ->
      getitem inner "id" = inr id ->
      map fst (trace_of h (Score.run B input_json)
                 (vars_of h (Score.init cfg) Score.unbound w) w') =
        [Call "client.ReadDocument"
           [c;
            VStr ("dbs/recommendations/colls/user_recommendations_als/docs/" +:+ str B id);
            VDict [("partitionKey", VStr (str B id))]]])
  /\ (forall (B : builtins) (W : Type) (h : env W) (w w' : W) (cfg : Score.config)
             (input_json : string),
        (forall (new : call) (c : value),
           (new, inr c) ∈ trace_of h (Score.init cfg) Score.unbound w ->
           callee new <> "document_client.DocumentClient") ->
        trace_of h (Score.run B input_json)
          (vars_of h (Score.init cfg) Score.unbound w) w' = [])
  /\ (forall (B : builtins) (W : Type) (h : env W) (w : W) (g : Score.globals)
             (input_json : string) (outer first inner id c : value),
        json_loads B (VStr input_json) = inr outer ->
        getitem0 outer = inr first ->
        json_loads B first = inr inner ->
        getitem inner "id" = inr id ->
        Score.client g = Some c ->
        map fst (trace_of h (Score.run B input_json) g w) =
          [Call "client.ReadDocument"
             [c;
              VStr ("dbs/recommendations/colls/user_recommendations_als/docs/"
                    +:+ str B id);
              VDict [("partitionKey", VStr (str B id))]]])
  /\ (forall (B : builtins) (W : Type) (h : env W) (w : W) (g : Score.globals)
             (input_json : string),
        (length (trace_of h (Score.run B input_json) g w) <= 1)%nat
        /\ forall ev, ev ∈ trace_of h (Score.run B input_json) g w ->
                      callee ev.1 = "client.ReadDocument")
  /\ (json_loads Ref.python (VStr Score.input_data) = inr (VList [VStr Examples.demo_inner])
      /\ getitem0 (VList [VStr Examples.demo_inner]) = inr (VStr Examples.demo_inner)
      /\ json_loads Ref.python (VStr Examples.demo_inner) = inr (VDict [("id", VStr "496")])
      /\ getitem (VDict [("id", VStr "496")]) "id" = inr (VStr "496")).
Proof.
  assert (Hone : forall (B : builtins) (W : Type) (h : env W) (w : W) (g : Score.globals)
                        (input_json : string) (outer first inner id c : value),
             json_loads B (VStr input_json) = inr outer ->
             getitem0 outer = inr first ->
             json_loads B first = inr inner ->
             getitem inner "id" = inr id ->
             Score.client g = Some c ->
             map fst (trace_of h (Score.run B input_json) g w) =
               [Call "client.ReadDocument"
                  [c;
                   VStr ("dbs/recommendations/colls/user_recommendations_als/docs/"
                         +:+ str B id);
                   VDict [("partitionKey", VStr (str B id))]]]).
  { intros B W h w g input outer first inner id c H1 H2 H3 H4 Hc.
    unfold trace_of. rewrite run_unfold.
    unfold Score.request_id. rewrite H1, H2, H3, H4, Hc. cbv zeta.
    destruct (h _ w) as [[e|doc] w1]; reflexivity. }
  split; [|split; [|split; [exact Hone|split]]].
  - intros B W h w w' cfg input outer first inner id c new Hin Hnew H1 H2 H3 H4.
    apply (Hone B W h w' _ input outer first inner id c H1 H2 H3 H4).
    revert Hin. unfold trace_of, vars_of. rewrite init_unfold. cbv zeta.
    destruct (h _ w) as [[e|m] w1]; simpl.
    { intros Hin%list_elem_of_singleton. simplify_eq. }
    destruct (h _ w1) as [[e|c'] w2]; simpl.
    { rewrite !elem_of_cons, elem_of_nil. intros [Heq|[Heq|[]]]; simplify_eq. }
    destruct (h _ w2) as [[e|col] w3]; simpl;
      rewrite !elem_of_cons, elem_of_nil;
      intros [Heq|[Heq|[Heq|[]]]]; simplify_eq; done.
  - intros B W h w w' cfg input Hnone.
    assert (Hc : Score.client (vars_of h (Score.init cfg) Score.unbound w) = None).
    { revert Hnone. unfold trace_of, vars_of. rewrite init_unfold. cbv zeta.
      destruct (h _ w) as [[e|m] w1]; simpl; [done|].
      destruct (h _ w1) as [[e|c'] w2]; simpl; [done|].
      intros Hnone. exfalso.
      destruct (h _ w2) as [[e|col] w3]; simpl in Hnone;
        eapply (Hnone _ c'); [right; left|reflexivity|right; left|reflexivity]. }
    unfold trace_of. rewrite run_unfold, Hc.
    by destruct (Score.request_id B input).
  - intros B W h w g input. unfold trace_of. rewrite run_unfold.
    destruct (Score.request_id B input) as [e|id]; simpl.
    { split; [lia|]. intros ev []%elem_of_nil. }
    destruct (Score.client g) as [c|]; simpl.
    2:{ split; [lia|]. intros ev []%elem_of_nil. }
    destruct (h _ w) as [[e|doc] w1]; simpl;
      (split; [lia|]; intros ev ->%list_elem_of_singleton; reflexivity).
  - repeat split; reflexivity.
Qed.

Lemma run_performs_one_lookup_witness :
  map fst (trace_of (Examples.azure "") (Score.run Ref.python Score.input_data)
             (vars_of (Examples.azure "") (Score.init Examples.demo_config)
                Score.unbound tt) tt) =
  [Call "client.ReadDocument"
     [Examples.document_client;
      VStr "dbs/recommendations/colls/user_recommendations_als/docs/496";
      VDict [("partitionKey", VStr "496")]]].
Proof.
  exact (proj1 run_performs_one_lookup Ref.python unit (Examples.azure "") tt tt
           Examples.demo_config Score.input_data
           (VList [VStr Examples.demo_inner]) (VStr Examples.demo_inner)
           (VDict [("id", VStr "496")]) (VStr "496") Examples.document_client
           (Call "document_client.DocumentClient"
              [VStr "https://reco0a1b.documents.azure.com:443/";
               VDict [("masterKey", VStr "primary-master-key")]])
           ltac:(right; left) eq_refl eq_refl eq_refl eq_refl eq_refl).
Defined.

(** Not every request gets its lookup.  On a host on which the SDK
    client cannot be built, [init] returns with [client] unbound, and the
    demonstration request, which carries the id "496", is answered
    without a call to the store: [run] returns the text of the
    NameError. *)
Lemma run_makes_no_lookup_after_failed_init :
  Score.request_id Ref.python Score.input_data = inr (VStr "496")
  /\ outcome_of Examples.no_client (Score.init Examples.demo_config) Score.unbound tt
     = inr tt
  /\ trace_of Examples.no_client (Score.run Ref.python Score.input_data)
       (vars_of Examples.no_client (Score.init Examples.demo_config) Score.unbound tt) tt
     = []
  /\ outcome_of Examples.no_client (Score.run Ref.python Score.input_data)
       (vars_of Examples.no_client (Score.init Examples.demo_config) Score.unbound tt) tt
     = inr (json_dumps Ref.python "name 'client' is not defined")
  /\ ~ Examples.one_lookup_for_every_request Ref.python Examples.demo_config.
Proof.
  split; [reflexivity|]. split; [reflexivity|]. split; [reflexivity|].
  split; [reflexivity|].
  intros H.
  destruct (H unit Examples.no_client tt tt Score.input_data (VStr "496") eq_refl)
    as (c & Hc & _).
  vm_compute in Hc. discriminate Hc.
Qed.

(** An exception that [init] catches is kept in the global [collection]
    and reaches no caller: here the collection cannot be read, [init]
    returns, and the next [run] answers with the document. *)
Lemma init_failure_is_kept_not_returned :
  outcome_of Examples.broken_collection (Score.init Examples.demo_config)
    Score.unbound tt = inr tt
  /\ vars_of Examples.broken_collection (Score.init Examples.demo_config)
       Score.unbound tt
     = Score.Globals (Some Examples.document_client)
         (Some (VExn (Cosmos.HTTPFailure "Status code: 404")))
  /\ outcome_of Examples.broken_collection (Score.run Ref.python Score.input_data)
       (vars_of Examples.broken_collection (Score.init Examples.demo_config)
          Score.unbound tt) tt
     = inr (json_dumps Ref.python "{'id': '496', 'MovieId': [1, 2]}")
  /\ ~ Examples.init_failure_returned Ref.python Examples.broken_collection
        Examples.demo_config Score.input_data.
Proof.
  split; [reflexivity|]. split; [reflexivity|]. split; [reflexivity|].
  intros H.
  specialize (H (Call "client.ReadCollection"
                   [Examples.document_client;
                    VStr "dbs/recommendations/colls/user_recommendations_als"],
                 inl (Cosmos.HTTPFailure "Status code: 404"))
                (Cosmos.HTTPFailure "Status code: 404")).
  assert (Hin : (Call "client.ReadCollection"
                   [Examples.document_client;
                    VStr "dbs/recommendations/colls/user_recommendations_als"],
                 inl (Cosmos.HTTPFailure "Status code: 404"))
                ∈ trace_of Examples.broken_collection (Score.init Examples.demo_config)
                    Score.unbound tt).
  { vm_compute. do 2 apply list_elem_of_further. apply list_elem_of_here. }
  specialize (H Hin eq_refl). vm_compute in H. discriminate H.
Qed.

(** C3, as the script has it.  [run] never raises: an exception raised
    while decoding the request or during the lookup is caught and
    [run] returns json.dumps(str(e)).  [init] never raises either: an
    exception raised while importing the SDK, building the client or
    reading the collection is caught and bound to the global
    [collection]; [init] returns None, and what [run] answers does not
    depend on [collection]. *)
Theorem script_catches_exceptions (B : builtins) (W : Type) (h : env W) (w : W)
    (g : Score.globals) (cfg : Score.config) (input_json : string) :
  str_law B ->
  (exists s, outcome_of h (Score.run B input_json) g w = inr s)
  /\ (forall e, outcome_of h (Score.lookup B input_json) g w = inl e ->
        outcome_of h (Score.run B input_json) g w = inr (json_dumps B (exn_message e)))
  /\ outcome_of h (Score.init cfg) g w = inr tt
  /\ (forall ev e, ev ∈ trace_of h (Score.init cfg) g w -> ev.2 = inl e ->
        Score.collection_var (vars_of h (Score.init cfg) g w) = Some (VExn e))
  /\ (forall kept,
        outcome_of h (Score.run B input_json) (Score.Globals (Score.client g) kept) w
        = outcome_of h (Score.run B input_json) g w).
Proof.
  intros Hstr. split; [|split; [|split; [|split]]].
  - unfold outcome_of. rewrite run_unfold.
    destruct (Score.request_id B input_json); [eauto|].
    destruct (Score.client g); [|eauto].
    cbv zeta. destruct (h _ w) as [[e|doc] w1]; eauto.
  - intros e. unfold outcome_of. rewrite run_unfold.
    unfold run_M, Score.lookup, bind, lift, Score.get_client, ext.
    destruct (Score.request_id B input_json) as [e'|id]; simpl.
    + intros [= ->]. by rewrite Hstr.
    + destruct (Score.client g) as [c|]; simpl.
      * destruct (h _ w) as [[e'|doc] w1]; simpl; intros [= <-]. by rewrite Hstr.
      * intros [= <-]. by rewrite Hstr.
  - unfold outcome_of. rewrite init_unfold. cbv zeta.
    destruct (h _ w) as [[e|m] w1]; [reflexivity|].
    destruct (h _ w1) as [[e|c] w2]; [reflexivity|].
    destruct (h _ w2) as [[e|col] w3]; reflexivity.
  - intros ev e. unfold trace_of, vars_of. rewrite init_unfold. cbv zeta.
    destruct (h _ w) as [[e0|m] w1]; simpl.
    { intros ->%list_elem_of_singleton. simpl. by intros [= ->]. }
    destruct (h _ w1) as [[e0|c] w2]; simpl.
    { rewrite !elem_of_cons, elem_of_nil.
      intros [->|[->|[]]]; simpl; [done|]. by intros [= ->]. }
    destruct (h _ w2) as [[e0|col] w3]; simpl.
    { rewrite !elem_of_cons, elem_of_nil.
      intros [->|[->|[->|[]]]]; simpl; try done. by intros [= ->]. }
    rewrite !elem_of_cons, elem_of_nil. intros [->|[->|[->|[]]]]; simpl; done.
  - intros kept. unfold outcome_of. rewrite !run_unfold. simpl.
    destruct (Score.request_id B input_json); [reflexivity|].
    destruct (Score.client g); [|reflexivity].
    cbv zeta. by destruct (h _ w) as [[e|doc] w1].
Qed.

Lemma script_catches_exceptions_witness :
  str_law Ref.python
  /\ outcome_of Examples.broken_collection (Score.init Examples.demo_config)
       Score.unbound tt = inr tt
  /\ outcome_of Examples.broken_collection (Score.run Ref.python "not json")
       Score.unbound tt
     = inr (json_dumps Ref.python "Expecting value: line 1 column 1 (char 0)").
Proof.
  pose proof (script_catches_exceptions Ref.python unit Examples.broken_collection tt
                Score.unbound Examples.demo_config "not json" (fun s => eq_refl))
    as (_ & Hrun & Hinit & _ & _).
  split; [exact (fun s => eq_refl)|]. split; [exact Hinit|].
  exact (Hrun Ref.JSONDecodeError eq_refl).
Defined.

(** ** The recommendation records in the store *)

Section RecsFacts.

Context {score : Type}.
Implicit Types (model : Recs.als_model score) (w : Cosmos.world)
  (rs : list Recs.record).

(** A link no row writes to keeps its document. *)
Lemma upsert_all_other (link : Recs.record -> string) (docs : gmap string value) rs
    (l : string) :
  (forall r, r ∈ rs -> link r <> l) -> Recs.upsert_all link docs rs !! l = docs !! l.
Proof.
  revert docs. induction rs as [|r rs IH]; intros docs Hne; [reflexivity|].
  change (Recs.upsert_all link (<[link r := Recs.document r]> docs) rs !! l = docs !! l).
  rewrite IH.
  - apply lookup_insert_ne. apply Hne. left.
  - intros r' Hr'. apply Hne. by right.
Qed.

(** A link that rows write to holds the document of the last of them. *)
Lemma upsert_all_last (link : Recs.record -> string) (docs : gmap string value) rs
    (l : string) (d : value) :
  (forall r, r ∈ rs -> link r = l -> Recs.document r = d) ->
  (exists r, r ∈ rs /\ link r = l) ->
  Recs.upsert_all link docs rs !! l = Some d.
Proof.
  revert docs. induction rs as [|r rs IH]; intros docs Hd [r0 [Hin Hl]].
  { by apply elem_of_nil in Hin. }
  change (Recs.upsert_all link (<[link r := Recs.document r]> docs) rs !! l = Some d).
  destruct (decide (l ∈ map link rs)) as [Hlater|Hnot].
  - apply list_elem_of_fmap in Hlater as [r1 [-> Hr1]].
    apply IH; [|eauto]. intros r' Hr'. apply Hd. by right.
  - rewrite upsert_all_other.
    + apply elem_of_cons in Hin as [->|Hin].
      * rewrite Hl, lookup_insert_eq. f_equal. apply Hd; [left|done].
      * exfalso. apply Hnot. apply list_elem_of_fmap. eauto.
    + intros r' Hr' Heq. apply Hnot. apply list_elem_of_fmap. eauto.
Qed.

(** With upserts on, [save] never fails and upserts every row. *)
Lemma save_upserts (mode : string) (cfg : value) rs w :
  Recs.upserts mode cfg = true ->
  Recs.save mode cfg rs w =
  inr (Cosmos.World (Cosmos.databases w) (Cosmos.collections w)
         (Recs.upsert_all
            (fun r => Cosmos.document_link (Recs.text_option cfg "Database")
                        (Recs.text_option cfg "Collection") (Recs.id r))
            (Cosmos.documents w) rs)).
Proof.
  intros Hup. unfold Recs.save. revert w.
  induction rs as [|r rs IH]; intros w; [by destruct w|].
  simpl. rewrite Hup. rewrite IH. reflexivity.
Qed.

Lemma append_inj_r (s a b : string) : s +:+ a = s +:+ b -> a = b.
Proof. induction s as [|c s IH]; simpl; [done|]. intros [= H]. auto. Qed.

(** Distinct users have distinct document links. *)
Lemma link_of_inj (u v : Z) : Recs.link_of u = Recs.link_of v -> u = v.
Proof.
  unfold Recs.link_of, Cosmos.document_link, Cosmos.collection_link.
  intros H. repeat (apply append_inj_r in H). by apply (inj pretty) in H.
Qed.

Lemma rows_spec model (r : Recs.record) :
  r ∈ Recs.rows model <-> exists u, u ∈ Recs.users model /\ r = Recs.record_of model u.
Proof.
  unfold Recs.rows, Recs.recommendForAllUsers. rewrite <- list_fmap_compose.
  rewrite list_elem_of_fmap. split; intros [u [? ?]]; exists u; auto.
Qed.

(** The write of cell 35 succeeds on every account; afterwards each user
    of the model has exactly the model's record, and nothing else in the
    account has changed. *)
Lemma write_recommendations_spec (endpoint : string) (master_key : value) model w :
  exists w',
    Recs.write_recommendations endpoint master_key model w = inr w'
    /\ (forall u, u ∈ Recs.users model ->
          Cosmos.documents w' !! Recs.link_of u
          = Some (Recs.document (Recs.record_of model u)))
    /\ (forall l, (forall u, u ∈ Recs.users model -> l <> Recs.link_of u) ->
          Cosmos.documents w' !! l = Cosmos.documents w !! l)
    /\ Cosmos.databases w' = Cosmos.databases w
    /\ Cosmos.collections w' = Cosmos.collections w.
Proof.
  unfold Recs.write_recommendations. rewrite save_upserts by reflexivity.
  eexists. split; [reflexivity|]. simpl.
  change (Recs.text_option (Notebook.secrets endpoint master_key) "Database")
    with Names.DOCUMENTDB_DATABASE.
  change (Recs.text_option (Notebook.secrets endpoint master_key) "Collection")
    with Names.DOCUMENTDB_COLLECTION.
  repeat split.
  - intros u Hu. apply upsert_all_last.
    + intros r [v [Hv ->]]%rows_spec Hl.
      change (Recs.link_of v = Recs.link_of u) in Hl. by apply link_of_inj in Hl as ->.
    + exists (Recs.record_of model u). split; [|reflexivity]. apply rows_spec. eauto.
  - intros l Hl. apply upsert_all_other.
    intros r [v [Hv ->]]%rows_spec Heq. by apply (Hl v).
Qed.

(** Spark's selection of cell 35 turns the rows of
    [recommendForAllUsers] into the records. *)
Lemma select_rows (show : score -> string) (recs : list (Recs.recommendation score)) :
  Recs.mapM (Recs.select_row "id" "UserId" "recommendations.MovieId")
    (map (Recs.row_value show) recs)
  = inr (map (fun r => Recs.document (Recs.to_record r)) recs).
Proof.
  induction recs as [|[u ms] recs IH]; [reflexivity|].
  cbn [map Recs.mapM]. rewrite IH.
  assert (Hitems : Recs.mapM (fun s => getitem s "MovieId")
                     (map (Recs.struct_value show) ms)
                   = inr (map VInt (map fst ms))).
  { clear. induction ms as [|[m s] ms IH]; [reflexivity|].
    cbn [map Recs.mapM]. rewrite IH. reflexivity. }
  unfold Recs.select_row, Recs.row_value.
  change (Recs.split_dot "recommendations.MovieId")
    with (Some ("recommendations", "MovieId")).
  cbn [getitem assoc String.eqb Ascii.eqb Bool.eqb Recs.cast_string
       Recs.UserId Recs.recommendations].
  rewrite Hitems. reflexivity.
Qed.

(** With upserts on, the connector stores every record under its link
    and does not fail. *)
Lemma write_docs_upserts (mode : string) (cfg : value) rs w :
  Recs.upserts mode cfg = true ->
  Recs.write_docs mode cfg (map Recs.document rs) w
  = (inr VNone,
     Cosmos.World (Cosmos.databases w) (Cosmos.collections w)
       (Recs.upsert_all
          (fun r => Cosmos.document_link (Recs.text_option cfg "Database")
                      (Recs.text_option cfg "Collection") (Recs.id r))
          (Cosmos.documents w) rs)).
Proof.
  intros Hup. revert w. induction rs as [|r rs IH]; intros w; [by destruct w|].
  cbn [map Recs.write_docs]. unfold Recs.document at 1.
  cbn [getitem assoc String.eqb Ascii.eqb Bool.eqb]. cbv zeta.
  rewrite Hup, IH. reflexivity.
Qed.

(** Cell 35 on Spark and the connector does what
    [Recs.write_recommendations] says. *)
Lemma spark_write_recommendations (show : score -> string) model
    (endpoint : string) (master_key m : value) w w' :
  Recs.write_recommendations endpoint master_key model w = inr w' ->
  (run_M (Recs.spark show model (Notebook.secrets endpoint master_key))
     (Notebook.write_recommendations m) tt w).1.2.1 = inr tt
  /\ (run_M (Recs.spark show model (Notebook.secrets endpoint master_key))
        (Notebook.write_recommendations m) tt w).2 = w'.
Proof.
  unfold Recs.write_recommendations. rewrite save_upserts by reflexivity.
  intros [= <-].
  unfold Notebook.write_recommendations.
  cbn [run_M bind try_except ext lift ret exec io_bind fst snd].
  change (Recs.spark show model (Notebook.secrets endpoint master_key)
            (Call "json.load" [VStr Names.secrets_path]) w)
    with (@inr exn value (Notebook.secrets endpoint master_key), w).
  cbn [run_M bind try_except ext lift ret exec io_bind fst snd].
  change (Recs.spark show model (Notebook.secrets endpoint master_key)
            (Call "model.recommendForAllUsers" [m; VInt 10]) w)
    with (@inr exn value
            (VList (map (Recs.row_value show) (Recs.recommendForAllUsers model 10))), w).
  cbn [run_M bind try_except ext lift ret exec io_bind fst snd].
  match goal with
  | |- context [Recs.spark show model ?f (Call "recs.withColumn().select" ?a) w] =>
      change (Recs.spark show model f (Call "recs.withColumn().select" a) w)
        with (match Recs.mapM (Recs.select_row "id" "UserId" "recommendations.MovieId")
                      (map (Recs.row_value show) (Recs.recommendForAllUsers model 10))
              with
              | inl e => @inl exn value e
              | inr selected => inr (VList selected)
              end, w)
  end.
  rewrite select_rows.
  cbn [run_M bind try_except ext lift ret exec io_bind fst snd].
  match goal with
  | |- context [Recs.spark show model ?f
                  (Call "write.format().mode().options().save" ?a) w] =>
      change (Recs.spark show model f (Call "write.format().mode().options().save" a) w)
        with (Recs.write_docs "overwrite" f
                (map (fun r => Recs.document (Recs.to_record r))
                   (Recs.recommendForAllUsers model 10)) w)
  end.
  replace (map (fun r => Recs.document (Recs.to_record r))
             (Recs.recommendForAllUsers model 10))
    with (map Recs.document (Recs.rows model))
    by (unfold Recs.rows; apply map_map).
  rewrite write_docs_upserts by reflexivity.
  split; reflexivity.
Qed.

(** C4. Each persisted record pairs one user identifier, the user id
    cast to string under the key 'id', with the ordered list of at most
    ten item identifiers that recommendForAllUsers(10) produced for that
    user.  On any platform, cell 35 asks the model for ten
    recommendations for all users, casts UserId to a string column 'id',
    selects it with recommendations.MovieId, and saves the result through
    the Cosmos DB connector in mode 'overwrite' with the options read
    from the secrets file, in which cell 12 set Upsert to "true".  On
    Spark and the connector the write succeeds on any store, leaves under
    each user's key exactly the document of 'id' and 'MovieId', and
    touches no other document; after a retraining run every user of the
    retrained model has the retrained record and nothing of the earlier
    one (last write wins, nothing is merged). *)
Theorem records_replace_wholesale (show : score -> string)
    (model retrained : Recs.als_model score)
    (endpoint : string) (master_key m : value) (w : Cosmos.world) :
  let cell := Notebook.write_recommendations m in
  let files := Notebook.secrets endpoint master_key in
  let link (u : Z) :=
    "dbs/recommendations/colls/user_recommendations_als/docs/" +:+ pretty u in
  let record (ranking : Recs.als_model score) (u : Z) :=
    VDict [("id", VStr (pretty u));
           ("MovieId", VList (map VInt (map fst (take 10 (Recs.ranked ranking u)))))] in
  (forall (W : Type) (h : env W) (w0 : W) (c : call) (r : result value),
     (c, r) ∈ trace_of h cell tt w0 ->
     (callee c = "model.recommendForAllUsers" -> args c = [m; VInt 10])
     /\ (callee c = "recs.withColumn().select" ->
         exists recs,
           args c = [recs; VStr "id"; VStr "UserId"; VStr "string";
                     VStr "recommendations.MovieId"]
           /\ (Call "model.recommendForAllUsers" [m; VInt 10], inr recs)
                ∈ trace_of h cell tt w0)
     /\ (callee c = "write.format().mode().options().save" ->
         exists rows cfg select,
           args c = [rows; VStr "com.microsoft.azure.cosmosdb.spark";
                     VStr "overwrite"; cfg]
           /\ (Call "json.load" [VStr "/dbfs/FileStore/dbsecrets.json"], inr cfg)
                ∈ trace_of h cell tt w0
           /\ (select, inr rows) ∈ trace_of h cell tt w0
           /\ callee select = "recs.withColumn().select"))
  /\ getitem files "Upsert" = inr (VStr "true")
  /\ (forall u, (length (take 10 (Recs.ranked model u)) <= 10)%nat)
  /\ let first := run_M (Recs.spark show model files) cell tt w in
     let second := run_M (Recs.spark show retrained files) cell tt first.2 in
     first.1.2.1 = inr tt
     /\ (forall u, u ∈ Recs.users model ->
           Cosmos.documents first.2 !! link u = Some (record model u))
     /\ (forall l, (forall u, u ∈ Recs.users model -> l <> link u) ->
           Cosmos.documents first.2 !! l = Cosmos.documents w !! l)
     /\ second.1.2.1 = inr tt
     /\ (forall u, u ∈ Recs.users retrained ->
           Cosmos.documents second.2 !! link u = Some (record retrained u)).
Proof.
  cbv zeta. split; [|split; [reflexivity|split]].
  - intros W h w0 c r. unfold trace_of, Notebook.write_recommendations.
    cbn [run_M bind try_except ext lift ret exec io_bind fst snd].
    repeat (match goal with
            | |- context [h ?q ?w] => destruct (h q w) as [[?e|?v] ?w]
            end;
            cbn [run_M bind try_except ext lift ret exec io_bind fst snd]).
    all: rewrite ?elem_of_cons, ?elem_of_nil; intros Hin.
    all: repeat match goal with
           | H : _ \/ _ |- _ => destruct H as [H|H]
           | H : False |- _ => destruct H
           end; injection Hin as -> ->.
    all: repeat split; try discriminate; try reflexivity; intros _.
    all: try (eexists; split; [reflexivity|];
              rewrite ?elem_of_cons; right; left; reflexivity).
    all: eexists _, _, _; split; [reflexivity|]; rewrite ?elem_of_cons;
      split; [left; reflexivity|]; split; [do 2 right; left; reflexivity|reflexivity].
  - intros u. rewrite length_take. lia.
  - destruct (write_recommendations_spec endpoint master_key model w)
      as (w1 & Hw1 & Hin1 & Hout1 & _).
    destruct (spark_write_recommendations show model endpoint master_key m w w1 Hw1)
      as [Ho1 Hworld1].
    rewrite Hworld1.
    destruct (write_recommendations_spec endpoint master_key retrained w1)
      as (w2 & Hw2 & Hin2 & _).
    destruct (spark_write_recommendations show retrained endpoint master_key m w1 w2 Hw2)
      as [Ho2 Hworld2].
    rewrite Hworld2.
    split; [exact Ho1|]. split; [exact Hin1|]. split; [exact Hout1|].
    split; [exact Ho2|exact Hin2].
Qed.

End RecsFacts.

(** Two trainings on an empty collection.  The first leaves the records
    of users 496 and 7; the retrained model covers user 496 only, and its
    write replaces that record and leaves the record of user 7. *)
Example records_of_two_trainings :
  let files :=
    Notebook.secrets "https://reco0a1b.documents.azure.com:443/"
      (VStr "primary-master-key") in
  let cell := Notebook.write_recommendations (VObj "ALSModel" []) in
  let first :=
    run_M (Recs.spark (fun _ => "4.5") Examples.demo_model files) cell tt Cosmos.empty in
  let second :=
    run_M (Recs.spark (fun _ => "4.5") Examples.retrained_model files) cell tt first.2 in
  Cosmos.documents first.2
    !! "dbs/recommendations/colls/user_recommendations_als/docs/496"
  = Some (VDict [("id", VStr "496"); ("MovieId", VList [VInt 50; VInt 181; VInt 100])])
  /\ Cosmos.documents first.2
       !! "dbs/recommendations/colls/user_recommendations_als/docs/7"
     = Some (VDict [("id", VStr "7"); ("MovieId", VList [VInt 1])])
  /\ Cosmos.documents second.2
       !! "dbs/recommendations/colls/user_recommendations_als/docs/496"
     = Some (VDict [("id", VStr "496"); ("MovieId", VList [VInt 181; VInt 50])])
  /\ Cosmos.documents second.2
       !! "dbs/recommendations/colls/user_recommendations_als/docs/7"
     = Some (VDict [("id", VStr "7"); ("MovieId", VList [VInt 1])]).
Proof. cbv zeta. repeat split; vm_compute; reflexivity. Qed.

Lemma service_read_document (c : value) (link : string) (opts : value)
    (w : Cosmos.world) :
  Cosmos.service (Call "client.ReadDocument" [c; VStr link; opts]) w
  = (Cosmos.read_document link opts w, w).
Proof. reflexivity. Qed.

(** C2. Whenever the lookup succeeds, [run] returns json.dumps of the
    stringified document that ReadDocument gave back; and on a store
    that cell 35 has written, a request for a user of the model returns
    json.dumps(str(...)) of that user's stored record, the id and the
    recommendation list. *)
Theorem run_returns_stored_document :
  (forall (B : builtins) (W : Type) (h : env W) (w w' : W) (g : Score.globals)
          (input_json : string) (id c doc : value),
      Score.request_id B input_json = inr id ->
      Score.client g = Some c ->
      h (Call "client.ReadDocument"
           [c; VStr (Score.document_link_of B id); Score.options_of B id]) w
        = (inr doc, w') ->
      outcome_of h (Score.run B input_json) g w = inr (json_dumps B (str B doc)))
  /\ (forall (B : builtins) (score : Type) (model : Recs.als_model score)
             (endpoint : string) (master_key : value) (w w' : Cosmos.world)
             (g : Score.globals) (input_json : string) (id c : value) (u : Z),
      Recs.write_recommendations endpoint master_key model w = inr w' ->
      u ∈ Recs.users model ->
      Score.request_id B input_json = inr id ->
      str B id = pretty u ->
      Score.client g = Some c ->
      outcome_of Cosmos.service (Score.run B input_json) g w'
        = inr (json_dumps B (str B (Recs.document (Recs.record_of model u))))).
Proof.
  split.
  - intros B W h w w' g input id c doc Hid Hc Hh.
    unfold outcome_of. rewrite run_unfold, Hid, Hc. cbv zeta. by rewrite Hh.
  - intros B score model endpoint master_key w w' g input id c u Hw Hu Hid Hstr Hc.
    destruct (write_recommendations_spec endpoint master_key model w)
      as (w1 & Hw1 & Hin & _).
    rewrite Hw in Hw1. injection Hw1 as <-.
    unfold outcome_of. rewrite run_unfold, Hid, Hc. cbv zeta.
    rewrite service_read_document.
    unfold Cosmos.read_document, Score.document_link_of, Score.options_of.
    rewrite Hstr.
    change ("dbs/" +:+ Names.DOCUMENTDB_DATABASE +:+ "/colls/"
            +:+ Names.DOCUMENTDB_COLLECTION +:+ "/docs/" +:+ pretty u)
      with (Recs.link_of u).
    rewrite (Hin u Hu). simpl. by rewrite String.eqb_refl.
Qed.

Lemma run_returns_stored_document_witness :
  outcome_of Cosmos.service (Score.run Ref.python Score.input_data)
    (Score.Globals (Some Examples.document_client) None) Examples.demo_store
  = inr (json_dumps Ref.python "{'id': '496', 'MovieId': [50, 181, 100]}").
Proof.
  exact (proj2 run_returns_stored_document Ref.python unit Examples.demo_model
           "https://reco0a1b.documents.azure.com:443/" (VStr "primary-master-key")
           Cosmos.empty Examples.demo_store
           (Score.Globals (Some Examples.document_client) None) Score.input_data
           (VStr "496") Examples.document_client 496
           eq_refl ltac:(left) eq_refl eq_refl eq_refl).
Defined.

(** ** Runs of the notebook *)

Section NotebookFacts.

Import Names Traces Checks.

Section CheckFacts.






Lemma read_nextb_sound (find read : string) (t : trace) :
  read_nextb find read t = true ->
  forall i c v,
    t !! i = Some (c, inr v) -> callee c = find -> eq_False v = false ->
    exists ev, t !! S i = Some ev /\ callee ev.1 = read.
Proof.
  induction t as [|ev t IH]; intros H i c v Hi Hc Hv; [by destruct i|].
  simpl in H. apply andb_true_iff in H as [H0 Ht].
  destruct i as [|i]; simpl in Hi.
  - injection Hi as ->. unfold found, called in H0. simpl in H0.
    rewrite Hc, String.eqb_refl, Hv in H0. simpl in H0.
    destruct t as [|ev' t]; [discriminate|].
    exists ev'. split; [done|]. by apply String.eqb_eq.
  - by apply (IH Ht i c v).
Qed.

Lemma reads_what_existsb_sound (find read create : string) (t : trace) :
  reads_what_existsb find read create t = true -> reads_what_exists find read create t.
Proof.
  unfold reads_what_existsb. intros [Hn Hc]%andb_true_iff i c v Hi Hf Hv. split.
  - by apply (read_nextb_sound find read t Hn i c v).
  - intros Hin. apply orb_true_iff in Hc as [Hc|Hc]; apply negb_true_iff in Hc.
    + assert (existsb (found find) t = true) as Hex; [|congruence].
      apply existsb_exists. exists (c, inr v). split.
      * apply list_elem_of_In. by eapply list_elem_of_lookup_2.
      * unfold found, called. simpl. by rewrite Hf, String.eqb_refl, Hv.
    + assert (existsb (called create) t = true) as Hex; [|congruence].
      apply list_elem_of_fmap in Hin as (ev & Hev & Hin).
      apply existsb_exists. exists ev. split; [by apply list_elem_of_In|].
      unfold called. rewrite <- Hev. apply String.eqb_refl.
Qed.

End CheckFacts.


Section StepFacts.
Variable B : builtins.
Variable u : string.
















(** The provisioning cell reads what exists, whatever the platform. *)
Lemma create_store_reads e k (W : Type) (h : env W) (w : W) :
  let t := (run_M h (Notebook.create_store e k) tt w).1.1 in
  reads_what_existsb "find_database" "read_database" "client.CreateDatabase" t
  && reads_what_existsb "find_collection" "read_collection" "client.CreateCollection" t
  = true.
Proof.
  unfold Notebook.create_store.
  cbn [run_M bind try_except ext lift ret exec io_bind fst snd].
  repeat exec_step_eqn h;
    cbv -[eq_False];
    repeat match goal with H : eq_False _ = _ |- _ => rewrite H end;
    reflexivity.
Qed.


End StepFacts.


Section CosmosFacts.

Lemma find_database_add id w : Cosmos.find_database id (Cosmos.add_database id w) = true.
Proof.
  unfold Cosmos.find_database, Cosmos.add_database. simpl.
  apply bool_decide_eq_true. set_solver.
Qed.

Lemma find_collection_add dbid d id w :
  Cosmos.find_collection dbid id (Cosmos.add_collection dbid d id w) = true.
Proof.
  unfold Cosmos.find_collection, Cosmos.add_collection. simpl.
  apply bool_decide_eq_true. rewrite lookup_insert_eq. eauto.
Qed.

Lemma provision_provisioned w : Cosmos.provisioned (Cosmos.provision w) = true.
Proof.
  unfold Cosmos.provisioned, Cosmos.provision.
  destruct (Cosmos.find_database DOCUMENTDB_DATABASE w) eqn:Hdb.
  - destruct (Cosmos.find_collection _ _ w) eqn:Hc.
    + by rewrite Hdb, Hc.
    + change (Cosmos.find_database DOCUMENTDB_DATABASE (Cosmos.add_collection _ _ _ w))
        with (Cosmos.find_database DOCUMENTDB_DATABASE w).
      by rewrite Hdb, find_collection_add.
  - change (Cosmos.find_collection DOCUMENTDB_DATABASE DOCUMENTDB_COLLECTION
              (Cosmos.add_database DOCUMENTDB_DATABASE w))
      with (Cosmos.find_collection DOCUMENTDB_DATABASE DOCUMENTDB_COLLECTION w).
    destruct (Cosmos.find_collection _ _ w) eqn:Hc.
    + rewrite find_database_add.
      change (Cosmos.find_collection DOCUMENTDB_DATABASE DOCUMENTDB_COLLECTION
                (Cosmos.add_database DOCUMENTDB_DATABASE w))
        with (Cosmos.find_collection DOCUMENTDB_DATABASE DOCUMENTDB_COLLECTION w).
      by rewrite Hc.
    + change (Cosmos.find_database DOCUMENTDB_DATABASE
                (Cosmos.add_collection DOCUMENTDB_DATABASE Notebook.collection_definition
                   DOCUMENTDB_COLLECTION (Cosmos.add_database DOCUMENTDB_DATABASE w)))
        with (Cosmos.find_database DOCUMENTDB_DATABASE
                (Cosmos.add_database DOCUMENTDB_DATABASE w)).
      by rewrite find_database_add, find_collection_add.
Qed.

Lemma provision_fixed w : Cosmos.provisioned w = true -> Cosmos.provision w = w.
Proof.
  unfold Cosmos.provisioned, Cosmos.provision.
  intros [Hdb Hc]%andb_true_iff. by rewrite Hdb, Hc.
Qed.

Lemma service_find_database c id w :
  Cosmos.service (Call "find_database" [c; VStr id]) w
  = (inr (VBool (Cosmos.find_database id w)), w).
Proof. reflexivity. Qed.

Lemma service_CreateDatabase c id w :
  Cosmos.find_database id w = false ->
  Cosmos.service (Call "client.CreateDatabase" [c; VDict [("id", VStr id)]]) w
  = (inr (Cosmos.database_resource id), Cosmos.add_database id w).
Proof. intros H. cbn. by rewrite H. Qed.

Lemma service_read_database c id w :
  Cosmos.find_database id w = true ->
  Cosmos.service (Call "read_database" [c; VStr id]) w
  = (inr (Cosmos.database_resource id), w).
Proof. intros H. cbn. by rewrite H. Qed.

Lemma service_find_collection c dbid id w :
  Cosmos.find_database dbid w = true ->
  Cosmos.service (Call "find_collection" [c; VStr dbid; VStr id]) w
  = (inr (VBool (Cosmos.find_collection dbid id w)), w).
Proof. intros H. cbn. by rewrite H. Qed.

Lemma service_CreateCollection c opts w :
  Cosmos.find_database DOCUMENTDB_DATABASE w = true ->
  Cosmos.find_collection DOCUMENTDB_DATABASE DOCUMENTDB_COLLECTION w = false ->
  Cosmos.service
    (Call "client.CreateCollection"
       [c; VStr (Cosmos.database_self DOCUMENTDB_DATABASE);
        Notebook.collection_definition; opts]) w
  = (inr Notebook.collection_definition,
     Cosmos.add_collection DOCUMENTDB_DATABASE Notebook.collection_definition
       DOCUMENTDB_COLLECTION w).
Proof.
  intros Hdb Hc. unfold Cosmos.find_database in Hdb. unfold Cosmos.find_collection in Hc.
  apply bool_decide_eq_true in Hdb. apply bool_decide_eq_false in Hc.
  cbn. rewrite bool_decide_eq_true_2 by exact Hdb.
  change ("dbs/recommendations/colls/user_recommendations_als")
    with (Cosmos.collection_link DOCUMENTDB_DATABASE DOCUMENTDB_COLLECTION).
  destruct (Cosmos.collections w !! _) eqn:E; [|reflexivity].
  exfalso. apply Hc. eauto.
Qed.

Lemma service_read_collection c dbid id w :
  Cosmos.service (Call "read_collection" [c; VStr dbid; VStr id]) w
  = (inr (default VNone (Cosmos.collections w !! Cosmos.collection_link dbid id)), w).
Proof. reflexivity. Qed.

Lemma create_store_service e k w :
  world_of Cosmos.service (Notebook.create_store e k) tt w = Cosmos.provision w
  /\ failed (outcome_of Cosmos.service (Notebook.create_store e k) tt w) = false
  /\ callees (trace_of Cosmos.service (Notebook.create_store e k) tt w)
     = Cosmos.store_calls (Cosmos.find_database DOCUMENTDB_DATABASE w)
         (Cosmos.find_collection DOCUMENTDB_DATABASE DOCUMENTDB_COLLECTION w).
Proof.
  unfold world_of, outcome_of, trace_of, Notebook.create_store, Cosmos.provision.
  cbn [run_M bind try_except ext lift ret exec io_bind fst snd].
  change (Cosmos.service (Call "document_client.DocumentClient" _) w) with (inr (B:=value) (A:=exn) VNone, w).
  cbn [run_M bind try_except ext lift ret exec io_bind fst snd].
  rewrite service_find_database.
  cbn [run_M bind try_except ext lift ret exec io_bind fst snd eq_False].
  destruct (Cosmos.find_database DOCUMENTDB_DATABASE w) eqn:Hdb;
    cbn [run_M bind try_except ext lift ret exec io_bind fst snd negb].
  - rewrite (service_read_database _ _ _ Hdb).
    cbn [run_M bind try_except ext lift ret exec io_bind fst snd].
    rewrite (service_find_collection _ _ _ _ Hdb).
    cbn [run_M bind try_except ext lift ret exec io_bind fst snd eq_False].
    destruct (Cosmos.find_collection DOCUMENTDB_DATABASE DOCUMENTDB_COLLECTION w) eqn:Hc;
      cbn [run_M bind try_except ext lift ret exec io_bind fst snd negb].
    + rewrite service_read_collection. cbn. auto.
    + cbn [getitem Cosmos.database_resource assoc String.eqb Ascii.eqb Bool.eqb].
      cbn [run_M bind try_except ext lift ret exec io_bind fst snd negb].
      rewrite (service_CreateCollection _ _ _ Hdb Hc). cbn. auto.
  - rewrite (service_CreateDatabase _ _ _ Hdb).
    cbn [run_M bind try_except ext lift ret exec io_bind fst snd].
    rewrite (service_find_collection _ _ _ _ (find_database_add _ _)).
    cbn [run_M bind try_except ext lift ret exec io_bind fst snd eq_False].
    change (Cosmos.find_collection DOCUMENTDB_DATABASE DOCUMENTDB_COLLECTION
              (Cosmos.add_database DOCUMENTDB_DATABASE w))
      with (Cosmos.find_collection DOCUMENTDB_DATABASE DOCUMENTDB_COLLECTION w).
    destruct (Cosmos.find_collection DOCUMENTDB_DATABASE DOCUMENTDB_COLLECTION w) eqn:Hc;
      cbn [run_M bind try_except ext lift ret exec io_bind fst snd negb].
    + rewrite service_read_collection. cbn. auto.
    + cbn [getitem Cosmos.database_resource assoc String.eqb Ascii.eqb Bool.eqb].
      cbn [run_M bind try_except ext lift ret exec io_bind fst snd negb].
      rewrite (service_CreateCollection _ _ _ (find_database_add _ _) Hc). cbn. auto.
Qed.

Lemma exec_bind {W R S : Type} (h : env W) (p : io R) (f : R -> io S) (w : W) :
  exec h (io_bind p f) w =
  let '(t1, r, w1) := exec h p w in
  let '(t2, s, w2) := exec h (f r) w1 in
  ((t1 ++ t2)%list, s, w2).
Proof.
  revert w. induction p as [r|c k IH]; intros w; simpl.
  - by destruct (exec h (f r) w) as [[t2 s] w2].
  - destruct (h c w) as [x w1]. rewrite IH.
    destruct (exec h (k x) w1) as [[t1 r] w2].
    by destruct (exec h (f r) w2) as [[t2 s] w3].
Qed.

Lemma create_cosmosdb_service u w :
  world_of Cosmos.service (Notebook.create_cosmosdb u) tt w = Cosmos.provision w
  /\ failed (outcome_of Cosmos.service (Notebook.create_cosmosdb u) tt w) = false
  /\ callees (trace_of Cosmos.service (Notebook.create_cosmosdb u) tt w)
     = (Schedule.create_account
        ++ Cosmos.store_calls (Cosmos.find_database DOCUMENTDB_DATABASE w)
             (Cosmos.find_collection DOCUMENTDB_DATABASE DOCUMENTDB_COLLECTION w))%list.
Proof.
  pose proof (create_store_service
                ("https://" +:+ account_name u +:+ ".documents.azure.com:443/")
                (VStr "primary-master-key") w) as (Hw & Ho & Ht).
  unfold world_of, outcome_of, trace_of, run_M in *.
  unfold Notebook.create_cosmosdb, Notebook.create_account.
  cbn [run_M bind try_except ext lift ret exec io_bind fst snd].
  change (Cosmos.service (Call "get_client_from_cli_profile" _) w)
    with (inr (B:=value) (A:=exn) VNone, w).
  cbn [run_M bind try_except ext lift ret exec io_bind fst snd].
  change (Cosmos.service (Call "client.database_accounts.create_or_update" _) w)
    with (inr (B:=value) (A:=exn) VNone, w).
  cbn [run_M bind try_except ext lift ret exec io_bind fst snd].
  change (Cosmos.service (Call "async_cosmosdb_create.result" _) w)
    with (inr (B:=value) (A:=exn) VNone, w).
  cbn [run_M bind try_except ext lift ret exec io_bind fst snd].
  change (Cosmos.service (Call "client.database_accounts.list_keys" _) w)
    with (inr (B:=value) (A:=exn)
            (VObj "DatabaseAccountListKeysResult"
               [("primary_master_key", VStr "primary-master-key")]), w).
  cbn [run_M bind try_except ext lift ret exec io_bind fst snd getattr assoc
       String.eqb Ascii.eqb Bool.eqb].
  unfold bind. rewrite exec_bind.
  destruct (exec Cosmos.service (Notebook.create_store _ _ ()) w) as [[t [[e|r] g]] w'];
    cbn [fst snd failed] in *; [discriminate Ho|].
  subst w'. cbn [exec ret fst snd failed app]. unfold callees in *.
  rewrite app_nil_r. cbn [map fst callee]. rewrite Ht. auto.
Qed.

End CosmosFacts.

(** C8. Re-running the Cosmos DB provisioning cell is idempotent on the
    document store.  Whatever the platform, when find_database (or
    find_collection) answers that the resource exists the next call reads
    it and no create call is made.  On any account the first run succeeds and creates
    only what is missing: a database or a collection that exists is read,
    not re-created, and is left as it was, as are all documents.  A
    second run finds both, makes no Create call, and leaves the account
    exactly as the first run left it. *)
Theorem provisioning_is_idempotent (u : string) (w : Cosmos.world) :
  (forall (e : string) (k : value) (W : Type) (h : env W) (w' : W),
     reads_what_exists "find_database" "read_database" "client.CreateDatabase"
       (trace_of h (Notebook.create_store e k) tt w')
     /\ reads_what_exists "find_collection" "read_collection" "client.CreateCollection"
          (trace_of h (Notebook.create_store e k) tt w')) /\
  let first := run_M Cosmos.service (Notebook.create_cosmosdb u) tt w in
  let second := run_M Cosmos.service (Notebook.create_cosmosdb u) tt first.2 in
  (failed first.1.2.1 = false /\ failed second.1.2.1 = false)
  /\ second.2 = first.2
  /\ callees second.1.1
     = ["get_client_from_cli_profile"; "client.database_accounts.create_or_update";
        "async_cosmosdb_create.result"; "client.database_accounts.list_keys";
        "document_client.DocumentClient"; "find_database"; "read_database";
        "find_collection"; "read_collection"]
  /\ callees first.1.1
     = (Schedule.create_account
        ++ Cosmos.store_calls (Cosmos.find_database DOCUMENTDB_DATABASE w)
             (Cosmos.find_collection DOCUMENTDB_DATABASE DOCUMENTDB_COLLECTION w))%list
  /\ (Cosmos.find_database DOCUMENTDB_DATABASE w = true ->
      Cosmos.databases first.2 = Cosmos.databases w)
  /\ (Cosmos.find_collection DOCUMENTDB_DATABASE DOCUMENTDB_COLLECTION w = true ->
      Cosmos.collections first.2 = Cosmos.collections w)
  /\ Cosmos.documents first.2 = Cosmos.documents w.
Proof.
  split.
  { intros e k W h w'. pose proof (create_store_reads e k W h w') as H. cbv zeta in H.
    apply andb_true_iff in H as [H1 H2].
    split; by apply reads_what_existsb_sound. }
  cbv zeta.
  destruct (create_cosmosdb_service u w) as (Hw1 & Ho1 & Ht1).
  unfold world_of, outcome_of, trace_of in Hw1, Ho1, Ht1.
  rewrite Hw1.
  destruct (create_cosmosdb_service u (Cosmos.provision w)) as (Hw2 & Ho2 & Ht2).
  unfold world_of, outcome_of, trace_of in Hw2, Ho2, Ht2.
  pose proof (provision_provisioned w) as Hp.
  rewrite Hw2, (provision_fixed _ Hp).
  unfold Cosmos.provisioned in Hp. apply andb_true_iff in Hp as [Hdb Hc].
  rewrite Hdb, Hc in Ht2.
  repeat split; try done.
  - intros H. unfold Cosmos.provision. rewrite H.
    by destruct (Cosmos.find_collection _ _ w).
  - intros H. unfold Cosmos.provision.
    destruct (Cosmos.find_database _ w); cbv zeta.
    + by rewrite H.
    + change (Cosmos.find_collection DOCUMENTDB_DATABASE DOCUMENTDB_COLLECTION
                (Cosmos.add_database DOCUMENTDB_DATABASE w))
        with (Cosmos.find_collection DOCUMENTDB_DATABASE DOCUMENTDB_COLLECTION w).
      by rewrite H.
  - unfold Cosmos.provision.
    destruct (Cosmos.find_database _ w); cbv zeta;
      by destruct (Cosmos.find_collection _ _ _).
Qed.








End NotebookFacts.

(** ** The train/test split *)

Section SplitFacts.
Context {A : Type} (rng : Z -> nat -> N).

Lemma draw_nonneg seed i : Qle_bool 0 (Split.draw rng seed i) = true.
Proof.
  unfold Split.draw, Qle_bool. cbn [Qnum Qden]. apply Z.leb_le.
  rewrite Z.mul_0_l, Z.mul_1_r. apply N2Z.is_nonneg.
Qed.

Lemma draw_below_one seed i : Qle_bool 1 (Split.draw rng seed i) = false.
Proof.
  unfold Split.draw, Qle_bool. cbn [Qnum Qden]. apply Z.leb_gt.
  rewrite Z.mul_1_l, Z.mul_1_r.
  pose proof (N.mod_upper_bound (rng seed i) (Npos Split.two53)) as H.
  change (Z.pos Split.two53) with (Z.of_N (Npos Split.two53)).
  apply N2Z.inj_lt, H. discriminate.
Qed.

(** The cells [0, ratio) and [ratio, 1) tile the range of the draws. *)
Lemma cells_complement ratio seed i :
  (Qle_bool ratio (Split.draw rng seed i) && negb (Qle_bool 1 (Split.draw rng seed i)))
  = negb (Qle_bool 0 (Split.draw rng seed i) && negb (Qle_bool ratio (Split.draw rng seed i))).
Proof.
  rewrite draw_nonneg, draw_below_one. simpl. by rewrite andb_true_r, negb_involutive.
Qed.

Lemma sample_spec lo hi seed (df : list A) i r :
  (i, r) ∈ Split.sample rng lo hi seed df <->
  df !! i = Some r
  /\ Qle_bool lo (Split.draw rng seed i) && negb (Qle_bool hi (Split.draw rng seed i)) = true.
Proof.
  unfold Split.sample. rewrite list_elem_of_filter, elem_of_lookup_imap. simpl. split.
  - intros [Hc (j & y & [= -> ->] & Hl)]. done.
  - intros [Hl Hc]. split; [done|]. eauto.
Qed.

Lemma indexed_fst (df : list A) :
  (imap (fun i r => (i, r)) df).*1 = seq 0 (length df).
Proof.
  rewrite fmap_imap. rewrite (imap_ext _ (fun j _ => j)); [|done].
  rewrite imap_seq_0. by rewrite list_fmap_id.
Qed.

Lemma indexed_snd (df : list A) : (imap (fun i r => (i, r)) df).*2 = df.
Proof.
  rewrite fmap_imap. rewrite (imap_ext _ (const id)); [|done].
  by rewrite imap_const, list_fmap_id.
Qed.

Lemma sample_NoDup lo hi seed (df : list A) :
  NoDup (Split.sample rng lo hi seed df).*1.
Proof.
  unfold Split.sample. eapply sublist_NoDup; [apply (NoDup_seq 0 (length df))|].
  rewrite <- indexed_fst. apply fmap_sublist, sublist_filter.
Qed.

(** The second cell of a split takes exactly what the first leaves. *)
Lemma split_complement ratio seed (df : list A) :
  Split.sample rng ratio 1 seed df =
  filter (fun ir => ~ (Qle_bool 0 (Split.draw rng seed ir.1)
                       && negb (Qle_bool ratio (Split.draw rng seed ir.1)) = true))
         (imap (fun i r => (i, r)) df).
Proof.
  unfold Split.sample. apply list_filter_iff. intros [i r]. simpl.
  rewrite cells_complement. by destruct (_ && _).
Qed.

(** C7. The random split with ratio 0.75 and seed 42 partitions the
    rating records: every record of the loaded data set lands in exactly
    one of train and test, the two hold nothing else, no record is taken
    twice, and together they are the data set again. *)
Theorem split_is_a_partition (data : list A) :
  let train := Split.train rng data in
  let test := Split.test rng data in
  (forall i r, data !! i = Some r ->
     (((i, r) ∈ train) /\ ~ ((i, r) ∈ test)) \/ (~ ((i, r) ∈ train) /\ ((i, r) ∈ test)))
  /\ (forall i r, ((i, r) ∈ train) \/ ((i, r) ∈ test) -> data !! i = Some r)
  /\ Permutation (train.*2 ++ test.*2)%list data
  /\ NoDup train.*1 /\ NoDup test.*1
  /\ (forall i, i ∈ train.*1 -> ~ (i ∈ test.*1)).
Proof.
  cbv zeta. unfold Split.train, Split.test, Split.spark_random_split. cbn [fst snd].
  repeat split.
  - intros i r Hl. rewrite !sample_spec, cells_complement.
    destruct (Qle_bool 0 _ && negb (Qle_bool (3 # 4) _)); simpl; [left|right].
    + split; [done|]. intros [_ ?]. discriminate.
    + split; [|done]. intros [_ ?]. discriminate.
  - intros i r [H|H]; apply sample_spec in H; tauto.
  - rewrite split_complement. unfold Split.sample. rewrite <- fmap_app.
    rewrite filter_app_complement. by rewrite indexed_snd.
  - apply sample_NoDup.
  - apply sample_NoDup.
  - intros i [[j r] [-> Hin]]%list_elem_of_fmap [[j' r'] [Heq Hin']]%list_elem_of_fmap.
    simpl in *. subst j'.
    apply sample_spec in Hin as [_ Hc], Hin' as [_ Hc'].
    rewrite cells_complement, Hc in Hc'. discriminate.
Qed.
End SplitFacts.

(** On six records, the record at position 3 (draw 3/4) goes to test
    and the others to train. *)
Example split_of_six :
  Split.train Examples.demo_rng ["a"; "b"; "c"; "d"; "e"; "f"]
  = [(0, "a"); (1, "b"); (2, "c"); (4, "e"); (5, "f")]%nat
  /\ Split.test Examples.demo_rng ["a"; "b"; "c"; "d"; "e"; "f"] = [(3%nat, "d")].
Proof. split; reflexivity. Qed.

(** ** The candidate set *)

Section FramesFacts.
Context {rating prediction : Type} (predict : Z -> Z -> option prediction).
Implicit Types (train : list (Frames.rating_row rating))
  (p : Frames.pred_row prediction) (t : Frames.rating_row rating).


Lemma transform_ids df (pred : list (Frames.pred_row prediction)) p :
  Frames.transform predict df = inr pred -> p ∈ pred ->
  exists u m, Frames.pred_UserId p = Some u /\ Frames.pred_MovieId p = Some m.
Proof.
  revert pred. induction df as [|[[u|] [m|]] df IH]; intros pred; simpl; try discriminate.
  - intros [= <-] []%elem_of_nil.
  - destruct (Frames.transform predict df) as [e|rows]; [discriminate|].
    destruct (predict u m) as [x|]; intros [= <-]; [|exact (IH rows eq_refl)].
    intros [->|Hin]%elem_of_cons; [simpl; eauto|exact (IH rows eq_refl Hin)].
Qed.

Lemma transform_fails df e :
  Frames.transform predict df = inl e ->
  exists um, um ∈ df /\ (um.1 = None \/ um.2 = None).
Proof.
  revert e. induction df as [|[[u|] [m|]] df IH]; intros e; simpl; try discriminate.
  - destruct (Frames.transform predict df) as [e'|rows].
    + intros _. destruct (IH e' eq_refl) as (um & Hin & H).
      exists um. split; [by right|done].
    + destruct (predict u m); discriminate.
  - intros _. exists (Some u, None). split; [left|by right].
  - intros _. exists (None, Some m). split; [left|by left].
  - intros _. exists (None, None). split; [left|by left].
Qed.

Lemma outer_join_cases (left : list (Frames.pred_row prediction)) train row :
  row ∈ Frames.outer_join left train ->
  (exists p t, row = (Some p, Some t) /\ t ∈ train)
  \/ (exists p, row = (Some p, None) /\ p ∈ left
               /\ forall t, t ∈ train -> Frames.on p t = false)
  \/ (exists t, row = (None, Some t) /\ t ∈ train).
Proof.
  unfold Frames.outer_join. rewrite elem_of_app, !list_elem_of_bind.
  intros [(p & Hrow & Hp)|(t & Hrow & Ht)].
  - destruct (filter _ train) as [|t0 ts] eqn:Hf.
    + apply list_elem_of_singleton in Hrow as ->. right; left.
      exists p. repeat split; [done|]. intros t Ht.
      destruct (Frames.on p t) eqn:Hon; [|done].
      exfalso. eapply (filter_nil_not_elem_of _ _ t Hf); [exact Hon|done].
    + left. apply list_elem_of_fmap in Hrow as (t & -> & Hin).
      exists p, t. split; [done|]. rewrite <- Hf in Hin.
      by apply list_elem_of_filter in Hin as [_ ?].
  - right; right. destruct (forallb _ left); [|by apply elem_of_nil in Hrow].
    apply list_elem_of_singleton in Hrow as ->. eauto.
Qed.

(** C10. The candidate set [top_all] holds no item its user has rated:
    when every training record has a rating, each row of [top_all] is a
    (UserId, MovieId) pair that no training record carries.  ([top_all]
    exists unless a training record has a null user or item id, which
    the model refuses.) *)
Theorem top_all_excludes_rated train :
  forallb Frames.rated train = true ->
  match Frames.top_all predict train with
  | inr rows =>
      forall r, r ∈ rows ->
        exists u m,
          Frames.pred_UserId r = Some u /\ Frames.pred_MovieId r = Some m
          /\ forall t, t ∈ train ->
               ~ (Frames.UserId t = Some u /\ Frames.MovieId t = Some m)
  | inl _ =>
      exists t, t ∈ train /\ (Frames.UserId t = None \/ Frames.MovieId t = None)
  end.
Proof.
  intros Hrated. rewrite forallb_forall in Hrated.
  unfold Frames.top_all, Frames.dfs_pred.
  destruct (Frames.transform predict _) as [e|pred] eqn:Htr.
  - apply transform_fails in Htr as ([u m] & Hin & Hnull).
    unfold Frames.crossJoin in Hin.
    apply list_elem_of_bind in Hin as (u' & Hin & Hu).
    apply list_elem_of_bind in Hin as (m' & Hin & Hm).
    apply list_elem_of_singleton in Hin as [= -> ->].
    unfold Frames.select_distinct in Hu, Hm.
    apply elem_of_remove_dups, list_elem_of_fmap in Hu as (tu & -> & Htu).
    apply elem_of_remove_dups, list_elem_of_fmap in Hm as (tm & -> & Htm).
    simpl in Hnull. destruct Hnull as [H|H]; eauto.
  - intros r (row & -> & Hrow)%list_elem_of_fmap.
    apply list_elem_of_filter in Hrow as [Hnull Hrow].
    apply outer_join_cases in Hrow as [(p & t & -> & Ht)|[(p & -> & Hp & Hno)|(t & -> & Ht)]].
    + exfalso. apply list_elem_of_In, Hrated in Ht.
      unfold Frames.train_Rating_isNull in Hnull. unfold Frames.rated in Ht. simpl in Hnull.
      destruct (Frames.Rating t); discriminate.
    + destruct (transform_ids _ _ p Htr Hp) as (u & m & Hu & Hm).
      exists u, m. simpl. repeat split; [done..|].
      intros t Ht [Htu Htm]. specialize (Hno t Ht).
      unfold Frames.on in Hno. rewrite Hu, Hm, Htu, Htm in Hno. simpl in Hno.
      by rewrite !Z.eqb_refl in Hno.
    + exfalso. apply list_elem_of_In, Hrated in Ht.
      unfold Frames.train_Rating_isNull in Hnull. unfold Frames.rated in Ht. simpl in Hnull.
      destruct (Frames.Rating t); discriminate.
Qed.
End FramesFacts.

Lemma top_all_excludes_rated_witness :
  forallb Frames.rated Examples.demo_train = true
  /\ Frames.top_all Examples.demo_predict Examples.demo_train
     = inr [Frames.PredRow Z (Some 2) (Some 20) (Some 22)]
  /\ (forall r, r ∈ [Frames.PredRow Z (Some 2) (Some 20) (Some 22)] ->
        exists u m,
          Frames.pred_UserId r = Some u /\ Frames.pred_MovieId r = Some m
          /\ forall t, t ∈ Examples.demo_train ->
               ~ (Frames.UserId t = Some u /\ Frames.MovieId t = Some m)).
Proof.
  split; [reflexivity|]. split; [reflexivity|].
  exact (top_all_excludes_rated Examples.demo_predict Examples.demo_train eq_refl).
Defined.

(** ** The cluster name *)

Section ClusterName.

Import Names.

Lemma string_length_append (a b : string) :
  String.length (a +:+ b) = (String.length a + String.length b)%nat.
Proof. induction a as [|c a IH]; simpl; auto. Qed.

Lemma contains_char_append (c : ascii) (a b : string) :
  contains_char c (a +:+ b) = contains_char c a || contains_char c b.
Proof. induction a as [|c' a IH]; simpl; [done|]. by rewrite IH, orb_assoc. Qed.

Lemma hex_is_name_char (c : ascii) : is_hex c = true -> is_name_char c = true.
Proof. destruct c as [[] [] [] [] [] [] [] []]; vm_compute; congruence. Qed.

(** X1. The name of the AKS cluster meets the constraint cell 7 notes
    for it: whatever the prefix, it has at most 16 characters and no
    underscore; for the prefix of a run ("reco" and four characters of a
    UUID) it is the prefix followed by "-aks", 12 characters, all of
    them letters, digits or hyphens. *)
Theorem aks_name_fits (u : string) :
  ((String.length (aks_name u) <= 16)%nat
   /\ contains_char "_" (aks_name u) = false)
  /\ (is_uuid_text u = true ->
      aks_name u = prefix u +:+ "-aks"
      /\ String.length (aks_name u) = 12%nat
      /\ all_chars is_name_char (aks_name u) = true).
Proof.
  split.
  - unfold aks_name. split.
    + rewrite string_length_append, slice0_length. simpl String.length. lia.
    + rewrite contains_char_append, slice0_clean; [reflexivity|].
      apply replace_clean. discriminate.
  - intros H.
    destruct (uuid_head u H) as (c0 & c1 & c2 & c3 & rest & -> & H0 & H1 & H2 & H3).
    pose proof (hex_not_underscore _ H0) as N0.
    pose proof (hex_not_underscore _ H1) as N1.
    pose proof (hex_not_underscore _ H2) as N2.
    pose proof (hex_not_underscore _ H3) as N3.
    apply hex_is_name_char in H0, H1, H2, H3.
    unfold aks_name, prefix, short_uuid. simpl.
    rewrite N0, N1, N2, N3. simpl. rewrite H0, H1, H2, H3. auto.
Qed.

Lemma aks_name_fits_witness :
  is_uuid_text Examples.uuid_text = true
  /\ aks_name Examples.uuid_text = "reco0a1b-aks"
  /\ String.length (aks_name Examples.uuid_text) = 12%nat
  /\ all_chars is_name_char (aks_name Examples.uuid_text) = true.
Proof.
  split; [reflexivity|].
  exact (proj2 (aks_name_fits Examples.uuid_text) eq_refl).
Defined.

End ClusterName.

(** ** Requests the scoring script refuses, and what it reads of a request *)

Section RequestFacts.

Import Traces.

Context (B : builtins) {W : Type} (h : env W).

(** X2. A request from which no id can be read is answered without a
    call to the store: [run] returns json.dumps of the text of the
    exception and leaves the globals and the platform as they were.  The
    exception is IndexError for an empty list, TypeError for a first
    element that is not text (a request that was not encoded twice), and
    KeyError for an object without 'id'. *)
Theorem run_answers_malformed_request (input_json : string) (g : Score.globals) (w : W) :
  str_law B ->
  (forall e, Score.request_id B input_json = inl e ->
     run_M h (Score.run B input_json) g w
     = ([], (inr (json_dumps B (exn_message e)), g), w))
  /\ (json_loads B (VStr input_json) = inr (VList []) ->
      Score.request_id B input_json = inl (Exn "IndexError" "list index out of range"))
  /\ (forall first rest,
        json_loads B (VStr input_json) = inr (VList (first :: rest)) ->
        (forall s, first <> VStr s) ->
        Score.request_id B input_json
        = inl (TypeError ("the JSON object must be str, bytes or bytearray, not "
                          +:+ type_name first)))
  /\ (forall first rest kv,
        json_loads B (VStr input_json) = inr (VList (VStr first :: rest)) ->
        json_loads_text B first = inr (VDict kv) ->
        assoc "id" kv = None ->
        Score.request_id B input_json = inl (Exn "KeyError" "'id'")).
Proof.
  intros Hstr. split; [|split; [|split]].
  - intros e He. rewrite run_unfold, He. by rewrite Hstr.
  - intros H. unfold Score.request_id. by rewrite H.
  - intros first rest H Hfirst. unfold Score.request_id. rewrite H. simpl.
    destruct first; try reflexivity. by destruct (Hfirst s).
  - intros first rest kv H Hin Hid. unfold Score.request_id. rewrite H. simpl.
    by rewrite Hin; simpl; rewrite Hid.
Qed.

(** X3. The lookup depends on the request only through [str] of the
    'id' of its first element.  Two requests that decode to lists with
    the same first element get the same lookup and the same answer,
    whatever follows it: further users in a batch are ignored.  And two
    requests whose ids have the same [str], such as the number 496 and
    the text "496", get the same lookup and the same answer. *)
Theorem lookup_depends_on_first_id_only (i1 i2 : string) (g : Score.globals) (w : W) :
  (forall (first : value) (r1 r2 : list value),
     json_loads B (VStr i1) = inr (VList (first :: r1)) ->
     json_loads B (VStr i2) = inr (VList (first :: r2)) ->
     run_M h (Score.run B i1) g w = run_M h (Score.run B i2) g w)
  /\ (forall id1 id2 : value,
        Score.request_id B i1 = inr id1 ->
        Score.request_id B i2 = inr id2 ->
        str B id1 = str B id2 ->
        run_M h (Score.run B i1) g w = run_M h (Score.run B i2) g w).
Proof.
  split.
  - intros first r1 r2 H1 H2. rewrite !run_unfold.
    unfold Score.request_id. by rewrite H1, H2.
  - intros id1 id2 H1 H2 Hs. rewrite !run_unfold, H1, H2.
    unfold Score.document_link_of, Score.options_of. by rewrite Hs.
Qed.

(** X4. After [init] on a fresh module, [client] is bound exactly when
    the DocumentClient call returned, to what it returned; it is unbound
    exactly when the import or that call raised.  From then on every
    request that carries an id is answered, without a call, with
    json.dumps of "name 'client' is not defined". *)
Theorem run_after_failed_init (cfg : Score.config) (w : W) :
  str_law B ->
  let t := trace_of h (Score.init cfg) Score.unbound w in
  let g := vars_of h (Score.init cfg) Score.unbound w in
  (Score.client g = None <->
     exists ev, ev ∈ t /\ failed ev.2 = true /\ callee ev.1 <> "client.ReadCollection")
  /\ (forall c, Score.client g = Some c <->
        exists call, (call, inr c) ∈ t /\ callee call = "document_client.DocumentClient")
  /\ (Score.client g = None ->
      forall (W' : Type) (h' : env W') (w' : W') (input_json : string) (id : value),
        Score.request_id B input_json = inr id ->
        run_M h' (Score.run B input_json) g w'
        = ([], (inr (json_dumps B "name 'client' is not defined"), g), w')).
Proof.
  intros Hstr. cbv zeta. unfold trace_of, vars_of. rewrite init_unfold. cbv zeta.
  assert (Hrun : forall g, Score.client g = None ->
            forall (W' : Type) (h' : env W') (w' : W') (input_json : string) (id : value),
              Score.request_id B input_json = inr id ->
              run_M h' (Score.run B input_json) g w'
              = ([], (inr (json_dumps B "name 'client' is not defined"), g), w')).
  { intros g Hg W' h' w' input id Hid. rewrite run_unfold, Hid, Hg. by rewrite Hstr. }
  match goal with |- context [h ?q w] => destruct (h q w) as [[e|m] w1] end;
    cbn [fst snd Score.client Score.unbound].
  { split; [|split; [|intros _; by apply Hrun]].
    - split; [|done]. intros _. eexists. split; [left|]. by split.
    - intros c. split; [done|]. intros (call & Hin & Hc).
      apply list_elem_of_singleton in Hin. simplify_eq. }
  match goal with |- context [h ?q w1] => destruct (h q w1) as [[e|c] w2] end;
    cbn [fst snd Score.client Score.unbound].
  { split; [|split; [|intros _; by apply Hrun]].
    - split; [|done]. intros _. eexists. split; [right; left|]. by split.
    - intros c. split; [done|]. intros (call & Hin & Hc).
      rewrite !elem_of_cons, elem_of_nil in Hin.
      destruct Hin as [Heq|[Heq|[]]]; simplify_eq. }
  match goal with |- context [h ?q w2] => destruct (h q w2) as [[e|col] w3] end;
    cbn [fst snd Score.client Score.unbound].
  - split; [|split; [|done]].
    + split; [done|]. intros (ev & Hin & Hf & Hc).
      rewrite !elem_of_cons, elem_of_nil in Hin.
      destruct Hin as [->|[->|[->|[]]]]; simpl in *; done.
    + intros c'. split.
      * intros [= <-]. eexists. split; [right; left|done].
      * intros (call & Hin & Hc).
        rewrite !elem_of_cons, elem_of_nil in Hin.
        destruct Hin as [Heq|[Heq|[Heq|[]]]]; simplify_eq; done.
  - split; [|split; [|done]].
    + split; [done|]. intros (ev & Hin & Hf & Hc).
      rewrite !elem_of_cons, elem_of_nil in Hin.
      destruct Hin as [->|[->|[->|[]]]]; simpl in *; done.
    + intros c'. split.
      * intros [= <-]. eexists. split; [right; left|done].
      * intros (call & Hin & Hc).
        rewrite !elem_of_cons, elem_of_nil in Hin.
        destruct Hin as [Heq|[Heq|[Heq|[]]]]; simplify_eq; done.
Qed.

End RequestFacts.

Lemma run_answers_malformed_request_witness :
  run_M Cosmos.service (Score.run Ref.python Examples.undecoded_request)
    (Score.Globals (Some Examples.document_client) None) Examples.demo_store
  = ([], (inr (json_dumps Ref.python
                 "the JSON object must be str, bytes or bytearray, not dict"),
          Score.Globals (Some Examples.document_client) None), Examples.demo_store).
Proof.
  pose proof (run_answers_malformed_request Ref.python Cosmos.service
                Examples.undecoded_request
                (Score.Globals (Some Examples.document_client) None) Examples.demo_store
                (fun s => eq_refl)) as (Hrun & _ & Hshape & _).
  exact (Hrun _ (Hshape (VDict [("id", VStr "496")]) [] eq_refl
                   (fun s H => eq_ind (VDict [("id", VStr "496")])
                                 (fun v => match v with VDict _ => True | _ => False end)
                                 I _ H))).
Defined.

Lemma lookup_depends_on_first_id_only_witness :
  run_M Cosmos.service (Score.run Ref.python Examples.batch_request)
    (Score.Globals (Some Examples.document_client) None) Examples.demo_store
  = run_M Cosmos.service (Score.run Ref.python Score.input_data)
      (Score.Globals (Some Examples.document_client) None) Examples.demo_store
  /\ run_M Cosmos.service (Score.run Ref.python Examples.numeric_request)
       (Score.Globals (Some Examples.document_client) None) Examples.demo_store
     = run_M Cosmos.service (Score.run Ref.python Score.input_data)
         (Score.Globals (Some Examples.document_client) None) Examples.demo_store.
Proof.
  split.
  - exact (proj1 (lookup_depends_on_first_id_only Ref.python Cosmos.service
                    Examples.batch_request Score.input_data
                    (Score.Globals (Some Examples.document_client) None)
                    Examples.demo_store)
             (VStr Examples.demo_inner)
             [VStr ("{" +:+ dq +:+ "id" +:+ dq +:+ ":" +:+ dq +:+ "7" +:+ dq +:+ "}")] []
             eq_refl eq_refl).
  - exact (proj2 (lookup_depends_on_first_id_only Ref.python Cosmos.service
                    Examples.numeric_request Score.input_data
                    (Score.Globals (Some Examples.document_client) None)
                    Examples.demo_store)
             (VInt 496) (VStr "496") eq_refl eq_refl eq_refl).
Defined.

Lemma run_after_failed_init_witness :
  Score.client (vars_of Examples.no_client (Score.init Examples.demo_config)
                  Score.unbound tt) = None
  /\ outcome_of Cosmos.service (Score.run Ref.python Score.input_data)
       (vars_of Examples.no_client (Score.init Examples.demo_config) Score.unbound tt)
       Examples.demo_store
     = inr (json_dumps Ref.python "name 'client' is not defined").
Proof.
  pose proof (run_after_failed_init Ref.python Examples.no_client Examples.demo_config tt
                (fun s => eq_refl)) as (_ & _ & H).
  split; [reflexivity|].
  unfold outcome_of.
  by rewrite (H eq_refl Cosmos.world Cosmos.service Examples.demo_store Score.input_data
                (VStr "496") eq_refl).
Defined.

(** ** The scoring script as cell 37 writes it *)

Section ScriptText.

Import Names.

#[local] Arguments String.append !_ _ / : simpl nomatch.



(** A key that holds a later placeholder is rewritten by the later
    replacement: the script then carries the endpoint in place of the
    key. *)
Example key_with_a_placeholder_is_rewritten :
  str_replace "{endpoint}" "https://reco0a1b.documents.azure.com:443/"
    (str_replace "{key}" "{endpoint}" "MASTER_KEY = '{key}'")
  = "MASTER_KEY = 'https://reco0a1b.documents.azure.com:443/'".
Proof. reflexivity. Qed.

End ScriptText.

Section ScriptFileFacts.

Import Names.



(** X6. With the secrets file as cell 12 wrote it, the parts of the
    look-up service address one collection: the collection [init] reads
    (named by the secrets), the collection the documents [run] reads
    belong to (named by the notebook's variables) and the collection the
    recommendations are written to are all
    dbs/recommendations/colls/user_recommendations_als. *)
Theorem script_addresses_one_collection (B : builtins) {W : Type} (h : env W)
    (w w1 : W) (e k : string) (cfg : Score.config) :
  h (Call "json.load" [VStr secrets_path]) w = (inr (Notebook.secrets e (VStr k)), w1) ->
  outcome_of h Notebook.write_score_script tt w = inr cfg ->
  let link := Cosmos.collection_link DOCUMENTDB_DATABASE DOCUMENTDB_COLLECTION in
  cfg = Score.Config k e DOCUMENTDB_DATABASE DOCUMENTDB_COLLECTION
  /\ (forall (W' : Type) (h' : env W') (w' : W') (g : Score.globals) (ev : event),
        ev ∈ trace_of h' (Score.init cfg) g w' ->
        callee ev.1 = "client.ReadCollection" ->
        exists c, args ev.1 = [c; VStr link])
  /\ (forall id, Score.document_link_of B id = link +:+ "/docs/" +:+ str B id)
  /\ Cosmos.collection_link
       (Recs.text_option (Notebook.secrets e (VStr k)) "Database")
       (Recs.text_option (Notebook.secrets e (VStr k)) "Collection") = link
  /\ link = "dbs/recommendations/colls/user_recommendations_als".
Proof.
  intros Hload Hcfg. cbv zeta.
  assert (cfg = Score.Config k e DOCUMENTDB_DATABASE DOCUMENTDB_COLLECTION) as ->.
  { revert Hcfg. unfold outcome_of, Notebook.write_score_script.
    cbn [run_M bind try_except ext lift ret exec io_bind fst snd].
    rewrite Hload.
    cbn [run_M bind try_except ext lift ret exec io_bind fst snd
         Notebook.secrets getitem assoc String.eqb Ascii.eqb Bool.eqb Notebook.as_text].
    repeat (match goal with
            | |- context [h ?q ?w0] => destruct (h q w0) as [[?e|?v] ?w]
            end;
            cbn [run_M bind try_except ext lift ret exec io_bind fst snd]);
      congruence. }
  split; [reflexivity|]. split; [|split; [|split]; reflexivity].
  intros W' h' w' g ev. unfold trace_of. rewrite init_unfold. cbv zeta.
  destruct (h' _ w') as [[e0|m] w1']; simpl.
  { intros ->%list_elem_of_singleton. discriminate. }
  destruct (h' _ w1') as [[e0|c] w2']; simpl.
  { rewrite !elem_of_cons, elem_of_nil. intros [->|[->|[]]]; discriminate. }
  destruct (h' _ w2') as [[e0|col] w3']; simpl;
    rewrite !elem_of_cons, elem_of_nil; intros [->|[->|[->|[]]]]; try discriminate;
    intros _; by exists c.
Qed.

End ScriptFileFacts.


Lemma script_addresses_one_collection_witness :
  outcome_of Examples.secrets_on_disk Notebook.write_score_script tt tt
  = inr Examples.demo_config
  /\ forall id, Score.document_link_of Ref.python id
       = "dbs/recommendations/colls/user_recommendations_als/docs/" +:+ Ref.str id.
Proof.
  split; [reflexivity|].
  exact (proj1 (proj2 (proj2
           (script_addresses_one_collection Ref.python Examples.secrets_on_disk tt tt
              "https://reco0a1b.documents.azure.com:443/" "primary-master-key"
              Examples.demo_config eq_refl eq_refl)))).
Defined.

(** ** The deployment cell and the call of the service *)

Section DeployFacts.

Import Names.

Context {W : Type} (h : env W).

(** X7. What the deployment cell ends with.  Once Webservice.list has
    been called, the cell's result is the first element of what it
    returned, and its failure if there is none (IndexError for an empty
    list): the exception of the deployment is not reported.  Every
    exception of deploy_from_image or of wait_for_deployment leads to
    that call.  Without it, the service the cell ends with is the one
    deploy_from_image returned, and the wait for it has returned. *)
Theorem deployment_falls_back_to_first_service (ws image aks_target : value) (w : W) :
  let t := trace_of h (Notebook.deploy_service ws image aks_target) tt w in
  let o := outcome_of h (Notebook.deploy_service ws image aks_target) tt w in
  (forall c services, (c, inr services) ∈ t -> callee c = "Webservice.list" ->
     o = getitem0 services)
  /\ (forall c e, (c, inl e) ∈ t ->
        callee c = "Webservice.deploy_from_image"
        \/ callee c = "aks_service.wait_for_deployment" ->
        "Webservice.list" ∈ callees t)
  /\ (forall s, o = inr s -> ~ ("Webservice.list" ∈ callees t) ->
        exists c c' v,
          (c, inr s) ∈ t /\ callee c = "Webservice.deploy_from_image"
          /\ (c', inr v) ∈ t /\ c' = Call "aks_service.wait_for_deployment" [s; VBool true]).
Proof.
  cbv zeta. unfold trace_of, outcome_of, Notebook.deploy_service.
  cbn [run_M bind try_except ext lift ret exec io_bind fst snd].
  repeat (match goal with
          | |- context [h ?q ?w] => destruct (h q w) as [[?e|?v] ?w]
          end;
          cbn [run_M bind try_except ext lift ret exec io_bind fst snd]);
    cbn [callees map callee fst snd].
  all: repeat split.
  all: try (intros c x Hin Hc; rewrite ?elem_of_cons, ?elem_of_nil in Hin).
  all: try (intros s Ho Hno).
  all: repeat match goal with
         | H : _ \/ _ |- _ => destruct H
         | H : False |- _ => destruct H
         | H : (_, _) = (_, _) |- _ => injection H as ??; subst
         end; simpl in *; try discriminate; try reflexivity.
  all: try (exfalso; apply Hno; rewrite ?elem_of_cons; tauto).
  all: try (rewrite ?elem_of_cons; tauto).
  injection Ho as <-. eexists _, _, v1.
  split; [right; left|]. split; [reflexivity|]. split; [do 2 right; left|reflexivity].
Qed.

Context (B : builtins).

(** X8. The service is called only with its credentials: whenever the
    demonstration cell reaches urlopen, the service had a scoring_uri,
    get_keys returned keys with a first element, and the request that is
    opened was built for that URI with the demonstration body and was
    given the Authorization header "Bearer " followed by that first key
    and the JSON content type, in this order. *)
Theorem request_is_authorized (aks_service : value) (w : W) (c : call)
    (r : result value) :
  let t := trace_of h (Notebook.call_service B aks_service) tt w in
  (c, r) ∈ t -> callee c = "urllib.request.urlopen" ->
  exists (scoring_url keys service_key req : value) (x1 x2 x3 : result value),
    getattr aks_service "scoring_uri" = inr scoring_url
    /\ getitem0 keys = inr service_key
    /\ take 6 t
       = [(Call "aks_service.get_keys" [aks_service], inr keys);
          (Call "urllib.request.Request" [scoring_url; VStr Score.input_data], inr req);
          (Call "req.add_header"
             [req; VStr "Authorization"; VStr ("Bearer " +:+ str B service_key)], x1);
          (Call "req.add_header"
             [req; VStr "Content-Type"; VStr "application/json"], x2);
          (Call "time.time" [], x3);
          (c, r)]
    /\ c = Call "urllib.request.urlopen" [req].
Proof.
  cbv zeta. unfold trace_of, Notebook.call_service.
  cbn [run_M bind try_except ext lift ret exec io_bind fst snd].
  destruct (getattr aks_service "scoring_uri") as [e|scoring_url];
    cbn [run_M bind try_except ext lift ret exec io_bind fst snd].
  { intros []%elem_of_nil. }
  destruct (h _ w) as [[e|keys] w1];
    cbn [run_M bind try_except ext lift ret exec io_bind fst snd].
  { intros [= -> ->]%list_elem_of_singleton. discriminate. }
  destruct (getitem0 keys) as [e|service_key] eqn:Hkey;
    cbn [run_M bind try_except ext lift ret exec io_bind fst snd].
  { intros [= -> ->]%list_elem_of_singleton. discriminate. }
  repeat (match goal with
          | |- context [h ?q ?w] => destruct (h q w) as [[?e|?v] ?w]
          | |- context [Notebook.sub ?a ?b] => destruct (Notebook.sub a b) as [?e|?v]
          end;
          cbn [run_M bind try_except ext lift ret exec io_bind fst snd]).
  all: intros Hin Hc; rewrite ?elem_of_cons, ?elem_of_nil in Hin.
  all: repeat match goal with
         | H : _ \/ _ |- _ => destruct H as [H|H]
         | H : False |- _ => destruct H
         end;
         try (injection Hin as -> ->); try discriminate Hc.
  all: eexists _, _, _, _, _, _, _; repeat split; try eassumption; reflexivity.
Qed.

End DeployFacts.

Lemma deployment_falls_back_to_first_service_witness :
  outcome_of Examples.no_services (Notebook.deploy_service VNone VNone VNone) tt tt
  = inl (Exn "IndexError" "list index out of range").
Proof.
  exact (proj1 (deployment_falls_back_to_first_service Examples.no_services
                  VNone VNone VNone tt)
           (Call "Webservice.list" [VNone]) (VList [])
           ltac:(right; right; left) eq_refl).
Defined.

Lemma request_is_authorized_witness :
  exists (scoring_url keys service_key req : value) (x1 x2 x3 : result value),
    getattr Examples.existing_service "scoring_uri" = inr scoring_url
    /\ getitem0 keys = inr service_key
    /\ take 6 (trace_of Examples.deployment_fails
                 (Notebook.call_service Ref.python Examples.existing_service) tt tt)
       = [(Call "aks_service.get_keys" [Examples.existing_service], inr keys);
          (Call "urllib.request.Request" [scoring_url; VStr Score.input_data], inr req);
          (Call "req.add_header"
             [req; VStr "Authorization"; VStr ("Bearer " +:+ Ref.str service_key)], x1);
          (Call "req.add_header"
             [req; VStr "Content-Type"; VStr "application/json"], x2);
          (Call "time.time" [], x3);
          (Call "urllib.request.urlopen" [VNone], inr VNone)]
    /\ Call "urllib.request.urlopen" [VNone] = Call "urllib.request.urlopen" [req].
Proof.
  exact (request_is_authorized Examples.deployment_fails Ref.python
           Examples.existing_service tt (Call "urllib.request.urlopen" [VNone])
           (inr VNone) ltac:(do 5 right; left) eq_refl).
Defined.

(** ** The candidate set, exactly *)

Section CandidateFacts.
Context {rating prediction : Type} (predict : Z -> Z -> option prediction).
Implicit Types (train : list (Frames.rating_row rating))
  (p : Frames.pred_row prediction) (t : Frames.rating_row rating).

(** A training user (item): one that some training record names. *)
Lemma select_distinct_spec (col : Frames.rating_row rating -> option Z) train x :
  x ∈ Frames.select_distinct col train <-> exists t, t ∈ train /\ col t = x.
Proof.
  unfold Frames.select_distinct. rewrite elem_of_remove_dups.
  change (map col train) with (col <$> train). rewrite list_elem_of_fmap.
  split; intros (t & ? & ?); eauto.
Qed.

Lemma crossJoin_spec (users items : list (option Z)) (u m : option Z) :
  (u, m) ∈ Frames.crossJoin users items <-> u ∈ users /\ m ∈ items.
Proof.
  unfold Frames.crossJoin. rewrite list_elem_of_bind. split.
  - intros (u' & Hin & Hu). apply list_elem_of_bind in Hin as (m' & Hin & Hm).
    by apply list_elem_of_singleton in Hin as [= -> ->].
  - intros [Hu Hm]. exists u. split; [|done].
    apply list_elem_of_bind. exists m. split; [left|done].
Qed.

Lemma crossJoin_NoDup (users items : list (option Z)) :
  NoDup users -> NoDup items -> NoDup (Frames.crossJoin users items).
Proof.
  intros Hu Hm. unfold Frames.crossJoin. apply NoDup_bind; [| |done].
  - intros u1 u2 [u m] _ _ H1 H2.
    apply list_elem_of_bind in H1 as (m1 & H1 & _), H2 as (m2 & H2 & _).
    apply list_elem_of_singleton in H1, H2. congruence.
  - intros u _. apply NoDup_bind; [| |done].
    + intros m1 m2 y _ _ H1 H2. apply list_elem_of_singleton in H1, H2. congruence.
    + intros m _. apply NoDup_singleton.
Qed.

Lemma crossJoin_length (users items : list (option Z)) :
  length (Frames.crossJoin users items) = (length users * length items)%nat.
Proof.
  unfold Frames.crossJoin.
  assert (Hrow : forall u : option Z,
            length (items ≫= fun m => [(u, m)]) = length items).
  { intros u. induction items as [|m items IHm]; [done|].
    rewrite bind_cons, length_app, IHm. done. }
  induction users as [|u users IH]; [done|].
  rewrite bind_cons, length_app, IH, Hrow. done.
Qed.

Lemma transform_length (df : list (option Z * option Z))
    (pred : list (Frames.pred_row prediction)) :
  Frames.transform predict df = inr pred -> (length pred <= length df)%nat.
Proof.
  revert pred. induction df as [|[[u|] [m|]] df IH]; intros pred; simpl; try discriminate.
  - intros [= <-]. done.
  - destruct (Frames.transform predict df) as [e|rows]; [discriminate|].
    specialize (IH rows eq_refl).
    destruct (predict u m); intros [= <-]; simpl; lia.
Qed.

(** On pairs of non-null ids the model scores without an exception:
    one row for each pair it can score. *)
Lemma transform_spec (df : list (option Z * option Z)) :
  (forall um, um ∈ df -> is_Some um.1 /\ is_Some um.2) ->
  exists pred,
    Frames.transform predict df = inr pred
    /\ (forall r, r ∈ pred <->
          exists u m x, r = Frames.PredRow prediction (Some u) (Some m) (Some x)
                        /\ (Some u, Some m) ∈ df /\ predict u m = Some x)
    /\ (NoDup df -> NoDup pred).
Proof.
  induction df as [|[u m] df IH]; intros Hids.
  { exists []. split; [done|]. split; [|intros _; constructor]. intros r. split.
    - intros []%elem_of_nil.
    - intros (u & m & x & _ & []%elem_of_nil & _). }
  destruct (Hids (u, m) ltac:(left)) as [[u' Hu'] [m' Hm']]. simpl in Hu', Hm'. subst u m.
  destruct IH as (pred & Htr & Hin & Hnd).
  { intros um Hum. apply Hids. by right. }
  simpl. rewrite Htr. destruct (predict u' m') as [x|] eqn:Hx.
  - eexists. split; [reflexivity|]. split.
    + intros r. rewrite elem_of_cons, Hin. split.
      * intros [->|(u & m & y & -> & Hdf & Hy)].
        -- exists u', m', x. split; [done|]. split; [left|done].
        -- exists u, m, y. split; [done|]. split; [by right|done].
      * intros (u & m & y & -> & Hdf & Hy).
        apply elem_of_cons in Hdf as [[= -> ->]|Hdf].
        -- left. congruence.
        -- right. eauto 6.
    + intros [Hnot Hdf]%NoDup_cons. apply NoDup_cons. split; [|auto].
      intros (u & m & y & [= <- <- _] & Hdf' & _)%Hin. done.
  - exists pred. split; [done|]. split.
    + intros r. rewrite Hin. split.
      * intros (u & m & y & -> & Hdf & Hy). exists u, m, y.
        split; [done|]. split; [by right|done].
      * intros (u & m & y & -> & Hdf & Hy).
        apply elem_of_cons in Hdf as [[= -> ->]|Hdf]; [congruence|eauto 6].
    + intros [_ Hdf]%NoDup_cons. auto.
Qed.

Lemma identified_ids train t :
  forallb Frames.identified train = true -> t ∈ train ->
  is_Some (Frames.UserId t) /\ is_Some (Frames.MovieId t).
Proof.
  intros H Ht. rewrite forallb_forall in H. apply list_elem_of_In, H in Ht.
  unfold Frames.identified in Ht.
  destruct (Frames.UserId t), (Frames.MovieId t); try discriminate. eauto.
Qed.

(** Cell 23 on records that all name their user and item. *)
Lemma dfs_pred_spec train :
  forallb Frames.identified train = true ->
  exists pred,
    Frames.dfs_pred predict train = inr pred
    /\ NoDup pred
    /\ forall r, r ∈ pred <->
         exists u m x, r = Frames.PredRow prediction (Some u) (Some m) (Some x)
                       /\ (exists t, t ∈ train /\ Frames.UserId t = Some u)
                       /\ (exists t, t ∈ train /\ Frames.MovieId t = Some m)
                       /\ predict u m = Some x.
Proof.
  intros Hids. unfold Frames.dfs_pred.
  destruct (transform_spec
              (Frames.crossJoin (Frames.select_distinct Frames.UserId train)
                 (Frames.select_distinct Frames.MovieId train)))
    as (pred & Htr & Hin & Hnd).
  { intros [u m] [Hu Hm]%crossJoin_spec.
    apply select_distinct_spec in Hu as (tu & Htu & <-), Hm as (tm & Htm & <-).
    split; [apply (identified_ids train tu)|apply (identified_ids train tm)]; done. }
  exists pred. split; [done|]. split.
  - apply Hnd, crossJoin_NoDup; apply NoDup_remove_dups.
  - intros r. rewrite Hin. split.
    + intros (u & m & x & -> & [Hu Hm]%crossJoin_spec & Hx).
      apply select_distinct_spec in Hu, Hm. eauto 8.
    + intros (u & m & x & -> & Hu & Hm & Hx). exists u, m, x.
      split; [done|]. split; [|done].
      apply crossJoin_spec. by rewrite !select_distinct_spec.
Qed.

Lemma rated_not_null train t (o : option (Frames.pred_row prediction)) :
  forallb Frames.rated train = true -> t ∈ train ->
  Frames.train_Rating_isNull (o, Some t) = false.
Proof.
  intros H Ht. rewrite forallb_forall in H. apply list_elem_of_In, H in Ht.
  unfold Frames.rated in Ht. unfold Frames.train_Rating_isNull. simpl.
  by destruct (Frames.Rating t).
Qed.

Lemma filter_all_false {A : Type} (P : A -> Prop) `{forall x, Decision (P x)}
    (l : list A) :
  (forall x, x ∈ l -> ~ P x) -> filter P l = [].
Proof.
  induction l as [|x l IH]; intros Hl; [done|].
  rewrite filter_cons_False; [|apply Hl; left].
  apply IH. intros y Hy. apply Hl. by right.
Qed.

(** With every training record rated, the outer join, the null filter
    and the projection of cell 25 keep exactly the predictions that match
    no training record, in their order: a left anti join. *)
Lemma outer_join_filter_select (pred : list (Frames.pred_row prediction)) train :
  forallb Frames.rated train = true ->
  map Frames.select_pred
    (filter (fun row => Frames.train_Rating_isNull row = true)
       (Frames.outer_join pred train))
  = filter (fun p => forallb (fun t => negb (Frames.on p t)) train = true) pred.
Proof.
  intros Hrated. unfold Frames.outer_join.
  rewrite filter_app, map_app.
  rewrite (filter_all_false _ (train ≫= _)), app_nil_r.
  2:{ intros row (t & Hrow & Ht)%list_elem_of_bind.
      destruct (forallb _ pred); [|by apply elem_of_nil in Hrow].
      apply list_elem_of_singleton in Hrow as ->.
      by rewrite (rated_not_null train t None Hrated Ht). }
  induction pred as [|p pred IH]; [done|].
  rewrite bind_cons, filter_app, map_app, IH. clear IH.
  destruct (filter (fun t => Frames.on p t = true) train) as [|t0 ts] eqn:Hf.
  - assert (Hall : forallb (fun t => negb (Frames.on p t)) train = true).
    { apply forallb_forall. intros t Ht%list_elem_of_In.
      destruct (Frames.on p t) eqn:Hon; [|done].
      by destruct (filter_nil_not_elem_of _ _ t Hf Hon). }
    by rewrite (filter_cons_True _ p _ Hall).
  - assert (Hsome : ~ forallb (fun t => negb (Frames.on p t)) train = true).
    { assert (Ht0 : t0 ∈ filter (fun t => Frames.on p t = true) train)
        by (rewrite Hf; left).
      apply list_elem_of_filter in Ht0 as [Hon Ht0].
      intros Hall. rewrite forallb_forall in Hall.
      apply list_elem_of_In, Hall in Ht0. by rewrite Hon in Ht0. }
    rewrite (filter_cons_False _ p _ Hsome).
    rewrite filter_all_false; [done|].
    intros row (t & -> & Ht)%list_elem_of_fmap.
    rewrite <- Hf in Ht. apply list_elem_of_filter in Ht as [_ Ht].
    by rewrite (rated_not_null train t (Some p) Hrated Ht).
Qed.

(** X9. Cell 23 scores the cross product of the training users and the
    training items: when every training record names its user and its
    item, [dfs_pred] exists and holds one row, with the model's
    prediction, for each pair of a training user and a training item
    that the model can score, and nothing else; no pair comes twice, and
    there are at most (distinct users) x (distinct items) rows. *)
Theorem dfs_pred_scores_the_cross_product train :
  forallb Frames.identified train = true ->
  exists pred,
    Frames.dfs_pred predict train = inr pred
    /\ NoDup pred
    /\ (length pred
        <= length (Frames.select_distinct Frames.UserId train)
           * length (Frames.select_distinct Frames.MovieId train))%nat
    /\ forall r, r ∈ pred <->
         exists u m x, r = Frames.PredRow prediction (Some u) (Some m) (Some x)
                       /\ (exists t, t ∈ train /\ Frames.UserId t = Some u)
                       /\ (exists t, t ∈ train /\ Frames.MovieId t = Some m)
                       /\ predict u m = Some x.
Proof.
  intros Hids. destruct (dfs_pred_spec train Hids) as (pred & Hpred & Hnd & Hin).
  exists pred. split; [done|]. split; [done|]. split; [|done].
  rewrite <- crossJoin_length. by apply transform_length.
Qed.

(** X10. The candidate set is exactly the unseen pairs the model can
    score: when every training record has a user, an item and a rating,
    [top_all] exists, holds no row twice, and a row is in it if and only
    if it carries the model's prediction for a training user and a
    training item that no training record pairs. *)
Theorem top_all_is_the_unseen_scored_pairs train :
  forallb Frames.rated train = true ->
  forallb Frames.identified train = true ->
  exists rows,
    Frames.top_all predict train = inr rows
    /\ NoDup rows
    /\ forall r, r ∈ rows <->
         exists u m x, r = Frames.PredRow prediction (Some u) (Some m) (Some x)
                       /\ (exists t, t ∈ train /\ Frames.UserId t = Some u)
                       /\ (exists t, t ∈ train /\ Frames.MovieId t = Some m)
                       /\ predict u m = Some x
                       /\ forall t, t ∈ train ->
                            ~ (Frames.UserId t = Some u /\ Frames.MovieId t = Some m).
Proof.
  intros Hrated Hids.
  destruct (dfs_pred_spec train Hids) as (pred & Hpred & Hnd & Hin).
  unfold Frames.top_all. rewrite Hpred, (outer_join_filter_select pred train Hrated).
  eexists. split; [reflexivity|]. split; [by apply NoDup_filter|].
  intros r. rewrite list_elem_of_filter, Hin, forallb_forall. split.
  - intros [Hno (u & m & x & -> & Hu & Hm & Hx)]. exists u, m, x.
    repeat split; try done. intros t Ht [Htu Htm].
    apply list_elem_of_In, Hno in Ht. unfold Frames.on in Ht. simpl in Ht.
    rewrite Htu, Htm in Ht. simpl in Ht. by rewrite !Z.eqb_refl in Ht.
  - intros (u & m & x & -> & Hu & Hm & Hx & Hno). split; [|eauto 8].
    intros t Ht%list_elem_of_In. unfold Frames.on. simpl.
    destruct (identified_ids train t Hids Ht) as [[u' Hu'] [m' Hm']].
    rewrite Hu', Hm'. simpl.
    destruct (Z.eqb_spec u u') as [->|]; [|done].
    destruct (Z.eqb_spec m m') as [->|]; [|done].
    by destruct (Hno t Ht).
Qed.

(** X11. The filter of cell 25 tests the rating, not the match: a
    training record without a rating does not remove its pair.  If the
    model can score the pair, the pair is in [top_all] although the user
    has a record for the item. *)
Theorem unrated_record_keeps_its_pair train t (u m : Z) (x : prediction) :
  forallb Frames.identified train = true ->
  t ∈ train ->
  Frames.UserId t = Some u -> Frames.MovieId t = Some m -> Frames.Rating t = None ->
  predict u m = Some x ->
  exists rows,
    Frames.top_all predict train = inr rows
    /\ Frames.PredRow prediction (Some u) (Some m) (Some x) ∈ rows.
Proof.
  intros Hids Ht Hu Hm Hnull Hx.
  destruct (dfs_pred_spec train Hids) as (pred & Hpred & Hnd & Hin).
  unfold Frames.top_all. rewrite Hpred. eexists. split; [reflexivity|].
  set (p := Frames.PredRow prediction (Some u) (Some m) (Some x)).
  assert (Hp : p ∈ pred) by (apply Hin; exists u, m, x; eauto 8).
  assert (Hon : Frames.on p t = true).
  { unfold Frames.on. simpl. rewrite Hu, Hm. simpl. by rewrite !Z.eqb_refl. }
  apply list_elem_of_fmap. exists (Some p, Some t). split; [done|].
  apply list_elem_of_filter. split.
  { unfold Frames.train_Rating_isNull. simpl. by rewrite Hnull. }
  unfold Frames.outer_join. apply elem_of_app. left.
  apply list_elem_of_bind. exists p. split; [|done].
  assert (Hf : t ∈ filter (fun t => Frames.on p t = true) train)
    by (by apply list_elem_of_filter).
  destruct (filter _ train) as [|t0 ts]; [by apply elem_of_nil in Hf|].
  apply list_elem_of_fmap. eauto.
Qed.

End CandidateFacts.

Lemma dfs_pred_scores_the_cross_product_witness :
  forallb Frames.identified Examples.demo_train = true
  /\ Frames.dfs_pred Examples.demo_predict Examples.demo_train
     = inr [Frames.PredRow Z (Some 1) (Some 20) (Some 21);
            Frames.PredRow Z (Some 1) (Some 10) (Some 11);
            Frames.PredRow Z (Some 2) (Some 20) (Some 22);
            Frames.PredRow Z (Some 2) (Some 10) (Some 12)]
  /\ exists pred,
       Frames.dfs_pred Examples.demo_predict Examples.demo_train = inr pred
       /\ NoDup pred
       /\ (length pred
           <= length (Frames.select_distinct Frames.UserId Examples.demo_train)
              * length (Frames.select_distinct Frames.MovieId Examples.demo_train))%nat
       /\ forall r, r ∈ pred <->
            exists u m x, r = Frames.PredRow Z (Some u) (Some m) (Some x)
              /\ (exists t, t ∈ Examples.demo_train /\ Frames.UserId t = Some u)
              /\ (exists t, t ∈ Examples.demo_train /\ Frames.MovieId t = Some m)
              /\ Examples.demo_predict u m = Some x.
Proof.
  split; [reflexivity|]. split; [reflexivity|].
  exact (dfs_pred_scores_the_cross_product Examples.demo_predict Examples.demo_train
           eq_refl).
Defined.

Lemma top_all_is_the_unseen_scored_pairs_witness :
  forallb Frames.rated Examples.demo_train = true
  /\ forallb Frames.identified Examples.demo_train = true
  /\ exists rows,
       Frames.top_all Examples.demo_predict Examples.demo_train = inr rows
       /\ NoDup rows
       /\ forall r, r ∈ rows <->
            exists u m x, r = Frames.PredRow Z (Some u) (Some m) (Some x)
              /\ (exists t, t ∈ Examples.demo_train /\ Frames.UserId t = Some u)
              /\ (exists t, t ∈ Examples.demo_train /\ Frames.MovieId t = Some m)
              /\ Examples.demo_predict u m = Some x
              /\ forall t, t ∈ Examples.demo_train ->
                   ~ (Frames.UserId t = Some u /\ Frames.MovieId t = Some m).
Proof.
  split; [reflexivity|]. split; [reflexivity|].
  exact (top_all_is_the_unseen_scored_pairs Examples.demo_predict Examples.demo_train
           eq_refl eq_refl).
Defined.

Lemma unrated_record_keeps_its_pair_witness :
  Frames.top_all Examples.demo_predict Examples.demo_train_null
  = inr [Frames.PredRow Z (Some 1) (Some 30) (Some 31);
         Frames.PredRow Z (Some 2) (Some 20) (Some 22);
         Frames.PredRow Z (Some 2) (Some 30) (Some 32)]
  /\ exists rows,
       Frames.top_all Examples.demo_predict Examples.demo_train_null = inr rows
       /\ Frames.PredRow Z (Some 2) (Some 30) (Some 32) ∈ rows.
Proof.
  split; [reflexivity|].
  exact (unrated_record_keeps_its_pair Examples.demo_predict Examples.demo_train_null
           (Frames.RatingRow Z (Some 2) (Some 30) None (Some 880606923)) 2 30 32
           eq_refl ltac:(do 3 right; left) eq_refl eq_refl eq_refl eq_refl).
Defined.

(** ** What the cells hand to one another *)

Section FlowFacts.

Import Traces Checks.

Lemma fed_spec_gen (producer : string) (pick : value -> option value)
    (consumer : string) (n : nat) (seen : list value) (t : trace) :
  fed producer pick consumer n seen t ->
  forall i c r, t !! i = Some (c, r) -> callee c = consumer ->
    (exists v, args c !! n = Some v /\ v ∈ seen)
    \/ exists j c' v, (j < i)%nat /\ t !! j = Some (c', inr v)
                      /\ callee c' = producer /\ args c !! n = pick v.
Proof.
  revert seen. induction t as [|ev t IH]; intros seen Hfed i c r Hi Hc; [done|].
  cbn [fed] in Hfed. cbv zeta in Hfed.
  assert (Hrest : fed producer pick consumer n
            (if String.eqb (callee ev.1) producer
             then match ev.2 with
                  | inr v => match pick v with Some x => x :: seen | None => seen end
                  | inl _ => seen
                  end
             else seen) t).
  { destruct (String.eqb (callee ev.1) consumer); [|done].
    destruct (args ev.1 !! n); [by destruct Hfed|done]. }
  destruct i as [|i].
  - injection Hi as ->. simpl in Hfed. rewrite Hc, String.eqb_refl in Hfed.
    left. destruct (args c !! n) as [v|]; [|done]. destruct Hfed. eauto.
  - simpl in Hi.
    destruct (IH _ Hrest i c r Hi Hc)
      as [(v & Hv & Hin)|(j & c' & v & Hj & Ht & Hp & Hv)].
    + destruct (String.eqb (callee ev.1) producer) eqn:Hp; [|left; eauto].
      destruct ev as [c0 [e|v0]]; simpl in *; [left; eauto|].
      destruct (pick v0) as [x|] eqn:Hx; [|left; eauto].
      apply elem_of_cons in Hin as [->|Hin]; [|left; eauto].
      right. exists 0%nat, c0, v0. split; [lia|]. split; [done|].
      split; [by apply String.eqb_eq|congruence].
    + right. exists (S j), c', v. split; [lia|]. done.
Qed.

Lemma fed_spec (producer : string) (pick : value -> option value)
    (consumer : string) (n : nat) (t : trace) :
  fed producer pick consumer n [] t -> feeds producer pick consumer n t.
Proof.
  intros Hfed i c r Hi Hc.
  destruct (fed_spec_gen _ _ _ _ _ _ Hfed i c r Hi Hc)
    as [(v & _ & []%elem_of_nil)|H]; done.
Qed.

(** Every run of the notebook, checked leaf by leaf. *)
Lemma pipeline_flow_check B u (W : Type) (h : env W) (w : W) :
  Schedule.handed_on (run_M h (Notebook.pipeline B u) tt w).1.1.
Proof.
  unfold Notebook.pipeline, Notebook.create_workspace, Notebook.create_cosmosdb,
    Notebook.create_account, Notebook.create_store, Notebook.write_secrets,
    Notebook.load_and_split, Notebook.fit_model, Notebook.score_candidates,
    Notebook.evaluate, Notebook.save_model, Notebook.write_recommendations,
    Notebook.write_score_script, Notebook.register_model, Notebook.create_image,
    Notebook.create_aks, Notebook.deploy_service, Notebook.call_service.
  cbn [run_M bind try_except ext lift ret exec io_bind fst snd].
  repeat flow_step h.
  all: vm_compute.
  all: repeat first [exact I | apply conj | apply list_elem_of_here
                    | apply list_elem_of_further].
Qed.

(** X14. In every run of the notebook, on any platform, each cell works
    on what the earlier cells produced.  For every hand-off of
    [Schedule.handoffs]: whenever the consumer is called, the argument
    at the given position is a value that an earlier call of the
    producer returned (for the split, its train or its test part).  So
    the workspace that is created is the one the model, the image, the
    cluster and the service are registered, built and deployed in; the
    model is fit on the train part of the split and evaluated on its
    test part; the model that is fit is the one that scores, is saved
    and recommends; what it recommends is what is written to the store;
    and the image and the cluster that were created are the ones
    deployed. *)
Theorem pipeline_passes_results_on (B : builtins) (u : string)
    (W : Type) (h : env W) (w : W) :
  Forall (fun '(producer, pick, consumer, n) =>
            feeds producer pick consumer n (trace_of h (Notebook.pipeline B u) tt w))
         Schedule.handoffs.
Proof.
  pose proof (pipeline_flow_check B u W h w) as H.
  unfold Schedule.handed_on in H. unfold trace_of.
  induction Schedule.handoffs as [|[[[producer pick] consumer] n] l IH];
    [constructor|].
  destruct H as [H1 H2]. constructor; [by apply fed_spec|by apply IH].
Qed.

End FlowFacts.
